(** * The honeypot analysis engine, embedded and verified

    A shallow embedding of the four modules of the AI engine
    ([classifier.py], [anamoly_detector.py], [adaptation_engine.py] and
    [analyer.py]) followed by the properties its specification states and
    by further properties of the code: how the stages of a pass fit
    together, what the stand-alone detector, the adaptation engine and the
    classifier's bookkeeping compute, and how the state evolves.

    Conventions of the embedding.
    - A Python [int] is a [Z]; a Python [float] is a primitive [float]
      (IEEE 754 binary64, the same arithmetic bit for bit).
    - A Python [str] is a [string] of ASCII characters, case folding the
      ASCII one.
    - A Python [dict] that is iterated is an association list in insertion
      order; one that is only read and written by key is a [gmap]; a [set]
      is a [gset].
    - A log entry is a record of optional fields; [None] is an absent key.
    - A [try]/[except] block is a computation in the error monad [result].
    - The entries' [id], [description], [timestamp] and [reason] texts are
      built from the wall clock, MD5 digests and number formatting; they
      carry no decision of the pipeline and are left out of the records.
      The report's own [timestamp] is kept, the clock reading being an
      argument of the pass. *)

From Stdlib Require Import ZArith List String Ascii DecimalString Floats Bool Lia.
From stdpp Require Import base decidable option list gmap strings sorting.

Set Warnings "-inexact-float,-clear-no-such-hyp".
Local Open Scope string_scope.
Local Open Scope list_scope.
Local Open Scope Z_scope.

(** ** Python primitives *)
Module Py.

(** [float(z)], exact below 2^53 and correctly rounded below 2^63. *)
Definition Z2F (z : Z) : float :=
  match z with
  | Z0 => 0%float
  | Zpos _ => PrimFloat.of_uint63 (Uint63.of_Z z)
  | Zneg p => (- PrimFloat.of_uint63 (Uint63.of_Z (Zpos p)))%float
  end.

(** [min(a, b)] and [max(a, b)]: the second argument replaces the first
    only when it compares strictly smaller (larger). *)
Definition min (a b : float) : float := if (b <? a)%float then b else a.
Definition max (a b : float) : float := if (a <? b)%float then b else a.

(** [max(xs)] over a non-empty sequence; [None] is the [ValueError]. *)
Definition max_list (xs : list float) : option float :=
  match xs with
  | [] => None
  | x :: xs' => Some (fold_left max xs' x)
  end.

(** [max(items, key=lambda x: x[1], default=d)]: the first entry whose
    count is not exceeded by a later one. *)
Definition max_by_count {K : Type} (items : list (K * Z)) : option (K * Z) :=
  match items with
  | [] => None
  | x :: items' =>
      Some (fold_left (fun best y => if best.2 <? y.2 then y else best) items' x)
  end.

Definition lower_ascii (c : ascii) : ascii :=
  let n := N_of_ascii c in
  if ((65 <=? n) && (n <=? 90))%N then ascii_of_N (n + 32) else c.

(** [s.lower()] on the ASCII letters. *)
Definition lower (s : list ascii) : list ascii := map lower_ascii s.

Fixpoint starts_with (sub s : list ascii) : bool :=
  match sub, s with
  | [], _ => true
  | _ :: _, [] => false
  | c :: sub', d :: s' => Ascii.eqb c d && starts_with sub' s'
  end.

(** [sub in s] on strings. *)
Fixpoint contains (sub s : list ascii) : bool :=
  starts_with sub s || match s with [] => false | _ :: s' => contains sub s' end.

Definition str_in (sub : string) (s : list ascii) : bool :=
  contains (list_ascii_of_string sub) s.

End Py.

(** ** The fragment of [re] the signatures are written in

    Literal characters, backslash-escaped literals, [.] and [.*], searched
    with [re.IGNORECASE]. The dot matches every character except the line
    feed. [in_fragment] tells whether a pattern is written in this
    fragment. On a pattern outside of it (an operator, a character class,
    a group, an anchor) [search] reads the operator as a literal, which
    [re] does not: what a property says of the patterns that match is
    said of [re] for the patterns of the fragment only, those of the
    table [__init__] builds among them. *)
Module Regex.

Inductive atom : Type :=
| Lit (c : ascii)
| Dot
| DotStar.

Fixpoint compile (p : list ascii) : list atom :=
  match p with
  | [] => []
  | "\"%char :: c :: p' => Lit c :: compile p'
  | "."%char :: "*"%char :: p' => DotStar :: compile p'
  | "."%char :: p' => Dot :: compile p'
  | c :: p' => Lit c :: compile p'
  end.

Definition is_newline (c : ascii) : bool := Ascii.eqb c "010"%char.

Definition same_letter (c d : ascii) : bool :=
  Ascii.eqb (Py.lower_ascii c) (Py.lower_ascii d).

(** Does the expression match a prefix of the text? *)
Fixpoint match_here (re : list atom) : list ascii -> bool :=
  match re with
  | [] => fun _ => true
  | Lit c :: re' => fun s =>
      match s with
      | d :: s' => same_letter c d && match_here re' s'
      | [] => false
      end
  | Dot :: re' => fun s =>
      match s with
      | d :: s' => negb (is_newline d) && match_here re' s'
      | [] => false
      end
  | DotStar :: re' =>
      fix star (s : list ascii) : bool :=
        match_here re' s
        || match s with
           | d :: s' => negb (is_newline d) && star s'
           | [] => false
           end
  end.

Fixpoint search_from (re : list atom) (s : list ascii) : bool :=
  match_here re s
  || match s with [] => false | _ :: s' => search_from re s' end.

(** [re.search(pattern, text, re.IGNORECASE)] is not [None]. *)
Definition search (pattern : string) (text : list ascii) : bool :=
  search_from (compile (list_ascii_of_string pattern)) text.

(** The characters that would take a pattern out of the fragment: the
    operators, and a backslash before a letter or a digit (a character
    class or a group reference) or at the end. *)
Definition meta_chars : list ascii :=
  list_ascii_of_string "*+?[](){}|^$\".

Definition is_alphanumeric (c : ascii) : bool :=
  let n := N_of_ascii c in
  (((48 <=? n) && (n <=? 57)) || ((65 <=? n) && (n <=? 90)) || ((97 <=? n) && (n <=? 122)))%N.

Fixpoint in_fragment (p : list ascii) : bool :=
  match p with
  | [] => true
  | "\"%char :: c :: p' => negb (is_alphanumeric c) && in_fragment p'
  | "."%char :: "*"%char :: p' => in_fragment p'
  | c :: p' => negb (existsb (Ascii.eqb c) meta_chars) && in_fragment p'
  end.

End Regex.

(** ** The error monad of the [try] blocks *)
Inductive result (A : Type) : Type :=
| Ok (a : A)
| Fault (why : string).
Arguments Ok {A} a.
Arguments Fault {A} why.

#[global] Instance result_ret : MRet result := fun A a => Ok a.
#[global] Instance result_bind : MBind result := fun A B k r =>
  match r with
  | Ok a => k a
  | Fault why => Fault why
  end.

(** ** Log entries *)

(** A [message] value is a text or some other JSON value. *)
Inductive message_field : Type :=
| MsgText (s : string)
| MsgOther.

(** A [timestamp] value is a text. What [pd.to_datetime] makes of the
    text is recorded with it:
    - the format the parser infers from the text when the text opens a
      column, such as [%Y-%m-%dT%H:%M:%S.%f] for an ISO text with a
      fraction of a second, and [None] when it infers none;
    - the instant its lenient parser, which reads a text on its own,
      finds in the text, and [None] when the text is no date;
    - the formats the text matches exactly, each with the instant read
      under it.
    Instants are microseconds since the epoch. The texts pandas reads as
    a missing value or as the wall clock (the empty text, [NaT], [nan],
    [now], [today]) and the texts with a zone offset are left out. *)
Record timestamp_field : Type := mkTimestamp {
  ts_text : string;
  ts_layout : option string;
  ts_lenient : option Z;
  ts_exact : list (string * Z)
}.

Record Event : Type := mkEvent {
  src_ip : option string;
  dst_port : option Z;
  protocol : option string;
  message : option message_field;
  timestamp : option timestamp_field;
  frequency_estimate : option float;
  time_variance : option float
}.

(** The value of an indicator: a flag or a number. *)
Inductive indicator : Type :=
| IBool (b : bool)
| IInt (z : Z).

Definition dst_port_or_zero (e : Event) : Z := default 0 (dst_port e).

(** [log_entry.get('message', '')] used as a string: the text, or the fault
    a value without string methods raises. *)
Definition message_text (e : Event) : result (list ascii) :=
  match message e with
  | None => Ok []
  | Some (MsgText s) => Ok (list_ascii_of_string s)
  | Some MsgOther => Fault "message is not a string"
  end.

(** ** classifier.py *)
Module Classifier.

(** The three shapes of dictionary [classify_attack] can return. *)
Inductive Classification : Type :=
| RuleBased (attack_type : string) (confidence : float)
    (matched_patterns : list string) (indicators : list (string * indicator))
| MachineLearning (attack_type : string) (confidence : float)
    (probabilities : list (string * float))
| Failed (method : string) (error : string).

Definition attack_type_of (c : Classification) : string :=
  match c with
  | RuleBased t _ _ _ | MachineLearning t _ _ => t
  | Failed _ _ => "unknown"
  end.

Definition confidence_of (c : Classification) : float :=
  match c with
  | RuleBased _ x _ _ | MachineLearning _ x _ => x
  | Failed _ _ => 0%float
  end.

Definition method_of (c : Classification) : string :=
  match c with
  | RuleBased _ _ _ _ => "rule_based"
  | MachineLearning _ _ _ => "machine_learning"
  | Failed m _ => m
  end.

(** The classifier object. The fitted scaler, forest and label encoder
    are one function from a feature vector to the predicted label and the
    class probabilities; [None] is any exception they raise. *)
Record AttackClassifier : Type := mkClassifier {
  attack_signatures : list (string * list string);
  is_trained : bool;
  model : list float -> option (string * list (string * float))
}.

(** The signature table [__init__] builds, in the order of the literal. *)
Definition default_signatures : list (string * list string) :=
  [ ("brute_force",
      [ "Failed password for.*from.*port";
        "authentication failure.*rhost=";
        "Invalid user.*from.*";
        "Failed login attempt" ]);
    ("port_scan",
      [ "Connection attempt.*refused";
        "SYN flood detected";
        "Port scan detected";
        "Multiple connection attempts" ]);
    ("web_attack",
      [ "GET.*\.\./\.\.";
        "SELECT.*FROM.*WHERE";
        "<script.*>.*</script>";
        "union.*select";
        "eval\(";
        "cmd=.*&" ]);
    ("ddos",
      [ "SYN flood";
        "UDP flood";
        "Connection flood";
        "Rate limit exceeded" ]);
    ("malware",
      [ "Known malware signature";
        "Suspicious file upload";
        "Backdoor detected";
        "Trojan activity" ]) ].

Definition new_classifier (trained : bool)
    (m : list float -> option (string * list (string * float))) : AttackClassifier :=
  {| attack_signatures := default_signatures; is_trained := trained; model := m |}.

Definition check_common_passwords (msg : list ascii) : bool :=
  existsb (fun pwd => Py.str_in pwd (Py.lower msg))
    [ "password"; "123456"; "admin"; "root"; "guest";
      "user"; "test"; "default"; "pass"; "12345" ].

Definition extract_indicators (e : Event) (attack_type : string)
    : result (list (string * indicator)) :=
  text ← message_text e;
  let msg := Py.lower text in
  let has (w : string) := Py.str_in w msg in
  mret (
    if bool_decide (attack_type = "brute_force") then
      [ ("failed_login", IBool (has "failed" || has "invalid"));
        ("multiple_attempts", IBool true);
        ("common_passwords", IBool (check_common_passwords msg));
        ("username_enumeration", IBool (has "user")) ]
    else if bool_decide (attack_type = "port_scan") then
      [ ("connection_refused", IBool (has "refused" || has "closed"));
        ("rapid_connections", IBool true);
        ("port_range", IInt (dst_port_or_zero e));
        ("stealth_scan", IBool (Py.str_in "syn" (Py.lower msg))) ]
    else if bool_decide (attack_type = "web_attack") then
      [ ("sql_injection", IBool (existsb has ["select"; "union"; "where"; "drop"]));
        ("xss_attempt", IBool (has "<script" || has "javascript:"));
        ("path_traversal", IBool (has "../"));
        ("command_injection", IBool (existsb has ["cmd="; "exec"; "system"])) ]
    else if bool_decide (attack_type = "ddos") then
      [ ("high_volume", IBool true);
        ("multiple_sources", IBool true);
        ("resource_exhaustion", IBool (has "timeout" || has "limit")) ]
    else []).

(** The port test of the rule stage: an [if]/[elif] chain on the kind. *)
Definition port_boost (attack_type : string) (port : Z) (confidence : float) : float :=
  if bool_decide (attack_type = "web_attack") && bool_decide (port ∈ [80; 443; 8080])
  then (confidence + 0.1)%float
  else if bool_decide (attack_type = "brute_force") && bool_decide (port ∈ [22; 21; 3389])
  then (confidence + 0.1)%float
  else if bool_decide (attack_type = "port_scan") && bool_decide (1 ≤ port < 1024)
  then (confidence + 0.05)%float
  else confidence.

(** The confidence of a kind of which [patterns_matched > 0] patterns out
    of [total] matched. *)
Definition pattern_confidence (attack_type : string) (patterns_matched total : nat)
    (port : Z) : float :=
  let confidence :=
    Py.min 0.9 (Py.Z2F (Z.of_nat patterns_matched) / Py.Z2F (Z.of_nat total) + 0.3)%float in
  Py.min 1.0 (port_boost attack_type port confidence).

(** The variables the loop of the rule stage updates. *)
Record rule_state : Type := mkRuleState {
  max_confidence : float;
  detected_type : string;
  matched_patterns : list string
}.

Definition patterns_hit (msg : list ascii) (patterns : list string) : list string :=
  List.filter (fun p => Regex.search p msg) patterns.

(** One iteration of [for attack_type, config in attack_signatures.items()]. *)
Definition rule_step (msg : list ascii) (port : Z) (st : rule_state)
    (sig : string * list string) : rule_state :=
  let hits := patterns_hit msg sig.2 in
  let matched := matched_patterns st ++ hits in
  if (0 <? length hits)%nat then
    let confidence := pattern_confidence sig.1 (length hits) (length sig.2) port in
    if (max_confidence st <? confidence)%float
    then mkRuleState confidence sig.1 matched
    else mkRuleState (max_confidence st) (detected_type st) matched
  else mkRuleState (max_confidence st) (detected_type st) matched.

Definition rule_loop (sigs : list (string * list string)) (msg : list ascii) (port : Z)
    : rule_state :=
  fold_left (rule_step msg port) sigs (mkRuleState 0 "normal" []).

Definition rule_based_classification (clf : AttackClassifier) (e : Event)
    : result Classification :=
  text ← message_text e;
  let st := rule_loop (attack_signatures clf) (Py.lower text) (dst_port_or_zero e) in
  indicators ← extract_indicators e (detected_type st);
  mret (RuleBased (detected_type st) (max_confidence st) (matched_patterns st) indicators).

Definition extract_ml_features (e : Event) : result (list float) :=
  text ← message_text e;
  let frequency := default 1%float (frequency_estimate e) in
  let port_count := 1%float in
  let payload_size := Py.Z2F (Z.of_nat (length text)) in
  let variance := default 30%float (time_variance e) in
  let error_rate := if Py.str_in "error" (Py.lower text) then 0.1%float else 0.05%float in
  mret [frequency; port_count; payload_size; variance; error_rate].

Definition ml_classification (clf : AttackClassifier) (e : Event) : Classification :=
  let attempt : result Classification :=
    features ← extract_ml_features e;
    match model clf features with
    | None => Fault "prediction failed"
    | Some (label, probabilities) =>
        match Py.max_list (map snd probabilities) with
        | None => Fault "max() arg is an empty sequence"
        | Some confidence => mret (MachineLearning label confidence probabilities)
        end
    end in
  match attempt with
  | Ok r => r
  | Fault why => Failed "ml_error" why
  end.

Inductive stage : Type := RuleStage | StatisticalStage.

#[global] Instance stage_eq_dec : EqDecision stage.
Proof. solve_decision. Defined.

(** [classify_attack], with the stages it called, in call order. *)
Definition classify_attack_traced (clf : AttackClassifier) (e : Event)
    : list stage * Classification :=
  match rule_based_classification clf e with
  | Fault why => ([RuleStage], Failed "error" why)
  | Ok rule_result =>
      if (0.7 <? confidence_of rule_result)%float then ([RuleStage], rule_result)
      else if is_trained clf then
        let ml_result := ml_classification clf e in
        ([RuleStage; StatisticalStage],
         if (confidence_of rule_result <? confidence_of ml_result)%float
         then ml_result else rule_result)
      else ([RuleStage], rule_result)
  end.

Definition classify_attack (clf : AttackClassifier) (e : Event) : Classification :=
  (classify_attack_traced clf e).2.

Definition batch_classify (clf : AttackClassifier) (entries : list Event)
    : list (Event * Classification) :=
  map (fun entry => (entry, classify_attack clf entry)) entries.

(** [update_signatures]: the patterns of a known kind are extended in
    place, a new kind is added at the end of the table. *)
Fixpoint extend_patterns (attack_type : string) (patterns : list string)
    (sigs : list (string * list string)) : list (string * list string) :=
  match sigs with
  | [] => [(attack_type, patterns)]
  | (k, old) :: sigs' =>
      if decide (k = attack_type) then (k, old ++ patterns) :: sigs'
      else (k, old) :: extend_patterns attack_type patterns sigs'
  end.

Definition update_signatures (clf : AttackClassifier)
    (new_patterns : list (string * list string)) : AttackClassifier :=
  {| attack_signatures :=
       fold_left (fun sigs entry => extend_patterns entry.1 entry.2 sigs)
         new_patterns (attack_signatures clf);
     is_trained := is_trained clf;
     model := model clf |}.

(** [d[k] = d.get(k, 0) + 1] on a dictionary of counters. *)
Fixpoint increment (k : string) (d : list (string * Z)) : list (string * Z) :=
  match d with
  | [] => [(k, 1)]
  | (k', n) :: d' =>
      if decide (k' = k) then (k', n + 1) :: d' else (k', n) :: increment k d'
  end.

Record AttackStatistics : Type := mkAttackStatistics {
  total_classified : Z;
  attack_distribution : list (string * Z);
  confidence_distribution : list (string * Z);
  method_usage : list (string * Z);
  high_confidence_attacks : Z
}.

Definition confidence_bucket (confidence : float) : string :=
  if (0.8 <? confidence)%float then "high"
  else if (0.5 <? confidence)%float then "medium"
  else "low".

Definition statistics_step (stats : AttackStatistics) (r : Classification)
    : AttackStatistics :=
  {| total_classified := total_classified stats;
     attack_distribution := increment (attack_type_of r) (attack_distribution stats);
     confidence_distribution :=
       increment (confidence_bucket (confidence_of r)) (confidence_distribution stats);
     method_usage := increment (method_of r) (method_usage stats);
     high_confidence_attacks :=
       if (0.8 <? confidence_of r)%float
       then high_confidence_attacks stats + 1 else high_confidence_attacks stats |}.

Definition get_attack_statistics (classifications : list Classification)
    : AttackStatistics :=
  fold_left statistics_step classifications
    (mkAttackStatistics (Z.of_nat (length classifications)) [] [] [] 0).

End Classifier.

(** ** The pandas operations the engine uses

    A column is the list of its cells, [None] for a missing one; missing
    cells are skipped by every aggregate. [value_counts] lists each distinct
    value with its number of occurrences, the most frequent first and equal
    counts in order of first appearance. *)
Module DataFrame.

Section Column.
Context {A : Type} `{EqDecision A}.

(** ['c' in df.columns]: some row has the key. *)
Definition has_column (col : list (option A)) : bool :=
  existsb (fun c => bool_decide (is_Some c)) col.

Definition cells (col : list (option A)) : list A := omap id col.

(** The distinct values in order of first appearance. *)
Definition first_seen (xs : list A) : list A :=
  fold_left (fun seen x => if decide (x ∈ seen) then seen else seen ++ [x]) xs [].

Definition count (x : A) (xs : list A) : Z :=
  Z.of_nat (length (filter (fun y => y = x) xs)).

Definition nunique (col : list (option A)) : Z :=
  Z.of_nat (length (first_seen (cells col))).

(** Insertion into a table sorted by decreasing count, before the
    entries that do not count more. *)
Fixpoint insert_desc (e : A * Z) (t : list (A * Z)) : list (A * Z) :=
  match t with
  | [] => [e]
  | y :: t' => if y.2 <=? e.2 then e :: y :: t' else y :: insert_desc e t'
  end.

Definition sort_desc (t : list (A * Z)) : list (A * Z) :=
  foldr insert_desc [] t.

Definition value_counts (col : list (option A)) : list (A * Z) :=
  let xs := cells col in
  sort_desc (map (fun x => (x, count x xs)) (first_seen xs)).

(** [d.get(k)] on a dictionary kept as an association list. *)
Definition lookup (k : A) {V : Type} (d : list (A * V)) : option V :=
  snd <$> List.find (fun kv => bool_decide (kv.1 = k)) d.

End Column.

Definition head {A : Type} (n : nat) (t : list A) : list A := take n t.

(** The messages of the [ValueError] of [pd.to_datetime]: they name the
    text that could not be read and its position in the column. Where
    pandas words a mismatch in several ways, after what is left of the
    text, the one wording below stands for them; and where it converts
    the distinct texts of a long column in place of the column, the
    position it names is the one among them. *)
Definition decimal (n : nat) : string := NilEmpty.string_of_uint (Nat.to_uint n).

Definition quoted (s : string) : string :=
  String (ascii_of_nat 34) (s ++ String (ascii_of_nat 34) EmptyString)%string.

Definition line_feed : string := String (ascii_of_nat 10) EmptyString.

Definition unknown_format (raw : string) (position : nat) : string :=
  ("Unknown datetime string format, unable to parse: " ++ raw
   ++ ", at position " ++ decimal position)%string.

Definition format_mismatch (raw format : string) (position : nat) : string :=
  ("time data " ++ quoted raw ++ " doesn't match format " ++ quoted format
   ++ ", at position " ++ decimal position ++ ". You might want to try:" ++ line_feed
   ++ "    - passing `format` if your strings have a consistent format;" ++ line_feed
   ++ "    - passing `format='ISO8601'` if your strings are all ISO8601 "
   ++ "but not necessarily in exactly the same format;" ++ line_feed
   ++ "    - passing `format='mixed'`, and the format will be inferred "
   ++ "for each element individually. "
   ++ "You might want to use `dayfirst` alongside this.")%string.

(** [pd.to_datetime] of a column of texts, as pandas 2 reads it. The
    format is inferred from the first present cell, and every cell is
    then read in that format, exactly: a date that does not match it
    raises like a text that is no date. When no format is inferred (as
    always under pandas 1) each cell is read leniently, on its own. The
    first cell that cannot be read raises. *)
Definition inferred_format (col : list (option timestamp_field)) : option string :=
  match cells col with
  | c :: _ => ts_layout c
  | [] => None
  end.

(** The instant of a text read in the format of its column. *)
Definition instant (format : option string) (c : timestamp_field) : option Z :=
  match format with
  | Some f => lookup f (ts_exact c)
  | None => ts_lenient c
  end.

Definition read_cell (format : option string) (position : nat) (c : timestamp_field)
    : result Z :=
  match instant format c, format with
  | Some us, _ => mret us
  | None, Some f => Fault (format_mismatch (ts_text c) f position)
  | None, None => Fault (unknown_format (ts_text c) position)
  end.

Fixpoint read_column (format : option string) (position : nat)
    (col : list (option timestamp_field)) : result (list (option Z)) :=
  match col with
  | [] => mret []
  | None :: col' =>
      rest ← read_column format (S position) col'; mret (None :: rest)
  | Some c :: col' =>
      us ← read_cell format position c;
      rest ← read_column format (S position) col';
      mret (Some us :: rest)
  end.

Definition to_datetime (col : list (option timestamp_field)) : result (list (option Z)) :=
  read_column (inferred_format col) 0 col.

Definition minimum (xs : list Z) : Z := foldr Z.min (List.hd 0 xs) xs.
Definition maximum (xs : list Z) : Z := foldr Z.max (List.hd 0 xs) xs.

(** [(col.max() - col.min()).total_seconds()], timestamps in microseconds. *)
Definition span_seconds (col : list (option Z)) : float :=
  let xs := cells col in
  (Py.Z2F (maximum xs - minimum xs) / 1000000)%float.

End DataFrame.

Arguments DataFrame.head : simpl never.
Arguments DataFrame.value_counts : simpl never.
Arguments DataFrame.nunique : simpl never.

(** ** The dictionaries passed between the stages *)

Inductive level : Type := Critical | High | Medium | Low.

#[global] Instance level_eq_dec : EqDecision level.
Proof. solve_decision. Defined.

Record PatternData : Type := mkPattern {
  is_known_malicious : bool;
  frequency : Z;
  ports_targeted : Z
}.

Record TimeRange : Type := mkTimeRange {
  range_start : Z;
  range_end : Z;
  duration_minutes : float
}.

Record Features : Type := mkFeatures {
  total_events : Z;
  unique_ips : Z;
  unique_ports : Z;
  time_range : option TimeRange;
  ip_frequency : list (string * Z);
  port_frequency : list (Z * Z);
  patterns : list (string * PatternData);
  protocol_distribution : option (list (string * Z))
}.

Record Attack : Type := mkAttack {
  a_type : string;
  a_severity : level;
  a_source_ip : string;
  a_confidence : float;
  a_indicators : list (string * indicator)
}.

Record Anomaly : Type := mkAnomaly {
  an_type : string;
  an_ip : option string;
  an_severity : level;
  an_confidence : float;
  an_unusual_ports : option (list Z)
}.

Record Threat : Type := mkThreat {
  t_severity : level;
  t_type : string;
  t_source : string;
  t_attack_types : option (list string);
  t_business_impact : string;
  t_recommended_actions : list string
}.

Inductive parameters : Type :=
| SpawnParams (ports : list Z) (services : list string) (count : Z)
| BlockParams (ips : list string) (duration scope : string)
| MonitorParams (focus_ports : list Z) (alert_threshold : Z).

Record Recommendation : Type := mkRecommendation {
  r_type : string;
  r_priority : level;
  r_action : string;
  r_parameters : parameters;
  r_business_justification : string
}.

(** ** anamoly_detector.py *)
Module AnomalyDetector.

Definition common_ports : list Z := [22; 80; 443; 3389; 21; 25; 53].

(** [df.empty]: no row carries any key. *)
Definition empty (df : list Event) : bool :=
  forallb (fun e =>
    bool_decide (src_ip e = None) && bool_decide (dst_port e = None)
    && bool_decide (protocol e = None) && bool_decide (message e = None)
    && bool_decide (timestamp e = None)
    && negb (bool_decide (is_Some (frequency_estimate e)))
    && negb (bool_decide (is_Some (time_variance e)))) df.

Definition temporal_burst (df : list Event) : result (list Anomaly) :=
  if DataFrame.has_column (map timestamp df) then
    stamps ← DataFrame.to_datetime (map timestamp df);
    let time_window := DataFrame.span_seconds stamps in
    mret (if (time_window <? 60)%float && (100 <? Z.of_nat (length df))
          then [mkAnomaly "Temporal Burst" None Medium 0.8%float None]
          else [])
  else mret [].

Definition port_targeting (df : list Event) : list Anomaly :=
  if DataFrame.has_column (map dst_port df) then
    let targeted_ports := DataFrame.value_counts (map dst_port df) in
    let unusual_ports :=
      List.filter (fun pc => negb (bool_decide (pc.1 ∈ common_ports))) targeted_ports in
    if 5 <? Z.of_nat (length unusual_ports)
    then [mkAnomaly "Unusual Port Targeting" None Low 0.6%float None]
    else []
  else [].

Definition frequency_spike (ip_count : string * Z) : list Anomaly :=
  let '(ip, count) := ip_count in
  if 50 <? count then
    [mkAnomaly "IP Frequency Spike" (Some ip)
       (if 100 <? count then High else Medium)
       (Py.min 0.95 (Py.Z2F count / 150)%float) None]
  else [].

Definition ip_spikes (df : list Event) : list Anomaly :=
  if DataFrame.has_column (map src_ip df) then
    let top_ips := DataFrame.value_counts (map src_ip df) in
    concat (map frequency_spike top_ips)
  else [].

(** [detect]: the three checks append to one list, in this order. *)
Definition detect (df : list Event) : result (list Anomaly) :=
  if empty df then mret []
  else
    bursts ← temporal_burst df;
    mret (bursts ++ port_targeting df ++ ip_spikes df).

End AnomalyDetector.

(** ** adaptation_engine.py *)
Module AdaptationEngine.

Record Deployment : Type := mkDeployment {
  d_action : string;
  d_priority : level;
  d_ports : list Z;
  d_instances : Z;
  d_decoys : list string
}.

Definition critical_ports : list Z := [22; 21; 80; 443; 3389].

Definition identify_high_value_ports (features : Features) : list Z :=
  let port_freq := port_frequency features in
  let high_value_ports :=
    List.filter (fun port =>
      match DataFrame.lookup port port_freq with
      | Some n => 5 <? n
      | None => false
      end) critical_ports in
  let high_value_ports :=
    fold_left (fun acc pc =>
      if (10 <? pc.2) && negb (bool_decide (pc.1 ∈ acc)) then acc ++ [pc.1] else acc)
      port_freq high_value_ports in
  take 10 high_value_ports.

Definition generate_adaptation_plan (threats : list Threat) (features : Features)
    : list Deployment :=
  match threats with
  | [] => []
  | _ :: _ =>
      let high_value_ports := identify_high_value_ports features in
      match high_value_ports with
      | [] => []
      | _ :: _ =>
          [ mkDeployment "deploy_honeypots" High high_value_ports
              (Z.min 5 (Z.of_nat (length high_value_ports))) ["SSH"; "HTTP"; "FTP"] ]
      end
  end.

End AdaptationEngine.

(** ** analyer.py *)
Module Analyzer.

(** The state the analyzer object keeps between passes. *)
Record HoneypotAIAnalyzer : Type := mkAnalyzer {
  known_malicious_ips : gset string;
  reputation_scores : gmap string Z
}.

(** The object [__init__] builds. *)
Definition new_analyzer : HoneypotAIAnalyzer :=
  {| known_malicious_ips := {[ "192.168.1.100"; "10.0.0.50"; "172.16.0.10" ]};
     reputation_scores := ∅ |}.

(** *** Feature extraction *)

Definition rows_of (ip : string) (df : list Event) : list Event :=
  List.filter (fun e => bool_decide (src_ip e = Some ip)) df.

Definition pattern_of (self : HoneypotAIAnalyzer) (df : list Event)
    (ip_frequency : list (string * Z)) (ip : string) : PatternData :=
  {| is_known_malicious := bool_decide (ip ∈ known_malicious_ips self);
     frequency := default 0 (DataFrame.lookup ip ip_frequency);
     ports_targeted :=
       if DataFrame.has_column (map dst_port df)
       then DataFrame.nunique (map dst_port (rows_of ip df))
       else 0 |}.

Definition time_analysis (df : list Event) : result (option TimeRange) :=
  if DataFrame.has_column (map timestamp df) then
    stamps ← DataFrame.to_datetime (map timestamp df);
    let xs := DataFrame.cells stamps in
    mret (Some {| range_start := DataFrame.minimum xs;
                  range_end := DataFrame.maximum xs;
                  duration_minutes := (DataFrame.span_seconds stamps / 60)%float |})
  else mret None.

Definition extract_features (self : HoneypotAIAnalyzer) (df : list Event)
    : result Features :=
  let ips := map src_ip df in
  let ports := map dst_port df in
  let n_events := Z.of_nat (length df) in
  let n_ips := if DataFrame.has_column ips then DataFrame.nunique ips else 0 in
  let n_ports := if DataFrame.has_column ports then DataFrame.nunique ports else 0 in
  if n_events =? 0 then mret (mkFeatures n_events n_ips n_ports None [] [] [] None)
  else
    range ← time_analysis df;
    let ip_freq :=
      if DataFrame.has_column ips
      then DataFrame.head 10 (DataFrame.value_counts ips) else [] in
    let pats := map (fun ip => (ip, pattern_of self df ip_freq ip)) (map fst ip_freq) in
    let port_freq :=
      if DataFrame.has_column ports
      then DataFrame.head 10 (DataFrame.value_counts ports) else [] in
    let protocols :=
      if DataFrame.has_column (map protocol df)
      then Some (DataFrame.value_counts (map protocol df)) else None in
    mret (mkFeatures n_events n_ips n_ports range ip_freq port_freq pats protocols).

(** *** Attack classification over the per-source summaries *)

Definition brute_force_attack (entry : string * PatternData) : option Attack :=
  let '(ip, data) := entry in
  if 10 <? frequency data then
    Some {| a_type := "brute_force";
            a_severity := if 50 <? frequency data then High else Medium;
            a_source_ip := ip;
            a_confidence := Py.min 0.9 (Py.Z2F (frequency data) / 100)%float;
            a_indicators :=
              [ ("attempt_count", IInt (frequency data));
                ("ports_targeted", IInt (ports_targeted data));
                ("known_malicious", IBool (is_known_malicious data)) ] |}
  else None.

Definition port_scan_attack (entry : string * PatternData) : Attack :=
  let '(ip, data) := entry in
  {| a_type := "port_scan";
     a_severity := Medium;
     a_source_ip := ip;
     a_confidence := Py.min 0.95 (Py.Z2F (ports_targeted data) / 20)%float;
     a_indicators :=
       [ ("ports_scanned", IInt (ports_targeted data));
         ("scan_frequency", IInt (frequency data)) ] |}.

Definition classify_attacks (features : Features) : list Attack :=
  let brute := omap brute_force_attack (patterns features) in
  let port_scanners :=
    List.filter (fun entry => 5 <? ports_targeted entry.2) (patterns features) in
  brute ++ map port_scan_attack port_scanners.

(** *** The analyzer's own anomaly rules *)

Definition usual_ports : list Z := [22; 80; 443; 21; 25; 53; 3389].

Definition detect_anomalies (features : Features) : list Anomaly :=
  let timing :=
    match time_range features with
    | Some range =>
        if (duration_minutes range <? 1)%float && (100 <? total_events features)
        then [mkAnomaly "temporal_anomaly" None Medium 0.8%float None]
        else []
    | None => []
    end in
  let top_ports := map fst (port_frequency features) in
  let unusual_ports :=
    List.filter (fun p => negb (bool_decide (p ∈ usual_ports))) top_ports in
  let targeting :=
    if 3 <? Z.of_nat (length unusual_ports)
    then [mkAnomaly "unusual_ports" None Low 0.6%float (Some unusual_ports)]
    else [] in
  timing ++ targeting.

(** *** Threat analysis *)

Definition impact_mapping : list (string * string) :=
  [ ("brute_force", "Medium - Potential service disruption and credential compromise");
    ("port_scan", "Low - Reconnaissance activity, may precede actual attack");
    ("web_attack", "High - Direct threat to web services and data");
    ("malware", "Critical - System compromise and data breach risk") ].

Definition assess_business_impact (attack : Attack) : string :=
  default "Unknown impact" (DataFrame.lookup (a_type attack) impact_mapping).

Definition action_mapping : list (string * list string) :=
  [ ("brute_force",
      [ "Change default passwords immediately";
        "Enable account lockout policies";
        "Consider IP blocking";
        "Review access logs" ]);
    ("port_scan",
      [ "Close unnecessary open ports";
        "Enable firewall logging";
        "Monitor for follow-up attacks";
        "Review network segmentation" ]);
    ("web_attack",
      [ "Update web application";
        "Enable WAF protection";
        "Review application logs";
        "Patch known vulnerabilities" ]) ].

Definition get_recommended_actions (attack : Attack) : list string :=
  default ["Review security policies"; "Monitor closely"]
    (DataFrame.lookup (a_type attack) action_mapping).

Definition immediate_threat (attack : Attack) : Threat :=
  {| t_severity := Critical;
     t_type := "immediate_threat";
     t_source := a_source_ip attack;
     t_attack_types := None;
     t_business_impact := assess_business_impact attack;
     t_recommended_actions := get_recommended_actions attack |}.

(** [ip_attacks[ip].append(attack)], the key created at the end of the
    dictionary when it is new. *)
Fixpoint dict_append (ip : string) (attack : Attack) (d : list (string * list Attack))
    : list (string * list Attack) :=
  match d with
  | [] => [(ip, [attack])]
  | (k, v) :: d' =>
      if decide (k = ip) then (k, v ++ [attack]) :: d'
      else (k, v) :: dict_append ip attack d'
  end.

Definition group_by_source (attacks : list Attack) : list (string * list Attack) :=
  fold_left (fun d attack => dict_append (a_source_ip attack) attack d) attacks [].

Definition persistent_threat (entry : string * list Attack) : Threat :=
  {| t_severity := High;
     t_type := "persistent_threat";
     t_source := entry.1;
     t_attack_types := Some (map a_type entry.2);
     t_business_impact := "High - Targeted attack likely";
     t_recommended_actions :=
       ["Block IP immediately"; "Review security policies"; "Monitor related IPs"] |}.

Definition analyze_threats (attacks : list Attack) (anomalies : list Anomaly)
    : list Threat :=
  let critical_attacks :=
    List.filter (fun a => bool_decide (a_severity a = High)) attacks in
  let ip_attacks := group_by_source attacks in
  map immediate_threat critical_attacks
  ++ map persistent_threat
       (List.filter (fun entry => (1 <? length entry.2)%nat) ip_attacks).

(** *** Recommendations *)

Definition critical_ports : list Z := [22; 21; 80; 443; 3389; 25; 53; 135; 139; 445].

Definition identify_high_value_ports (features : Features) : list Z :=
  let port_freq := port_frequency features in
  let high_value_ports :=
    List.filter (fun port =>
      match DataFrame.lookup port port_freq with
      | Some n => 5 <? n
      | None => false
      end) critical_ports in
  let high_value_ports :=
    fold_left (fun acc pc =>
      if (10 <? pc.2) && negb (bool_decide (pc.1 ∈ acc)) then acc ++ [pc.1] else acc)
      port_freq high_value_ports in
  take 10 high_value_ports.

Definition adapt_recommendation (features : Features) : Recommendation :=
  let high_value_ports := identify_high_value_ports features in
  {| r_type := "adapt";
     r_priority := High;
     r_action := "spawn_honeypots";
     r_parameters :=
       SpawnParams high_value_ports ["ssh"; "web"; "ftp"]
         (Z.min 5 (Z.of_nat (length high_value_ports)));
     r_business_justification :=
       "Increase attack visibility and threat intelligence gathering" |}.

Definition frequent_attackers (features : Features) : list string :=
  map fst (List.filter (fun ic => 20 <? ic.2) (ip_frequency features)).

Definition block_recommendation (ips : list string) : Recommendation :=
  {| r_type := "security_policy";
     r_priority := Critical;
     r_action := "block_ips";
     r_parameters := BlockParams ips "permanent" "all_services";
     r_business_justification :=
       "Prevent resource exhaustion and reduce attack surface" |}.

Definition monitoring_recommendation (features : Features) : Recommendation :=
  {| r_type := "monitoring";
     r_priority := Medium;
     r_action := "enhance_monitoring";
     r_parameters := MonitorParams (take 5 (map fst (port_frequency features))) 10;
     r_business_justification := "Early warning system for targeted attacks" |}.

Definition generate_recommendations (threats : list Threat) (features : Features)
    : list Recommendation :=
  (if (0 <? length threats)%nat then [adapt_recommendation features] else [])
  ++ (match frequent_attackers features with
      | [] => []
      | ips => [block_recommendation ips]
      end)
  ++ (if 10 <? unique_ports features then [monitoring_recommendation features] else []).

(** *** Statistics *)

Record Statistics : Type := mkStatistics {
  s_total_events : Z;
  s_unique_attackers : Z;
  s_ports_targeted : Z;
  s_top_attacker : option (string * Z);
  s_most_targeted_port : option (option Z * Z);
  s_attack_intensity : string;
  s_threat_level : string
}.

Definition calculate_attack_intensity (features : Features) : string :=
  match time_range features with
  | None => "Unknown"
  | Some range =>
      if (duration_minutes range =? 0)%float then "Unknown"
      else
        let events_per_minute :=
          (Py.Z2F (total_events features) / duration_minutes range)%float in
        if (50 <? events_per_minute)%float then "Critical"
        else if (20 <? events_per_minute)%float then "High"
        else if (5 <? events_per_minute)%float then "Medium"
        else "Low"
  end.

Definition calculate_threat_level (self : HoneypotAIAnalyzer) (features : Features)
    : string :=
  let score := Py.Z2F (Z.min (unique_ips features * 2) 20) in
  let score := (score + Py.min (Py.Z2F (unique_ports features) * 1.5) 15)%float in
  let malicious_count :=
    Z.of_nat (length (List.filter
      (fun ip => bool_decide (ip ∈ known_malicious_ips self))
      (map fst (ip_frequency features)))) in
  let score := (score + Py.Z2F (malicious_count * 10))%float in
  let max_freq :=
    match map snd (ip_frequency features) with
    | [] => 0
    | n :: counts => fold_left Z.max counts n
    end in
  let score := (score + Py.min (Py.Z2F max_freq / 10) 25)%float in
  if (60 <? score)%float then "Critical"
  else if (40 <? score)%float then "High"
  else if (20 <? score)%float then "Medium"
  else "Low".

Definition generate_statistics (self : HoneypotAIAnalyzer) (features : Features)
    : Statistics :=
  {| s_total_events := total_events features;
     s_unique_attackers := unique_ips features;
     s_ports_targeted := unique_ports features;
     s_top_attacker := Some (default ("None", 0) (Py.max_by_count (ip_frequency features)));
     s_most_targeted_port :=
       Some (match Py.max_by_count (port_frequency features) with
             | Some (port, n) => (Some port, n)
             | None => (None, 0)
             end);
     s_attack_intensity := calculate_attack_intensity features;
     s_threat_level := calculate_threat_level self features |}.

(** *** Reputation *)

Record ReputationUpdate : Type := mkUpdate {
  old_score : Z;
  new_score : Z;
  change : Z
}.

(** One iteration of the loop over [ip_frequency]: the state and the
    [updates] dictionary after it. *)
Definition reputation_step (acc : HoneypotAIAnalyzer * list (string * ReputationUpdate))
    (entry : string * Z) : HoneypotAIAnalyzer * list (string * ReputationUpdate) :=
  let '(self, updates) := acc in
  let '(ip, freq) := entry in
  let current_score := default 50 (reputation_scores self !! ip) in
  let penalty := Z.min (freq * 2) 40 in
  let score := Z.max 0 (current_score - penalty) in
  let score :=
    if bool_decide (ip ∈ known_malicious_ips self) then Z.max 0 (score - 20) else score in
  ({| known_malicious_ips := known_malicious_ips self;
      reputation_scores := <[ip := score]> (reputation_scores self) |},
   updates ++ [(ip, mkUpdate current_score score (score - current_score))]).

Definition get_reputation_updates (self : HoneypotAIAnalyzer) (features : Features)
    : HoneypotAIAnalyzer * list (string * ReputationUpdate) :=
  fold_left reputation_step (ip_frequency features) (self, []).

(** *** The pass *)

Record Report : Type := mkReport {
  error : option string;
  timestamp_of : string;
  attacks : list Attack;
  anomalies : list Anomaly;
  threats : list Threat;
  recommendations : list Recommendation;
  statistics : option Statistics;
  reputation_updates : option (list (string * ReputationUpdate))
}.

Definition empty_response (now : string) : Report :=
  {| error := None;
     timestamp_of := now;
     attacks := [];
     anomalies := [];
     threats := [];
     recommendations := [];
     statistics := Some (mkStatistics 0 0 0 None None "None" "Low");
     reputation_updates := Some [] |}.

(** The body of the [try] block of [analyze_logs]. The call of
    [_update_models] only rewrites the pattern history, which no stage
    reads, inside a [try] block of its own; it is not part of the model. *)
Definition run_pass (self : HoneypotAIAnalyzer) (now : string) (logs : list Event)
    : result (Report * HoneypotAIAnalyzer) :=
  match logs with
  | [] => mret (empty_response now, self)
  | _ :: _ =>
      features ← extract_features self logs;
      let classified_attacks := classify_attacks features in
      let found := detect_anomalies features in
      let found_threats := analyze_threats classified_attacks found in
      let advice := generate_recommendations found_threats features in
      let stats := generate_statistics self features in
      let '(self', updates) := get_reputation_updates self features in
      mret ({| error := None;
               timestamp_of := now;
               attacks := classified_attacks;
               anomalies := found;
               threats := found_threats;
               recommendations := advice;
               statistics := Some stats;
               reputation_updates := Some updates |}, self')
  end.

(** The [except] branch. *)
Definition error_response (now why : string) : Report :=
  {| error := Some why;
     timestamp_of := now;
     attacks := [];
     anomalies := [];
     threats := [];
     recommendations := [];
     statistics := None;
     reputation_updates := None |}.

Definition analyze_logs (self : HoneypotAIAnalyzer) (now : string) (logs : list Event)
    : Report * HoneypotAIAnalyzer :=
  match run_pass self now logs with
  | Ok out => out
  | Fault why => (error_response now why, self)
  end.

End Analyzer.

(** * The vocabulary of the properties *)

(** A table whose counts never increase along the list. *)
Definition descending {A : Type} (t : list (A * Z)) : Prop :=
  StronglySorted (fun a b : A * Z => b.2 ≤ a.2) t.

(** The shape of a feature set that a batch can produce: the frequency
    tables are dictionaries (no key twice) of at most ten entries, sorted
    by decreasing positive count, and the summaries follow the sources of
    the frequency table. *)
Record well_formed (features : Features) : Prop := {
  wf_ip_keys : NoDup (ip_frequency features).*1;
  wf_ip_pos : ∀ ip n, (ip, n) ∈ ip_frequency features → 1 ≤ n;
  wf_ip_sorted : descending (ip_frequency features);
  wf_ip_size : (length (ip_frequency features) ≤ 10)%nat;
  wf_port_keys : NoDup (port_frequency features).*1;
  wf_port_sorted : descending (port_frequency features);
  wf_port_size : (length (port_frequency features) ≤ 10)%nat;
  wf_pattern_keys : (patterns features).*1 = (ip_frequency features).*1;
  wf_pattern_frequency : ∀ ip data,
    (ip, data) ∈ patterns features → (ip, frequency data) ∈ ip_frequency features
}.

(** Every stored reputation score lies between 0 and 100. *)
Definition scores_bounded (self : Analyzer.HoneypotAIAnalyzer) : Prop :=
  ∀ ip s, Analyzer.reputation_scores self !! ip = Some s → 0 ≤ s ≤ 100.

(** The score of a source before a pass: 50 when it was never seen. *)
Definition score_before (self : Analyzer.HoneypotAIAnalyzer) (ip : string) : Z :=
  default 50 (Analyzer.reputation_scores self !! ip).

(** The score the specification prescribes after a pass in which the
    source was seen [freq] times. *)
Definition decayed_score (self : Analyzer.HoneypotAIAnalyzer) (ip : string) (freq : Z) : Z :=
  let score := Z.max 0 (score_before self ip - Z.min (freq * 2) 40) in
  if bool_decide (ip ∈ Analyzer.known_malicious_ips self)
  then Z.max 0 (score - 20) else score.

(** The entry of the [updates] dictionary the specification prescribes. *)
Definition update_of (self : Analyzer.HoneypotAIAnalyzer) (entry : string * Z)
    : string * Analyzer.ReputationUpdate :=
  (entry.1,
   Analyzer.mkUpdate (score_before self entry.1) (decayed_score self entry.1 entry.2)
     (decayed_score self entry.1 entry.2 - score_before self entry.1)).

(** The observed frequency of a port: 0 when the table does not list it. *)
Definition frequency_of (table : list (Z * Z)) (port : Z) : Z :=
  default 0 (DataFrame.lookup port table).

(** Port prioritization as the specification words it, from a given
    critical-port list: the critical ports observed more than 5 times, then
    the further ports of the table observed more than 10 times, cut to the
    first ten. *)
Definition prioritize (critical : list Z) (table : list (Z * Z)) : list Z :=
  let allowlisted := List.filter (fun port => 5 <? frequency_of table port) critical in
  let discovered :=
    List.filter (fun port =>
      (10 <? frequency_of table port) && negb (bool_decide (port ∈ allowlisted)))
      table.*1 in
  take 10 (allowlisted ++ discovered).

(** The critical-port set of the specification. *)
Definition spec_critical_ports : list Z := [22; 21; 80; 443; 3389; 25; 53; 135; 139; 445].

(** The attacks of one source, in the order of the list. *)
Definition attacks_from (ip : string) (attacks : list Attack) : list Attack :=
  List.filter (fun a => bool_decide (a_source_ip a = ip)) attacks.

(** The sources of a list of attacks, in order of first appearance. *)
Definition sources_of (attacks : list Attack) : list string :=
  DataFrame.first_seen (map a_source_ip attacks).

Definition is_immediate (t : Threat) : Prop :=
  t_severity t = Critical ∧ t_type t = "immediate_threat".

Definition is_persistent (t : Threat) : Prop :=
  t_severity t = High ∧ t_type t = "persistent_threat".

(** The entries of a given kind and source in a list of attacks. *)
Definition entries_of (kind ip : string) (attacks : list Attack) : list Attack :=
  List.filter (fun a => bool_decide (a_type a = kind) && bool_decide (a_source_ip a = ip))
    attacks.

(** What the attacks list holds for one source, given the summary the
    feature set keeps for it: an entry of the kind exactly when the
    summary passes the threshold, and then a single one, with the stated
    confidence. *)
Definition brute_force_entry (found : list Attack) (ip : string)
    (summary : option PatternData) : Prop :=
  match summary with
  | Some data =>
      if 10 <? frequency data
      then ∃ a, entries_of "brute_force" ip found = [a]
             ∧ a_confidence a = Py.min 0.9 (Py.Z2F (frequency data) / 100)%float
      else entries_of "brute_force" ip found = []
  | None => entries_of "brute_force" ip found = []
  end.

Definition port_scan_entry (found : list Attack) (ip : string)
    (summary : option PatternData) : Prop :=
  match summary with
  | Some data =>
      if 5 <? ports_targeted data
      then ∃ a, entries_of "port_scan" ip found = [a]
             ∧ a_confidence a = Py.min 0.95 (Py.Z2F (ports_targeted data) / 20)%float
      else entries_of "port_scan" ip found = []
  | None => entries_of "port_scan" ip found = []
  end.

(** Is this summary the one of the given source? *)
Definition of_source (ip : string) (entry : string * PatternData) : bool :=
  bool_decide (entry.1 = ip).

(** The recommendations of a given type, and of a given action. *)
Definition of_type (ty : string) (recs : list Recommendation) : list Recommendation :=
  List.filter (fun r => bool_decide (r_type r = ty)) recs.

Definition of_action (action : string) (recs : list Recommendation) : list Recommendation :=
  List.filter (fun r => bool_decide (r_action r = action)) recs.

(** No port of the batch outside [focus] is targeted more often than a
    port of [focus]. *)
Definition top_by_frequency (logs : list Event) (focus : list Z) : Prop :=
  let ports := DataFrame.cells (map dst_port logs) in
  ∀ p q, p ∈ focus → q ∈ ports → q ∉ focus →
    DataFrame.count q ports ≤ DataFrame.count p ports.

(** The rule stage as the specification words it: the ports a kind
    expects, the increment a kind earns on them, and the confidence of a
    kind of which [matched] of [total] patterns matched. *)
Definition expected_port (kind : string) (port : Z) : bool :=
  if bool_decide (kind = "brute_force") then bool_decide (port ∈ [22; 21; 3389])
  else if bool_decide (kind = "port_scan") then bool_decide (1 ≤ port < 1024)
  else if bool_decide (kind = "web_attack") then bool_decide (port ∈ [80; 443; 8080])
  else false.

Definition boost_of (kind : string) : float :=
  if bool_decide (kind = "port_scan") then 0.05%float else 0.1%float.

Definition boosted_confidence (kind : string) (matched total : nat) (boosted : bool) : float :=
  let base :=
    Py.min 0.9 (Py.Z2F (Z.of_nat matched) / Py.Z2F (Z.of_nat total) + 0.3)%float in
  Py.min 1 (if boosted then base + boost_of kind else base)%float.

Definition spec_confidence (kind : string) (matched total : nat) (port : Z) : float :=
  boosted_confidence kind matched total (expected_port kind port).

(** The number of patterns of a signature that match a message, and the
    confidence the signature gets from them. *)
Definition matches_of (msg : list ascii) (sig : string * list string) : nat :=
  length (Classifier.patterns_hit msg sig.2).

Definition kind_confidence (msg : list ascii) (port : Z) (sig : string * list string) : float :=
  spec_confidence sig.1 (matches_of msg sig) (length sig.2) port.

(** Every value a confidence of the rule stage can take under a signature
    table: zero, and for each kind each number of matched patterns, with
    and without the port increment. *)
Definition confidence_grid (sigs : list (string * list string)) : list float :=
  0%float ::
  flat_map (fun sig =>
    flat_map (fun matched =>
      [ boosted_confidence sig.1 matched (length sig.2) false;
        boosted_confidence sig.1 matched (length sig.2) true ])
      (seq 1 (length sig.2))) sigs.

(** The order facts of [<?] and [<=?] the rule stage relies on, as a test
    on three floats: the two transitivities and totality. *)
Definition ordered_triple (a b c : float) : bool :=
  (implb ((a <? b) && (b <? c)) (a <? c)
   && implb ((a <=? b) && (b <? c)) (a <? c)
   && implb (negb (a <? b)) (b <=? a))%float.

Definition well_ordered (grid : list float) : bool :=
  forallb (fun a => forallb (fun b => forallb (ordered_triple a b) grid) grid) grid.

(** The order of the kinds in the signature table. *)
Definition kinds_in_order : list string :=
  ["brute_force"; "port_scan"; "web_attack"; "ddos"; "malware"].

(** The verdict of the rule stage on a message and a port, given the
    signature table: [normal] with confidence 0 when no kind matches, and
    otherwise the kind [sig] with its confidence, every matching kind
    earlier in the table having a strictly smaller confidence and every
    matching kind later in the table a confidence that is not larger. *)
Definition rule_verdict (sigs : list (string * list string)) (msg : list ascii) (port : Z)
    (kind : string) (confidence : float) : Prop :=
  (kind = "normal" ∧ confidence = 0%float ∧ ∀ sig, sig ∈ sigs → matches_of msg sig = 0%nat)
  ∨ ∃ before sig after,
      sigs = before ++ sig :: after
      ∧ (0 < matches_of msg sig)%nat
      ∧ kind = sig.1
      ∧ confidence = kind_confidence msg port sig
      ∧ (∀ sig', sig' ∈ before → (0 < matches_of msg sig')%nat →
           (kind_confidence msg port sig' <? confidence)%float = true)
      ∧ (∀ sig', sig' ∈ after → (0 < matches_of msg sig')%nat →
           (kind_confidence msg port sig' <=? confidence)%float = true).

(** A float that is not a NaN: it equals itself. *)
Definition is_number (a : float) : Prop := (a =? a)%float = true.

(** What the specification expects of scenario A: a brute_force attack
    classified with confidence at least 0.7, a frequency-spike anomaly of
    severity high, and exactly one threat, critical and immediate. *)
Definition scenario_a_confident (batch : list Event) : Prop :=
  ∃ features a,
    Analyzer.extract_features Analyzer.new_analyzer batch = Ok features
    ∧ a ∈ Analyzer.classify_attacks features
    ∧ a_type a = "brute_force"
    ∧ (0.7 <=? a_confidence a)%float = true.

Definition scenario_a_high_spike (batch : list Event) : Prop :=
  ∃ found spike,
    AnomalyDetector.detect batch = Ok found
    ∧ spike ∈ found
    ∧ an_type spike = "IP Frequency Spike"
    ∧ an_severity spike = High.

Definition scenario_a_one_threat (batch : list Event) : Prop :=
  ∃ features threat,
    Analyzer.extract_features Analyzer.new_analyzer batch = Ok features
    ∧ Analyzer.analyze_threats (Analyzer.classify_attacks features)
        (Analyzer.detect_anomalies features) = [threat]
    ∧ is_immediate threat.

Definition scenario_a_claim (batch : list Event) : Prop :=
  scenario_a_confident batch ∧ scenario_a_high_spike batch ∧ scenario_a_one_threat batch.

(** The threat scenario A produces. *)
Definition scenario_a_threat : Threat :=
  {| t_severity := Critical;
     t_type := "immediate_threat";
     t_source := "10.0.0.1";
     t_attack_types := None;
     t_business_impact := "Medium - Potential service disruption and credential compromise";
     t_recommended_actions :=
       [ "Change default passwords immediately";
         "Enable account lockout policies";
         "Consider IP blocking";
         "Review access logs" ] |}.

(** The analyzer after a sequence of passes, each with its clock reading
    and its batch. *)
Definition run_passes (self : Analyzer.HoneypotAIAnalyzer)
    (passes : list (string * list Event)) : Analyzer.HoneypotAIAnalyzer :=
  fold_left (fun s pass => (Analyzer.analyze_logs s pass.1 pass.2).2) passes self.

(** ** Sample inputs *)

(** The sample inputs the properties are instantiated at. *)
Module Sample.

Definition clock : string := "2025-01-01T00:00:00".

Definition features : Features :=
  {| total_events := 33;
     unique_ips := 2;
     unique_ports := 1;
     time_range := None;
     ip_frequency := [("10.0.0.50", 30); ("198.51.100.7", 3)];
     port_frequency := [(22, 33)];
     patterns :=
       [ ("10.0.0.50", mkPattern true 30 1); ("198.51.100.7", mkPattern false 3 1) ];
     protocol_distribution := None |}.

(** A batch in which only the mail port was probed, six times. *)
Definition mail_probe : Features :=
  {| total_events := 6;
     unique_ips := 1;
     unique_ports := 1;
     time_range := None;
     ip_frequency := [("198.51.100.7", 6)];
     port_frequency := [(25, 6)];
     patterns := [("198.51.100.7", mkPattern false 6 1)];
     protocol_distribution := None |}.

(** One source sweeping eleven ports, each of them twice. *)
Definition swept_ports : list Z := [21; 22; 23; 25; 80; 110; 143; 443; 445; 3306; 8080].

Definition sweep : list Event :=
  map (fun port => mkEvent (Some "203.0.113.9") (Some port) None None None None None)
    (swept_ports ++ swept_ports).

(** A log entry whose timestamp is no date. *)
Definition garbled : Event :=
  mkEvent (Some "10.0.0.1") (Some 22) None None (Some (mkTimestamp "yesterday" None None [])) None None.

(** A scan report that two kinds match equally well, and a failed login
    that the rule stage recognizes without certainty. *)
Definition flood_report : Event :=
  mkEvent (Some "172.16.0.10") (Some 8080) None (Some (MsgText "SYN flood detected"))
    None None None.

Definition failed_login : Event :=
  mkEvent (Some "192.168.1.100") (Some 22) None
    (Some (MsgText "Failed password for admin from 192.168.1.100 port 45678"))
    None None None.

(** The same scan report as a sensor spells it that capitalizes
    otherwise than the signatures do, and an entry whose message is a
    number. *)
Definition shouted_flood : Event :=
  mkEvent (Some "172.16.0.10") (Some 8080) None (Some (MsgText "syn FLOOD Detected"))
    None None None.

Definition numeric_message : Event :=
  mkEvent (Some "172.16.0.10") (Some 8080) None (Some MsgOther) None None None.

(** A trained model that calls everything a port scan, with confidence 0.65. *)
Definition scan_model (features : list float) : option (string * list (string * float)) :=
  Some ("port_scan", [("normal", 0.35%float); ("port_scan", 0.65%float)]).

(** The ISO text of an instant, with the six digits of the microseconds
    ([isoformat(timespec='microseconds')] of the UTC date), and the layout
    of such texts. *)
Fixpoint digits (width : nat) (n : Z) : string :=
  match width with
  | O => EmptyString
  | S width' =>
      (digits width' (n / 10) ++ String (ascii_of_nat (48 + Z.to_nat (n mod 10))) EmptyString)%string
  end.

(** The civil date of a day number, day 0 being 1970-01-01. *)
Definition civil (day : Z) : Z * Z * Z :=
  let z := day + 719468 in
  let era := z / 146097 in
  let doe := z - era * 146097 in
  let yoe := (doe - doe / 1460 + doe / 36524 - doe / 146096) / 365 in
  let doy := doe - (365 * yoe + yoe / 4 - yoe / 100) in
  let mp := (5 * doy + 2) / 153 in
  let d := doy - (153 * mp + 2) / 5 + 1 in
  let m := if mp <? 10 then mp + 3 else mp - 9 in
  let y := yoe + era * 400 + (if m <=? 2 then 1 else 0) in
  (y, m, d).

Definition isoformat (us : Z) : string :=
  let seconds := us / 1000000 in
  let time := seconds mod 86400 in
  let '(y, m, d) := civil (seconds / 86400) in
  (digits 4 y ++ "-" ++ digits 2 m ++ "-" ++ digits 2 d ++ "T"
   ++ digits 2 (time / 3600) ++ ":" ++ digits 2 (time mod 3600 / 60) ++ ":"
   ++ digits 2 (time mod 60) ++ "." ++ digits 6 (us mod 1000000))%string.

Definition iso_layout : string := "%Y-%m-%dT%H:%M:%S.%f".

(** Scenario A: sixty failed root logins from one source on port 22, at
    the given instants (in microseconds). *)
Definition scenario_a_event (us : Z) : Event :=
  mkEvent (Some "10.0.0.1") (Some 22) None (Some (MsgText "Failed password for root"))
    (Some (mkTimestamp (isoformat us) (Some iso_layout) (Some us) [(iso_layout, us)]))
    None None.

Definition scenario_a (stamps : list Z) : list Event := map scenario_a_event stamps.

(** Sixty instants 150 ms apart: a window of 8.85 s. *)
Definition stamps_a : list Z :=
  map (fun i => 1700000000000000 + 150000 * Z.of_nat i) (seq 0 60).

(** Eleven sources: ten of them send twelve events each, the last one
    eleven. *)
Definition crowd_sources : list string :=
  [ "10.1.0.1"; "10.1.0.2"; "10.1.0.3"; "10.1.0.4"; "10.1.0.5";
    "10.1.0.6"; "10.1.0.7"; "10.1.0.8"; "10.1.0.9"; "10.1.0.10" ].

Definition from_source (ip : string) : Event :=
  mkEvent (Some ip) None None None None None None.

Definition crowd : list Event :=
  flat_map (fun ip => repeat (from_source ip) 12) crowd_sources
  ++ repeat (from_source "10.1.0.11") 11.

(** Two entries half a second apart, the first written with its
    microseconds and the second, on a whole second, without (as
    [isoformat()] writes them): each text is a date, and neither matches
    the format of the other. *)
Definition whole_second_layout : string := "%Y-%m-%dT%H:%M:%S".

Definition mixed_precision : list Event :=
  [ mkEvent (Some "10.0.0.1") (Some 22) None None
      (Some (mkTimestamp "2024-01-01T00:00:00.500000" (Some iso_layout)
               (Some 1704067200500000) [(iso_layout, 1704067200500000)]))
      None None;
    mkEvent (Some "10.0.0.1") (Some 22) None None
      (Some (mkTimestamp "2024-01-01T00:00:01" (Some whole_second_layout)
               (Some 1704067201000000) [(whole_second_layout, 1704067201000000)]))
      None None ].

End Sample.

(** The shape of an anomaly the pass can report: a burst, or a list of at
    least four and at most ten distinct unusual ports of the batch. *)
Definition pass_anomaly (logs : list Event) (an : Anomaly) : Prop :=
  an_ip an = None
  ∧ ((an_type an = "temporal_anomaly" ∧ an_severity an = Medium
      ∧ an_unusual_ports an = None)
     ∨ (an_type an = "unusual_ports" ∧ an_severity an = Low
        ∧ ∃ ports, an_unusual_ports an = Some ports
            ∧ (4 ≤ length ports ≤ 10)%nat
            ∧ NoDup ports
            ∧ ∀ p, p ∈ ports →
                (p ∉ Analyzer.usual_ports) ∧ (Some p ∈ map dst_port logs))).

(** How often a source appears in a batch, and how many distinct ports its
    entries name. *)
Definition events_of (logs : list Event) (ip : string) : Z :=
  DataFrame.count ip (DataFrame.cells (map src_ip logs)).

Definition ports_of (logs : list Event) (ip : string) : Z :=
  DataFrame.nunique (map dst_port (Analyzer.rows_of ip logs)).

(** The two threats a pass can raise about a source. *)
Definition brute_force_threat (ip : string) : Threat :=
  {| t_severity := Critical;
     t_type := "immediate_threat";
     t_source := ip;
     t_attack_types := None;
     t_business_impact := "Medium - Potential service disruption and credential compromise";
     t_recommended_actions :=
       [ "Change default passwords immediately";
         "Enable account lockout policies";
         "Consider IP blocking";
         "Review access logs" ] |}.

Definition staged_threat (ip : string) : Threat :=
  {| t_severity := High;
     t_type := "persistent_threat";
     t_source := ip;
     t_attack_types := Some ["brute_force"; "port_scan"];
     t_business_impact := "High - Targeted attack likely";
     t_recommended_actions :=
       ["Block IP immediately"; "Review security policies"; "Monitor related IPs"] |}.

(** How often a port is named in a batch. *)
Definition hits_of (logs : list Event) (port : Z) : Z :=
  DataFrame.count port (DataFrame.cells (map dst_port logs)).

(** The anomalies the stand-alone detector can report: a burst, a
    targeting of unusual ports, and the spike of a source. *)
Definition burst_anomaly : Anomaly :=
  mkAnomaly "Temporal Burst" None Medium 0.8%float None.

Definition targeting_anomaly : Anomaly :=
  mkAnomaly "Unusual Port Targeting" None Low 0.6%float None.

Definition spike_of (df : list Event) (ip : string) : Anomaly :=
  mkAnomaly "IP Frequency Spike" (Some ip)
    (if 100 <? events_of df ip then High else Medium)
    (Py.min 0.95 (Py.Z2F (events_of df ip) / 150)%float) None.

(** The distinct destination ports of a batch outside the detector's
    common ports, in order of first appearance. *)
Definition uncommon_ports_of (df : list Event) : list Z :=
  List.filter (fun port => negb (bool_decide (port ∈ AnomalyDetector.common_ports)))
    (DataFrame.first_seen (DataFrame.cells (map dst_port df))).

(** The sources of a batch, the most frequent first. *)
Definition sources_by_frequency (df : list Event) : list string :=
  (DataFrame.value_counts (map src_ip df)).*1.

(** A float between 0 and 1, and a model whose class probabilities are
    such floats. *)
Definition unit_interval (p : float) : Prop :=
  (0 <=? p)%float = true ∧ (p <=? 1)%float = true.

Definition calibrated (model : list float → option (string * list (string * float))) : Prop :=
  ∀ x label probabilities,
    model x = Some (label, probabilities) → Forall unit_interval (map snd probabilities).

(** The sources, the destination ports and the ports one source touched,
    as sets. *)
Definition source_set (logs : list Event) : gset string :=
  list_to_set (DataFrame.cells (map src_ip logs)).

Definition port_set (logs : list Event) : gset Z :=
  list_to_set (DataFrame.cells (map dst_port logs)).

(** What one pass takes from the score of a source seen [freq] times. *)
Definition penalty_of (self : Analyzer.HoneypotAIAnalyzer) (ip : string) (freq : Z) : Z :=
  Z.min (freq * 2) 40
  + (if bool_decide (ip ∈ Analyzer.known_malicious_ips self) then 20 else 0).

(** Matching that ignores case. Two characters are the same up to case
    when they are equal or are the capital and the small form of one of
    the 26 letters. *)
Definition letter_pairs : list (ascii * ascii) :=
  zip (list_ascii_of_string "ABCDEFGHIJKLMNOPQRSTUVWXYZ")
      (list_ascii_of_string "abcdefghijklmnopqrstuvwxyz").

Definition same_ignoring_case (c d : ascii) : Prop :=
  c = d ∨ (c, d) ∈ letter_pairs ∨ (d, c) ∈ letter_pairs.

Definition line_feed_char : ascii := "010"%char.

(** [reads re s]: the expression [re], read from left to right, consumes
    exactly the text [s]. A literal consumes one character that is the
    same up to case, a dot one character other than the line feed, and
    [.*] any number of such characters. *)
Inductive reads : list Regex.atom → list ascii → Prop :=
| reads_end : reads [] []
| reads_literal c d re s :
    same_ignoring_case c d → reads re s → reads (Regex.Lit c :: re) (d :: s)
| reads_dot d re s :
    d ≠ line_feed_char → reads re s → reads (Regex.Dot :: re) (d :: s)
| reads_skip re s :
    reads re s → reads (Regex.DotStar :: re) s
| reads_more d re s :
    d ≠ line_feed_char → reads (Regex.DotStar :: re) s → reads (Regex.DotStar :: re) (d :: s).

(** A pattern is found in a text, ignoring case, when the pattern reads
    some segment of the text. *)
Definition found_ignoring_case (text : list ascii) (pattern : string) : Prop :=
  ∃ before segment after,
    text = before ++ segment ++ after
    ∧ reads (Regex.compile (list_ascii_of_string pattern)) segment.

(** [pattern_count P ps n]: exactly [n] of the patterns [ps], counted
    with repetition, satisfy [P]. *)
Inductive pattern_count (P : string → Prop) : list string → nat → Prop :=
| count_none : pattern_count P [] 0
| count_hit p ps n : P p → pattern_count P ps n → pattern_count P (p :: ps) (S n)
| count_miss p ps n : ¬ P p → pattern_count P ps n → pattern_count P (p :: ps) n.

(** The 256 characters, and the comparison up to case as a test. *)
Definition all_ascii : list ascii := map ascii_of_nat (seq 0 256).

Definition same_ignoring_case_test (c d : ascii) : bool :=
  Ascii.eqb c d
  || existsb (fun pair : ascii * ascii =>
                Ascii.eqb pair.1 c && Ascii.eqb pair.2 d
                || Ascii.eqb pair.1 d && Ascii.eqb pair.2 c) letter_pairs.

(** A signature table all of whose patterns are written in the fragment
    of [re] that [Regex] models. *)
Definition signatures_in_fragment (sigs : list (string * list string)) : bool :=
  forallb (fun sig => forallb (fun p => Regex.in_fragment (list_ascii_of_string p)) sig.2) sigs.

(** The rule of the attacks list read over the sources of a batch, on the
    analyzer [__init__] builds: the features of the batch are extracted
    and a source has a brute_force entry exactly when it sent more than
    10 events of the batch. *)
Definition brute_force_per_source (batch : list Event) : Prop :=
  ∃ features,
    Analyzer.extract_features Analyzer.new_analyzer batch = Ok features
    ∧ ∀ ip, entries_of "brute_force" ip (Analyzer.classify_attacks features) ≠ []
            ↔ 10 < events_of batch ip.

(** The first timestamp of a batch, in the order of its entries. *)
Definition first_timestamp (logs : list Event) : option timestamp_field :=
  head (DataFrame.cells (map timestamp logs)).

(** The format in which the timestamps of a batch are read: the one
    inferred from the first of them, if any. *)
Definition column_format (logs : list Event) : option string :=
  c ← first_timestamp logs; ts_layout c.

(** The instant at which an entry of a batch is stamped: the one its
    timestamp is read as, in the format of the batch. *)
Definition stamped (logs : list Event) (e : Event) (us : Z) : Prop :=
  ∃ c, timestamp e = Some c ∧ DataFrame.instant (column_format logs) c = Some us.

(** The timestamps of a batch cannot be read as one column: one of them
    has no instant in the format of the batch, that is, does not match
    the format inferred from the first or, none being inferred, is no
    date. *)
Definition unreadable (logs : list Event) : Prop :=
  ∃ e c, e ∈ logs ∧ timestamp e = Some c
         ∧ DataFrame.instant (column_format logs) c = None.

(** * Properties *)

(** ** Dictionaries and columns *)
Section ColumnFacts.
Context {A : Type} `{EqDecision A}.
Implicit Types (xs : list A) (t : list (A * Z)) (col : list (option A)).

Lemma first_seen_snoc xs x :
  DataFrame.first_seen (xs ++ [x]) =
    if decide (x ∈ DataFrame.first_seen xs)
    then DataFrame.first_seen xs else DataFrame.first_seen xs ++ [x].
Proof. unfold DataFrame.first_seen. by rewrite fold_left_app. Qed.

Lemma elem_of_first_seen xs x : x ∈ DataFrame.first_seen xs ↔ x ∈ xs.
Proof.
  induction xs as [|y xs IH] using rev_ind.
  - done.
  - rewrite first_seen_snoc. case_decide as Hy; set_solver.
Qed.

Lemma NoDup_first_seen xs : NoDup (DataFrame.first_seen xs).
Proof.
  induction xs as [|y xs IH] using rev_ind.
  - constructor.
  - rewrite first_seen_snoc. case_decide as Hy; [done|].
    apply NoDup_app. split_and!; [done| |apply NoDup_singleton].
    intros z Hz ->%list_elem_of_singleton. done.
Qed.

Lemma lookup_Some_elem_of {V} (d : list (A * V)) k v :
  DataFrame.lookup k d = Some v → (k, v) ∈ d.
Proof.
  unfold DataFrame.lookup. induction d as [|[k' v'] d IH]; simpl; [done|].
  case_bool_decide as Hk; simpl in *.
  - intros [= <-]. subst. left.
  - intros Hl. right. auto.
Qed.

Lemma lookup_NoDup {V} (d : list (A * V)) k v :
  NoDup (d.*1) → (k, v) ∈ d → DataFrame.lookup k d = Some v.
Proof.
  unfold DataFrame.lookup. induction d as [|[k' v'] d IH]; simpl.
  - by intros _ ?%elem_of_nil.
  - rewrite NoDup_cons. intros [Hk' Hd] [[= -> ->]|Hin]%elem_of_cons.
    + by rewrite bool_decide_eq_true_2.
    + rewrite bool_decide_eq_false_2; [by apply IH|].
      intros ->. apply Hk'. apply list_elem_of_fmap. by exists (k, v).
Qed.

Lemma lookup_None_not_key {V} (d : list (A * V)) k :
  DataFrame.lookup k d = None ↔ k ∉ d.*1.
Proof.
  unfold DataFrame.lookup. induction d as [|[k' v'] d IH]; simpl.
  - split; [intros _; apply not_elem_of_nil|done].
  - case_bool_decide as Hk; simpl in *.
    + subst. split; [done|]. intros []. left.
    + rewrite IH. rewrite not_elem_of_cons. naive_solver.
Qed.

Lemma insert_desc_perm e t : DataFrame.insert_desc e t ≡ₚ e :: t.
Proof.
  induction t as [|y t IH]; simpl; [done|].
  case_match; [done|]. rewrite IH. apply Permutation_swap.
Qed.

Lemma sort_desc_perm t : DataFrame.sort_desc t ≡ₚ t.
Proof.
  induction t as [|y t IH]; simpl; [done|].
  by rewrite insert_desc_perm, IH.
Qed.

Lemma insert_desc_descending e t :
  descending t → descending (DataFrame.insert_desc e t).
Proof.
  unfold descending. induction t as [|y t IH]; simpl; intros Hs.
  - repeat constructor.
  - apply StronglySorted_inv in Hs as [Hs Hy].
    case_match eqn:Hle.
    + apply Z.leb_le in Hle. constructor.
      * by constructor.
      * constructor; [done|].
        eapply Forall_impl; [exact Hy|]. simpl. intros; lia.
    + apply Z.leb_gt in Hle. constructor; [by apply IH|].
      rewrite insert_desc_perm. constructor; [lia|done].
Qed.

Lemma sort_desc_descending t : descending (DataFrame.sort_desc t).
Proof.
  induction t as [|y t IH]; simpl.
  - constructor.
  - by apply insert_desc_descending.
Qed.

Lemma elem_of_value_counts col x n :
  (x, n) ∈ DataFrame.value_counts col ↔
    x ∈ DataFrame.cells col ∧ n = DataFrame.count x (DataFrame.cells col).
Proof.
  unfold DataFrame.value_counts. rewrite sort_desc_perm.
  rewrite list_elem_of_fmap. setoid_rewrite elem_of_first_seen. naive_solver.
Qed.

Lemma value_counts_keys col :
  (DataFrame.value_counts col).*1 ≡ₚ DataFrame.first_seen (DataFrame.cells col).
Proof.
  unfold DataFrame.value_counts. rewrite sort_desc_perm.
  rewrite <- list_fmap_compose. simpl.
  by rewrite list_fmap_id.
Qed.

Lemma NoDup_value_counts col : NoDup (DataFrame.value_counts col).*1.
Proof. rewrite value_counts_keys. apply NoDup_first_seen. Qed.

Lemma count_pos x xs : x ∈ xs → 1 ≤ DataFrame.count x xs.
Proof.
  intros Hx. unfold DataFrame.count.
  assert (x ∈ filter (λ y, y = x) xs) as Hin by (by apply list_elem_of_filter).
  destruct (filter _ xs); [by apply elem_of_nil in Hin|]. simpl. lia.
Qed.

Lemma value_counts_pos col x n : (x, n) ∈ DataFrame.value_counts col → 1 ≤ n.
Proof. rewrite elem_of_value_counts. intros [? ->]. by apply count_pos. Qed.

Lemma value_counts_descending col : descending (DataFrame.value_counts col).
Proof. apply sort_desc_descending. Qed.

End ColumnFacts.

(** ** What feature extraction guarantees *)
Section FeatureFacts.
Import Analyzer.
Variable self : HoneypotAIAnalyzer.

Lemma head_descending {A} n (t : list (A * Z)) :
  descending t → descending (DataFrame.head n t).
Proof.
  unfold descending, DataFrame.head. intros Hs. revert n.
  induction Hs as [|a t Hs IH Ha]; intros [|n]; simpl; try constructor.
  - apply IH.
  - apply List.Forall_forall. intros b Hb%list_elem_of_In.
    eapply List.Forall_forall in Ha; [exact Ha|]. apply list_elem_of_In.
    apply elem_of_take in Hb as (i & Hb & _). by eapply list_elem_of_lookup_2.
Qed.

Lemma head_keys_NoDup {A V} n (t : list (A * V)) :
  NoDup t.*1 → NoDup (DataFrame.head n t).*1.
Proof.
  unfold DataFrame.head. rewrite fmap_take. intros Hn.
  eapply sublist_NoDup; [exact Hn|apply sublist_take].
Qed.

Lemma elem_of_head {A} n (t : list A) x : x ∈ DataFrame.head n t → x ∈ t.
Proof.
  unfold DataFrame.head. intros (i & Hx & _)%elem_of_take.
  by eapply list_elem_of_lookup_2.
Qed.

Lemma extract_features_well_formed df features :
  extract_features self df = Ok features → well_formed features.
Proof.
  unfold extract_features. case_match.
  { intros [= <-]. split; simpl; try (by constructor); try lia;
      by intros ?? []%elem_of_nil. }
  destruct (time_analysis df) as [range|why]; simpl; [|done].
  intros [= <-]. split; simpl.
  - case_match; [|constructor]. apply head_keys_NoDup, NoDup_value_counts.
  - intros ip n. case_match; [|by intros []%elem_of_nil].
    intros Hin%elem_of_head. by eapply value_counts_pos.
  - case_match; [|constructor]. apply head_descending, value_counts_descending.
  - case_match; simpl; [|lia]. unfold DataFrame.head. rewrite length_take. lia.
  - case_match; [|constructor]. apply head_keys_NoDup, NoDup_value_counts.
  - case_match; [|constructor]. apply head_descending, value_counts_descending.
  - case_match; simpl; [|lia]. unfold DataFrame.head. rewrite length_take. lia.
  - rewrite <- list_fmap_compose. simpl. by rewrite list_fmap_id.
  - intros ip data (ip' & [= -> ->] & Hip)%list_elem_of_fmap. simpl.
    apply list_elem_of_fmap in Hip as ([ip'' n] & -> & Hin). simpl.
    erewrite lookup_NoDup; [done| |done].
    case_match; [|constructor]. apply head_keys_NoDup, NoDup_value_counts.
Qed.

End FeatureFacts.

(** ** The reputation tracker *)
Section ReputationFacts.
Import Analyzer.
Implicit Types (self : HoneypotAIAnalyzer) (table : list (string * Z)).

Lemma reputation_step_spec self updates ip freq :
  reputation_step (self, updates) (ip, freq) =
    ({| known_malicious_ips := known_malicious_ips self;
        reputation_scores := <[ip := decayed_score self ip freq]> (reputation_scores self) |},
     updates ++ [update_of self (ip, freq)]).
Proof.
  unfold reputation_step, update_of, decayed_score, score_before. simpl.
  by case_bool_decide.
Qed.

(** The entries of a dictionary being distinct, each source is scored
    from the state the pass started in. *)
Lemma reputation_fold_updates table self updates :
  NoDup table.*1 →
  (fold_left reputation_step table (self, updates)).2
  = updates ++ map (update_of self) table.
Proof.
  revert self updates. induction table as [|[ip freq] table IH]; intros self updates Hnd.
  - simpl. by rewrite app_nil_r.
  - simpl in Hnd. apply NoDup_cons in Hnd as [Hip Hnd].
    cbn [fold_left]. rewrite reputation_step_spec, IH by done.
    rewrite <- app_assoc. f_equal. cbn [map app]. f_equal.
    apply map_ext_in. intros [ip' freq'] Hin%list_elem_of_In.
    assert (ip ≠ ip') as Hne.
    { intros ->. apply Hip. apply list_elem_of_fmap. by exists (ip', freq'). }
    unfold update_of, decayed_score, score_before. simpl.
    by rewrite lookup_insert_ne.
Qed.

Lemma reputation_fold_scores table self updates ip :
  NoDup table.*1 →
  reputation_scores (fold_left reputation_step table (self, updates)).1 !! ip
  = match DataFrame.lookup ip table with
    | Some freq => Some (decayed_score self ip freq)
    | None => reputation_scores self !! ip
    end.
Proof.
  revert self updates. induction table as [|[ip' freq] table IH]; intros self updates Hnd.
  - done.
  - simpl in Hnd. apply NoDup_cons in Hnd as [Hip Hnd].
    cbn [fold_left]. rewrite reputation_step_spec, IH by done.
    unfold DataFrame.lookup. simpl. case_bool_decide as Heq; simpl.
    + subst ip'. apply lookup_None_not_key in Hip. unfold DataFrame.lookup in Hip.
      rewrite Hip. by rewrite lookup_insert_eq.
    + fold (DataFrame.lookup ip table).
      destruct (DataFrame.lookup ip table) as [freq'|]; simpl.
      * unfold decayed_score, score_before. simpl. by rewrite lookup_insert_ne.
      * by rewrite lookup_insert_ne.
Qed.

Lemma decayed_score_bounds self ip freq :
  scores_bounded self → 0 ≤ freq → 0 ≤ decayed_score self ip freq ≤ 100.
Proof.
  intros Hb Hfreq. unfold decayed_score, score_before.
  assert (0 ≤ default 50 (reputation_scores self !! ip) ≤ 100) as Hold.
  { destruct (reputation_scores self !! ip) as [s|] eqn:Hs; simpl; [eauto|lia]. }
  case_bool_decide; lia.
Qed.

End ReputationFacts.

(** C6. In a pass over a frequency table (a dictionary, its counts not
    negative) that starts from scores within [0,100], every source of the
    table is recorded with its old score, 50 when unseen, and the new score
    max(0, old - min(2*frequency, 40)), lowered by a further 20 and floored
    at 0 when the source is known-malicious; that score is stored, and it
    lies within [0,100] however large the frequency. *)
Theorem reputation_update_spec (self : Analyzer.HoneypotAIAnalyzer) (features : Features) :
  NoDup (ip_frequency features).*1 →
  (∀ ip freq, (ip, freq) ∈ ip_frequency features → 0 ≤ freq) →
  scores_bounded self →
  ∀ ip freq, (ip, freq) ∈ ip_frequency features →
    let old := default 50 (Analyzer.reputation_scores self !! ip) in
    let decayed := Z.max 0 (old - Z.min (freq * 2) 40) in
    let new := if bool_decide (ip ∈ Analyzer.known_malicious_ips self)
               then Z.max 0 (decayed - 20) else decayed in
    DataFrame.lookup ip (Analyzer.get_reputation_updates self features).2
      = Some (Analyzer.mkUpdate old new (new - old))
    ∧ Analyzer.reputation_scores (Analyzer.get_reputation_updates self features).1 !! ip
      = Some new
    ∧ 0 ≤ new ≤ 100.
Proof.
  intros Hnd Hpos Hb ip freq Hin. cbv zeta.
  change (default 50 (Analyzer.reputation_scores self !! ip)) with (score_before self ip).
  change (if bool_decide (ip ∈ Analyzer.known_malicious_ips self)
          then Z.max 0 (Z.max 0 (score_before self ip - Z.min (freq * 2) 40) - 20)
          else Z.max 0 (score_before self ip - Z.min (freq * 2) 40))
    with (decayed_score self ip freq).
  unfold Analyzer.get_reputation_updates. split; [|split].
  - rewrite reputation_fold_updates by done. simpl.
    apply lookup_NoDup.
    + rewrite <- list_fmap_compose. by simpl.
    + apply list_elem_of_fmap. by exists (ip, freq).
  - rewrite reputation_fold_scores by done. by erewrite lookup_NoDup.
  - apply decayed_score_bounds; eauto.
Qed.

Lemma new_analyzer_scores_bounded : scores_bounded Analyzer.new_analyzer.
Proof. intros ip s. simpl. by rewrite lookup_empty. Qed.

Lemma reputation_update_witness :
  DataFrame.lookup "10.0.0.50"
    (Analyzer.get_reputation_updates Analyzer.new_analyzer Sample.features).2
    = Some (Analyzer.mkUpdate 50 0 (-50))
  ∧ Analyzer.reputation_scores
      (Analyzer.get_reputation_updates Analyzer.new_analyzer Sample.features).1
      !! "10.0.0.50" = Some 0
  ∧ 0 ≤ 0 ≤ 100.
Proof.
  refine (reputation_update_spec Analyzer.new_analyzer Sample.features _ _ _
            "10.0.0.50" 30 _).
  - apply (bool_decide_unpack _). by vm_compute.
  - intros ip freq Hin. simpl in Hin.
    apply elem_of_cons in Hin as [[= -> ->]|Hin]; [lia|].
    apply list_elem_of_singleton in Hin as [= -> ->]. lia.
  - apply new_analyzer_scores_bounded.
  - simpl. left.
Defined.

(** The bound on the scores is an invariant of the pass on every batch. *)
Lemma analyze_logs_scores_bounded (self : Analyzer.HoneypotAIAnalyzer) now logs :
  scores_bounded self → scores_bounded (Analyzer.analyze_logs self now logs).2.
Proof.
  intros Hb. unfold Analyzer.analyze_logs, Analyzer.run_pass.
  destruct logs as [|e logs]; [done|].
  destruct (Analyzer.extract_features self (e :: logs)) as [features|why] eqn:Hf; [|done].
  simpl. apply extract_features_well_formed in Hf as [].
  destruct (Analyzer.get_reputation_updates self features) as [self' updates] eqn:Hr.
  simpl. intros ip s.
  replace self' with (Analyzer.get_reputation_updates self features).1 by by rewrite Hr.
  unfold Analyzer.get_reputation_updates. rewrite reputation_fold_scores by done.
  destruct (DataFrame.lookup ip (ip_frequency features)) as [freq|] eqn:Hl.
  - intros [= <-]. apply decayed_score_bounds; [done|].
    apply lookup_Some_elem_of in Hl. apply wf_ip_pos0 in Hl. lia.
  - apply Hb.
Qed.

(** ** The shape of the report *)

(** C8. The pass on the empty batch reports no attack, anomaly, threat,
    recommendation or reputation update, an attack intensity "None" and a
    threat level "Low", and carries no error field. *)
Theorem empty_batch_report (self : Analyzer.HoneypotAIAnalyzer) (now : string) :
  let report := (Analyzer.analyze_logs self now []).1 in
  Analyzer.attacks report = []
  ∧ Analyzer.anomalies report = []
  ∧ Analyzer.threats report = []
  ∧ Analyzer.recommendations report = []
  ∧ Analyzer.reputation_updates report = Some []
  ∧ Analyzer.s_attack_intensity <$> Analyzer.statistics report = Some "None"
  ∧ Analyzer.s_threat_level <$> Analyzer.statistics report = Some "Low"
  ∧ Analyzer.error report = None.
Proof. cbv zeta. unfold Analyzer.analyze_logs. simpl. by repeat split. Qed.

(** ** Reading the timestamps *)
Section TimestampFacts.

Lemma cells_of_column {A} (col : list (option A)) (x : A) :
  x ∈ DataFrame.cells col ↔ Some x ∈ col.
Proof.
  unfold DataFrame.cells. rewrite list_elem_of_omap. split.
  - intros (c & Hc & Hid). simpl in Hid. by subst c.
  - intros Hx. by exists (Some x).
Qed.

Lemma read_cell_ok format position c us :
  DataFrame.instant format c = Some us → DataFrame.read_cell format position c = Ok us.
Proof. unfold DataFrame.read_cell. by intros ->. Qed.

Lemma read_cell_fault format position c :
  DataFrame.instant format c = None →
  ∃ why, DataFrame.read_cell format position c = Fault why.
Proof. unfold DataFrame.read_cell. intros ->. destruct format; eauto. Qed.

Lemma read_column_fault format position col :
  (∃ why, DataFrame.read_column format position col = Fault why)
  ↔ ∃ c, Some c ∈ col ∧ DataFrame.instant format c = None.
Proof.
  revert position. induction col as [|[c|] col IH]; intros position; simpl.
  - split; [by intros [? ?]|]. by intros (c & ?%elem_of_nil & _).
  - destruct (DataFrame.instant format c) as [us|] eqn:Hc.
    + rewrite (read_cell_ok format position c us Hc).
      simpl. specialize (IH (S position)).
      destruct (DataFrame.read_column format (S position) col); simpl.
      * split; [by intros [? ?]|]. intros (c' & [[= ->]|Hin]%elem_of_cons & Hbad).
        { congruence. }
        destruct IH as [_ IH]. destruct IH as [? ?]; [by exists c'|done].
      * split; [|eauto]. intros _. destruct IH as [(c' & Hin & Hbad) _]; [eauto|].
        exists c'. split; [by right|done].
    + destruct (read_cell_fault format position c Hc) as [why ->]. simpl.
      split; [|eauto]. intros _. exists c. split; [left|done].
  - specialize (IH (S position)).
    destruct (DataFrame.read_column format (S position) col); simpl.
    + split; [by intros [? ?]|]. intros (c & [?|Hin]%elem_of_cons & Hbad); [done|].
      destruct IH as [_ IH]. destruct IH as [? ?]; [by exists c|done].
    + split; [|eauto]. intros _. destruct IH as [(c & Hin & Hbad) _]; [eauto|].
      exists c. split; [by right|done].
Qed.

Lemma read_column_cells format position col stamps us :
  DataFrame.read_column format position col = Ok stamps →
  us ∈ DataFrame.cells stamps
  ↔ ∃ c, Some c ∈ col ∧ DataFrame.instant format c = Some us.
Proof.
  revert position stamps.
  induction col as [|[c|] col IH]; intros position stamps; simpl.
  - intros [= <-]. split; [by intros ?%elem_of_nil|]. by intros (? & ?%elem_of_nil & _).
  - destruct (DataFrame.instant format c) as [us0|] eqn:Hc.
    2:{ by destruct (read_cell_fault format position c Hc) as [why ->]. }
    rewrite (read_cell_ok format position c us0 Hc). simpl.
    destruct (DataFrame.read_column format (S position) col) as [rest|] eqn:Hrest;
      simpl; [|done].
    intros [= <-]. unfold DataFrame.cells. csimpl. fold (DataFrame.cells rest).
    rewrite elem_of_cons, (IH _ _ Hrest). split.
    + intros [->|(c' & Hin & Hus)]; [exists c; split; [left|done]|].
      exists c'. split; [by right|done].
    + intros (c' & [[= ->]|Hin]%elem_of_cons & Hus); [left; congruence|].
      right. by exists c'.
  - destruct (DataFrame.read_column format (S position) col) as [rest|] eqn:Hrest;
      simpl; [|done].
    intros [= <-]. unfold DataFrame.cells. csimpl. fold (DataFrame.cells rest).
    rewrite (IH _ _ Hrest). split.
    + intros (c & Hin & Hus). exists c. split; [by right|done].
    + intros (c & [?|Hin]%elem_of_cons & Hus); [done|]. by exists c.
Qed.

Lemma inferred_format_of_batch logs :
  DataFrame.inferred_format (map timestamp logs) = column_format logs.
Proof.
  unfold DataFrame.inferred_format, column_format, first_timestamp.
  by destruct (DataFrame.cells (map timestamp logs)).
Qed.

Lemma timestamp_column logs c :
  Some c ∈ map timestamp logs ↔ ∃ e, e ∈ logs ∧ timestamp e = Some c.
Proof. rewrite list_elem_of_fmap. naive_solver. Qed.

(** A column is read unless a timestamp has no instant in the format
    inferred from the first, which is what [unreadable] spells out. *)
Lemma to_datetime_fault logs :
  (∃ why, DataFrame.to_datetime (map timestamp logs) = Fault why) ↔ unreadable logs.
Proof.
  unfold DataFrame.to_datetime. rewrite read_column_fault, inferred_format_of_batch.
  unfold unreadable. split.
  - intros (c & (e & He & Hts)%timestamp_column & Hbad). by exists e, c.
  - intros (e & c & He & Hts & Hbad). exists c. split; [|done].
    apply timestamp_column. by exists e.
Qed.

Lemma unreadable_has_column logs :
  unreadable logs → DataFrame.has_column (map timestamp logs) = true.
Proof.
  intros Hbad.
  destruct Hbad as (e & c & He & Hts & _).
  apply existsb_exists. exists (Some c). split; [|by apply bool_decide_eq_true_2].
  apply in_map_iff. exists e. split; [done|]. by apply list_elem_of_In.
Qed.

Lemma run_pass_fault (self : Analyzer.HoneypotAIAnalyzer) now logs :
  (∃ why, Analyzer.run_pass self now logs = Fault why) ↔ unreadable logs.
Proof.
  unfold Analyzer.run_pass. destruct logs as [|e0 logs].
  { split; [by intros [? ?]|].
    by intros (? & ? & ?%elem_of_nil & _). }
  assert ((Z.of_nat (length (e0 :: logs)) =? 0) = false) as Hlen
    by (apply Z.eqb_neq; simpl; lia).
  revert Hlen. generalize (e0 :: logs). intros df Hlen.
  rewrite <- to_datetime_fault.
  assert ((∃ why, Analyzer.extract_features self df = Fault why)
          ↔ ∃ why, DataFrame.to_datetime (map timestamp df) = Fault why) as <-.
  { unfold Analyzer.extract_features, Analyzer.time_analysis.
    rewrite Hlen.
    destruct (DataFrame.has_column (map timestamp df)) eqn:Hc.
    - destruct (DataFrame.to_datetime (map timestamp df)); simpl;
        split; intros [? ?]; by eauto.
    - simpl. split; [by intros [? ?]|]. intros Hw.
      apply to_datetime_fault, unreadable_has_column in Hw. congruence. }
  destruct (Analyzer.extract_features self df) as [features|why]; simpl.
  - destruct (Analyzer.get_reputation_updates self features).
    split; intros [? ?]; done.
  - split; eauto.
Qed.

End TimestampFacts.

(** C10. When the pass faults, the report carries the error, the clock
    reading and four empty lists, and neither statistics nor reputation
    updates; when it does not, the report carries both and no error. *)
Theorem analyze_logs_report_shape (self : Analyzer.HoneypotAIAnalyzer) now logs :
  let report := (Analyzer.analyze_logs self now logs).1 in
  match Analyzer.run_pass self now logs with
  | Fault why =>
      Analyzer.error report = Some why
      ∧ Analyzer.timestamp_of report = now
      ∧ Analyzer.attacks report = []
      ∧ Analyzer.anomalies report = []
      ∧ Analyzer.threats report = []
      ∧ Analyzer.recommendations report = []
      ∧ Analyzer.statistics report = None
      ∧ Analyzer.reputation_updates report = None
  | Ok _ =>
      Analyzer.error report = None
      ∧ is_Some (Analyzer.statistics report)
      ∧ is_Some (Analyzer.reputation_updates report)
  end.
Proof.
  cbv zeta. unfold Analyzer.analyze_logs.
  destruct (Analyzer.run_pass self now logs) as [[report self']|why] eqn:Hrun.
  - simpl. unfold Analyzer.run_pass in Hrun. destruct logs as [|e logs].
    + injection Hrun as <- <-. simpl. eauto.
    + destruct (Analyzer.extract_features self (e :: logs)) as [features|?]; [|done].
      simpl in Hrun. destruct (Analyzer.get_reputation_updates self features).
      injection Hrun as <- <-. simpl. eauto.
  - simpl. by repeat split.
Qed.

(** Both branches occur: a garbled timestamp faults the pass, the empty
    batch does not. *)
Lemma analyze_logs_report_shape_witness :
  Analyzer.error (Analyzer.analyze_logs Analyzer.new_analyzer Sample.clock [Sample.garbled]).1
    = Some "Unknown datetime string format, unable to parse: yesterday, at position 0"
  ∧ Analyzer.statistics
      (Analyzer.analyze_logs Analyzer.new_analyzer Sample.clock [Sample.garbled]).1 = None
  ∧ Analyzer.reputation_updates
      (Analyzer.analyze_logs Analyzer.new_analyzer Sample.clock [Sample.garbled]).1 = None.
Proof.
  pose proof (analyze_logs_report_shape Analyzer.new_analyzer Sample.clock [Sample.garbled])
    as Hshape.
  vm_compute in Hshape. vm_compute. tauto.
Defined.

(** ** Port prioritization *)
Section PortFacts.
Implicit Types (table : list (Z * Z)) (acc critical : list Z).

(** The discovery loop, run over a dictionary, appends the ports that pass
    the test against the list it started from. *)
Lemma discovery_loop table acc :
  NoDup table.*1 →
  fold_left (fun acc pc =>
      if (10 <? pc.2) && negb (bool_decide (pc.1 ∈ acc)) then acc ++ [pc.1] else acc)
    table acc
  = acc ++ map fst (List.filter
      (fun pc => (10 <? pc.2) && negb (bool_decide (pc.1 ∈ acc))) table).
Proof.
  revert acc. induction table as [|[p c] table IH]; intros acc Hnd.
  - simpl. by rewrite app_nil_r.
  - simpl in Hnd. apply NoDup_cons in Hnd as [Hp Hnd].
    cbn [fold_left List.filter fst snd].
    destruct ((10 <? c) && negb (bool_decide (p ∈ acc))) eqn:Hc; [|by apply IH].
    rewrite IH by done. rewrite <- app_assoc. cbn [map app fst]. do 3 f_equal.
    apply filter_ext_in. intros [q d] Hin%list_elem_of_In. simpl. do 2 f_equal.
    assert (q ≠ p) as Hne.
    { intros ->. apply Hp. apply list_elem_of_fmap. by exists (p, d). }
    apply bool_decide_ext. rewrite elem_of_app, list_elem_of_singleton. naive_solver.
Qed.

Lemma frequency_of_entry table port n :
  NoDup table.*1 → (port, n) ∈ table → frequency_of table port = n.
Proof. intros Hnd Hin. unfold frequency_of. by erewrite lookup_NoDup. Qed.

Lemma filter_keys table (f : Z * Z → bool) (g : Z → bool) :
  (∀ pc, pc ∈ table → f pc = g pc.1) →
  map fst (List.filter f table) = List.filter g table.*1.
Proof.
  induction table as [|pc table IH]; intros Hfg; [done|].
  cbn [List.filter fmap list_fmap]. rewrite <- (Hfg pc) by left.
  destruct (f pc); cbn [map]; rewrite IH; try done; intros; apply Hfg; by right.
Qed.

(** The body the two helpers share computes [prioritize]. *)
Lemma prioritize_loop critical table :
  NoDup table.*1 →
  take 10
    (fold_left (fun acc pc =>
        if (10 <? pc.2) && negb (bool_decide (pc.1 ∈ acc)) then acc ++ [pc.1] else acc)
      table
      (List.filter (fun port =>
         match DataFrame.lookup port table with
         | Some n => 5 <? n
         | None => false
         end) critical))
  = prioritize critical table.
Proof.
  intros Hnd. unfold prioritize.
  assert (List.filter (fun port =>
            match DataFrame.lookup port table with
            | Some n => 5 <? n
            | None => false
            end) critical
          = List.filter (fun port => 5 <? frequency_of table port) critical) as ->.
  { apply filter_ext. intros port. unfold frequency_of.
    by destruct (DataFrame.lookup port table). }
  rewrite discovery_loop by done. do 2 f_equal.
  apply filter_keys. intros [port n] Hin. simpl.
  by rewrite (frequency_of_entry table port n).
Qed.

Lemma identify_high_value_ports_body (features : Features) :
  NoDup (port_frequency features).*1 →
  Analyzer.identify_high_value_ports features
  = prioritize spec_critical_ports (port_frequency features).
Proof. apply prioritize_loop. Qed.

Lemma adaptation_high_value_ports_body (features : Features) :
  NoDup (port_frequency features).*1 →
  AdaptationEngine.identify_high_value_ports features
  = prioritize AdaptationEngine.critical_ports (port_frequency features).
Proof. apply prioritize_loop. Qed.

Lemma prioritize_length critical table : (length (prioritize critical table) ≤ 10)%nat.
Proof. unfold prioritize. rewrite length_take. lia. Qed.

End PortFacts.

(** C5, as the code has it. On every port-frequency table the analyzer's
    helper is the prioritization from the critical-port set
    {22,21,80,443,3389,25,53,135,139,445}: its ports observed more than 5
    times, then the further ports observed more than 10 times, at most ten
    in all, in that order. The adaptation engine's helper of the same name
    is the same procedure from the shorter set {22,21,80,443,3389}. *)
Theorem identify_high_value_ports_spec (features : Features) :
  NoDup (port_frequency features).*1 →
  Analyzer.identify_high_value_ports features
    = prioritize spec_critical_ports (port_frequency features)
  ∧ AdaptationEngine.identify_high_value_ports features
    = prioritize [22; 21; 80; 443; 3389] (port_frequency features)
  ∧ (length (Analyzer.identify_high_value_ports features) ≤ 10)%nat
  ∧ (length (AdaptationEngine.identify_high_value_ports features) ≤ 10)%nat.
Proof.
  intros Hnd.
  rewrite identify_high_value_ports_body, adaptation_high_value_ports_body by done.
  auto using prioritize_length.
Qed.

Lemma identify_high_value_ports_witness :
  Analyzer.identify_high_value_ports Sample.mail_probe = [25]
  ∧ AdaptationEngine.identify_high_value_ports Sample.mail_probe = []
  ∧ (1 ≤ 10)%nat ∧ (0 ≤ 10)%nat.
Proof.
  refine (identify_high_value_ports_spec Sample.mail_probe _).
  apply (bool_decide_unpack _). by vm_compute.
Defined.

(** The adaptation engine's helper does not start from the specification's
    set: port 25, observed six times, is prioritized by the specification
    and by the analyzer, and dropped by the adaptation engine. *)
Lemma adaptation_engine_drops_mail_port :
  prioritize spec_critical_ports (port_frequency Sample.mail_probe) = [25]
  ∧ Analyzer.identify_high_value_ports Sample.mail_probe = [25]
  ∧ AdaptationEngine.identify_high_value_ports Sample.mail_probe = [].
Proof. by vm_compute. Qed.

(** ** The threat analyzer *)
Section ThreatFacts.
Import Analyzer.
Implicit Types (attacks : list Attack) (ip : string).

Lemma filter_map_commute {A B} (f : B → bool) (g : A → B) (l : list A) :
  List.filter f (map g l) = map g (List.filter (fun x => f (g x)) l).
Proof.
  induction l as [|x l IH]; [done|]. simpl. destruct (f (g x)); simpl; by rewrite IH.
Qed.

Lemma attacks_from_snoc ip attacks a :
  attacks_from ip (attacks ++ [a])
  = attacks_from ip attacks ++ (if decide (a_source_ip a = ip) then [a] else []).
Proof.
  unfold attacks_from. rewrite List.filter_app. simpl.
  case_bool_decide; by case_decide.
Qed.

Lemma attacks_from_unseen ip attacks :
  ip ∉ map a_source_ip attacks → attacks_from ip attacks = [].
Proof.
  induction attacks as [|a attacks IH]; [done|]. simpl.
  rewrite not_elem_of_cons. intros [Hne Hnot].
  rewrite bool_decide_eq_false_2 by done. by apply IH.
Qed.

(** Appending under a key of a dictionary whose values are given by a
    function of the key. *)
Lemma dict_append_tabulated ip a (keys : list string) (F : string → list Attack) :
  NoDup keys →
  dict_append ip a (map (fun k => (k, F k)) keys)
  = map (fun k => (k, if decide (k = ip) then F k ++ [a] else F k)) keys
    ++ (if decide (ip ∈ keys) then [] else [(ip, [a])]).
Proof.
  induction keys as [|k keys IH]; intros Hnd.
  - cbn [map app dict_append]. by rewrite decide_False by apply not_elem_of_nil.
  - apply NoDup_cons in Hnd as [Hk Hnd]. cbn [map app dict_append].
    destruct (decide (k = ip)) as [->|Hne].
    + rewrite decide_True by left. rewrite app_nil_r. f_equal.
      apply map_ext_in. intros k' Hin%list_elem_of_In.
      rewrite decide_False; [done|]. by intros ->.
    + rewrite IH by done. do 2 f_equal.
      apply decide_ext. rewrite elem_of_cons. naive_solver.
Qed.

(** The dictionary [ip_attacks]: one key per source, in order of first
    appearance, holding the attacks of that source. *)
Lemma group_by_source_spec attacks :
  group_by_source attacks
  = map (fun ip => (ip, attacks_from ip attacks)) (sources_of attacks).
Proof.
  unfold group_by_source, sources_of.
  induction attacks as [|a attacks IH] using rev_ind; [done|].
  rewrite fold_left_app. cbn [fold_left]. rewrite IH.
  rewrite dict_append_tabulated by apply NoDup_first_seen.
  rewrite map_app. cbn [map]. rewrite first_seen_snoc.
  assert (map (fun k => (k, if decide (k = a_source_ip a)
                            then attacks_from k attacks ++ [a]
                            else attacks_from k attacks))
              (DataFrame.first_seen (map a_source_ip attacks))
          = map (fun ip => (ip, attacks_from ip (attacks ++ [a])))
              (DataFrame.first_seen (map a_source_ip attacks))) as ->.
  { apply map_ext. intros k. rewrite attacks_from_snoc.
    destruct (decide (k = a_source_ip a)) as [->|Hne].
    - by rewrite decide_True.
    - rewrite decide_False by done. by rewrite app_nil_r. }
  case_decide as Hseen; [by rewrite app_nil_r|].
  rewrite map_app. cbn [map]. do 3 f_equal.
  rewrite attacks_from_snoc, decide_True by done.
  rewrite attacks_from_unseen; [done|]. by rewrite <- elem_of_first_seen.
Qed.

Lemma two_kinds_two_attacks attacks ip a b :
  a ∈ attacks → b ∈ attacks → a_source_ip a = ip → a_source_ip b = ip →
  a_type a ≠ a_type b → (1 < length (attacks_from ip attacks))%nat.
Proof.
  intros Ha Hb Hia Hib Hne.
  assert (a ∈ attacks_from ip attacks) as Ha'.
  { apply list_elem_of_In, filter_In. split; [by apply list_elem_of_In|].
    by apply bool_decide_eq_true_2. }
  assert (b ∈ attacks_from ip attacks) as Hb'.
  { apply list_elem_of_In, filter_In. split; [by apply list_elem_of_In|].
    by apply bool_decide_eq_true_2. }
  destruct (attacks_from ip attacks) as [|x [|y l]]; simpl; [|exfalso|lia].
  - by apply elem_of_nil in Ha'.
  - apply list_elem_of_singleton in Ha', Hb'. congruence.
Qed.

End ThreatFacts.

(** C4. The threats are the immediate ones followed by the persistent ones.
    The immediate threats are the attacks of severity high, each turned into
    a threat of severity critical, in the order of the attacks. The
    persistent threats are of severity high, one for each source with more
    than one attack, in order of first appearance of the source; every
    source with two attacks of distinct kinds has one, listing the kinds of
    all its attacks. *)
Theorem analyze_threats_spec (attacks : list Attack) (anomalies : list Anomaly) :
  ∃ immediate persistent,
    Analyzer.analyze_threats attacks anomalies = immediate ++ persistent
    ∧ immediate
      = map Analyzer.immediate_threat
          (List.filter (fun a => bool_decide (a_severity a = High)) attacks)
    ∧ Forall is_immediate immediate
    ∧ Forall is_persistent persistent
    ∧ map t_source persistent
      = List.filter (fun ip => (1 <? length (attacks_from ip attacks))%nat)
          (sources_of attacks)
    ∧ ∀ a b, a ∈ attacks → b ∈ attacks →
        a_source_ip a = a_source_ip b → a_type a ≠ a_type b →
        ∃ t, t ∈ persistent
          ∧ t_source t = a_source_ip a
          ∧ t_attack_types t = Some (map a_type (attacks_from (a_source_ip a) attacks)).
Proof.
  unfold Analyzer.analyze_threats. rewrite group_by_source_spec.
  rewrite filter_map_commute. cbn [snd].
  eexists _, _. split; [reflexivity|]. split; [reflexivity|]. split_and!.
  - apply Forall_map, Forall_forall. by intros.
  - apply Forall_map, Forall_forall. by intros.
  - rewrite !map_map. simpl. by rewrite map_id.
  - intros a b Ha Hb Hip Hkind.
    exists (Analyzer.persistent_threat (a_source_ip a, attacks_from (a_source_ip a) attacks)).
    split; [|done]. apply list_elem_of_fmap. eexists; split; [reflexivity|].
    apply list_elem_of_fmap. exists (a_source_ip a). split; [done|].
    apply list_elem_of_In, filter_In. split.
    + apply list_elem_of_In, elem_of_first_seen, list_elem_of_fmap. eauto.
    + apply Nat.ltb_lt. by apply (two_kinds_two_attacks attacks _ a b).
Qed.

(** ** The orchestrator's classification step *)
Section ClassificationFacts.
Import Analyzer.
Implicit Types (pats : list (string * PatternData)) (ip : string).

Lemma summaries_of_source pats ip :
  NoDup pats.*1 →
  List.filter (of_source ip) pats
  = match DataFrame.lookup ip pats with
    | Some data => [(ip, data)]
    | None => []
    end.
Proof.
  unfold DataFrame.lookup, of_source.
  induction pats as [|[k d] pats IH]; intros Hnd; [done|].
  apply NoDup_cons in Hnd as [Hk Hnd]. simpl. case_bool_decide as Heq; simpl.
  - subst k. f_equal. apply lookup_None_not_key in Hk.
    unfold DataFrame.lookup in Hk. rewrite IH by done.
    by destruct (List.find _ pats).
  - by apply IH.
Qed.

Lemma brute_force_entries pats ip :
  entries_of "brute_force" ip (omap brute_force_attack pats)
  = omap brute_force_attack (List.filter (of_source ip) pats).
Proof.
  unfold entries_of, of_source.
  induction pats as [|[k d] pats IH]; [done|]. simpl.
  destruct (10 <? frequency d) eqn:Hf; simpl.
  - case_bool_decide; simpl; [|done]. rewrite Hf. by f_equal.
  - case_bool_decide; simpl; [|done]. by rewrite Hf.
Qed.

Lemma brute_force_no_scan pats ip :
  entries_of "port_scan" ip (omap brute_force_attack pats) = [].
Proof.
  unfold entries_of. induction pats as [|[k d] pats IH]; [done|]. simpl.
  by destruct (10 <? frequency d).
Qed.

Lemma port_scan_entries pats ip :
  entries_of "port_scan" ip (map port_scan_attack pats)
  = map port_scan_attack (List.filter (of_source ip) pats).
Proof.
  unfold entries_of, of_source.
  induction pats as [|[k d] pats IH]; [done|]. simpl.
  case_bool_decide; simpl; by rewrite IH.
Qed.

Lemma port_scan_no_brute pats ip :
  entries_of "brute_force" ip (map port_scan_attack pats) = [].
Proof. unfold entries_of. by induction pats as [|[k d] pats IH]. Qed.

Lemma filter_commute {A} (f g : A → bool) (l : list A) :
  List.filter f (List.filter g l) = List.filter g (List.filter f l).
Proof.
  induction l as [|x l IH]; [done|]. simpl.
  destruct (f x) eqn:Hf, (g x) eqn:Hg; simpl; rewrite ?Hf, ?Hg, IH; done.
Qed.

Lemma classify_attacks_kinds features :
  Forall (fun a => a_type a = "brute_force" ∨ a_type a = "port_scan")
    (classify_attacks features).
Proof.
  unfold classify_attacks. apply Forall_app. split.
  - induction (patterns features) as [|[k d] pats IH]; [constructor|]. simpl.
    destruct (10 <? frequency d); [constructor; [by left|done]|done].
  - apply Forall_map, Forall_forall. intros [k d] _. by right.
Qed.

Lemma entries_of_app kind ip (l1 l2 : list Attack) :
  entries_of kind ip (l1 ++ l2) = entries_of kind ip l1 ++ entries_of kind ip l2.
Proof. apply List.filter_app. Qed.

Lemma classify_attacks_brute_force features ip :
  NoDup (patterns features).*1 →
  brute_force_entry (classify_attacks features) ip
    (DataFrame.lookup ip (patterns features)).
Proof.
  intros Hnd.
  assert (entries_of "brute_force" ip (classify_attacks features)
          = omap brute_force_attack
              match DataFrame.lookup ip (patterns features) with
              | Some data => [(ip, data)]
              | None => []
              end) as Hentries.
  { unfold classify_attacks.
    rewrite entries_of_app, port_scan_no_brute, app_nil_r, brute_force_entries.
    by rewrite summaries_of_source. }
  unfold brute_force_entry. rewrite Hentries.
  destruct (DataFrame.lookup ip (patterns features)) as [data|]; [|done].
  simpl. destruct (10 <? frequency data); eauto.
Qed.

Lemma classify_attacks_port_scan features ip :
  NoDup (patterns features).*1 →
  port_scan_entry (classify_attacks features) ip
    (DataFrame.lookup ip (patterns features)).
Proof.
  intros Hnd.
  assert (entries_of "port_scan" ip (classify_attacks features)
          = map port_scan_attack
              (List.filter (fun entry => 5 <? ports_targeted entry.2)
                 match DataFrame.lookup ip (patterns features) with
                 | Some data => [(ip, data)]
                 | None => []
                 end)) as Hentries.
  { unfold classify_attacks.
    rewrite entries_of_app, brute_force_no_scan, port_scan_entries. cbn [app].
    by rewrite filter_commute, summaries_of_source. }
  unfold port_scan_entry. rewrite Hentries.
  destruct (DataFrame.lookup ip (patterns features)) as [data|]; [|done].
  simpl. destruct (5 <? ports_targeted data); eauto.
Qed.

Lemma rows_without_ports ip df :
  DataFrame.has_column (map dst_port df) = false →
  DataFrame.cells (map dst_port (rows_of ip df)) = [].
Proof.
  unfold DataFrame.has_column, DataFrame.cells, rows_of.
  induction df as [|e df IH]; [done|]. simpl.
  intros [He Hc]%orb_false_iff.
  destruct (bool_decide (src_ip e = Some ip)); simpl; [|by apply IH].
  destruct (dst_port e); [done|]. by apply IH.
Qed.

(** The summary of a source holds its number of events in the batch and
    the number of distinct ports of those events. *)
Lemma extract_features_summary (self : HoneypotAIAnalyzer) df features ip data :
  extract_features self df = Ok features →
  (ip, data) ∈ patterns features →
  frequency data = DataFrame.count ip (DataFrame.cells (map src_ip df))
  ∧ ports_targeted data = DataFrame.nunique (map dst_port (rows_of ip df))
  ∧ is_known_malicious data = bool_decide (ip ∈ known_malicious_ips self).
Proof.
  intros Hf Hin. pose proof (extract_features_well_formed self df features Hf) as Hwf.
  pose proof (wf_pattern_frequency _ Hwf ip data Hin) as Hfreq.
  revert Hf Hin Hfreq. unfold extract_features. case_match.
  { intros [= <-]. by intros ?%elem_of_nil. }
  destruct (time_analysis df) as [range|why]; simpl; [|done].
  intros [= <-]. simpl.
  intros (ip' & [= -> ->] & _)%list_elem_of_fmap. simpl. intros Hfreq.
  split; [|split; [|done]].
  - destruct (DataFrame.has_column (map src_ip df)); [|by apply elem_of_nil in Hfreq].
    apply elem_of_head, elem_of_value_counts in Hfreq as [_ Hn]. exact Hn.
  - destruct (DataFrame.has_column (map dst_port df)) eqn:Hc; [done|].
    unfold DataFrame.nunique. by rewrite rows_without_ports.
Qed.

End ClassificationFacts.


(** ** The recommendation engine *)
Section RecommendationFacts.
Import Analyzer.

Lemma sorted_app_order {A} (R : A → A → Prop) (l1 l2 : list A) x y :
  StronglySorted R (l1 ++ l2) → x ∈ l1 → y ∈ l2 → R x y.
Proof.
  induction l1 as [|a l1 IH]; simpl; intros Hs Hx Hy.
  - by apply elem_of_nil in Hx.
  - apply StronglySorted_inv in Hs as [Hs Ha].
    apply elem_of_cons in Hx as [->|Hx]; [|by apply IH].
    eapply List.Forall_forall in Ha; [exact Ha|].
    apply list_elem_of_In, elem_of_app. by right.
Qed.

Lemma cells_without_column {A} (col : list (option A)) :
  DataFrame.has_column col = false → DataFrame.cells col = [].
Proof.
  unfold DataFrame.has_column, DataFrame.cells.
  induction col as [|[x|] col IH]; simpl; [done|done|]. apply IH.
Qed.

(** The first five keys of the port table are the five most targeted ports
    of the batch. *)
Lemma focus_ports_top (self : HoneypotAIAnalyzer) logs features :
  extract_features self logs = Ok features →
  top_by_frequency logs (take 5 (port_frequency features).*1).
Proof.
  unfold extract_features, top_by_frequency. cbv zeta. case_match eqn:Hlen.
  { intros _ p q _ Hq. destruct logs; [by apply elem_of_nil in Hq|].
    apply Z.eqb_eq in Hlen. simpl in Hlen. lia. }
  destruct (time_analysis logs) as [range|why]; simpl; [|done].
  intros [= <-]. simpl. intros p q Hp Hq Hnot.
  destruct (DataFrame.has_column (map dst_port logs)) eqn:Hc.
  2:{ rewrite cells_without_column in Hq by done. by apply elem_of_nil in Hq. }
  set (vc := DataFrame.value_counts (map dst_port logs)) in *.
  unfold DataFrame.head in Hp, Hnot.
  rewrite <- fmap_take, take_take in Hp, Hnot. simpl in Hp, Hnot.
  apply list_elem_of_fmap in Hp as ([p' n] & -> & Hp). simpl.
  assert ((p', n) ∈ vc) as Hpn.
  { apply elem_of_take in Hp as (i & Hp & _). by eapply list_elem_of_lookup_2. }
  apply elem_of_value_counts in Hpn as [_ ->].
  set (ports := DataFrame.cells (map dst_port logs)) in *.
  assert ((q, DataFrame.count q ports) ∈ drop 5 vc) as Hqd.
  { assert ((q, DataFrame.count q ports) ∈ vc) as Hqv
      by by apply elem_of_value_counts.
    rewrite <- (take_drop 5 vc) in Hqv. apply elem_of_app in Hqv as [Hqv|Hqv]; [|done].
    exfalso. apply Hnot. apply list_elem_of_fmap. by eexists (_, _). }
  pose proof (value_counts_descending (map dst_port logs)) as Hs. fold vc in Hs.
  unfold descending in Hs. rewrite <- (take_drop 5 vc) in Hs.
  exact (sorted_app_order _ _ _ _ _ Hs Hp Hqd).
Qed.

Lemma frequent_attackers_spec features ip :
  ip ∈ frequent_attackers features ↔ ∃ n, (ip, n) ∈ ip_frequency features ∧ 20 < n.
Proof.
  unfold frequent_attackers. rewrite list_elem_of_fmap. split.
  - intros ([ip' n] & -> & [Hin Hn]%list_elem_of_In%filter_In). simpl in *.
    exists n. split; [by apply list_elem_of_In|]. by apply Z.ltb_lt.
  - intros (n & Hin & Hn). exists (ip, n). split; [done|].
    apply list_elem_of_In, filter_In. split; [by apply list_elem_of_In|].
    by apply Z.ltb_lt.
Qed.

End RecommendationFacts.

(** C7. A pass emits at most three recommendations. An [adapt]
    recommendation, of priority high, is emitted exactly when there is a
    threat; its parameters are the prioritized ports (at most ten), the
    fixed services and the count min(5, number of ports). A [block_ips]
    recommendation, of priority critical, is emitted exactly when a source
    of the frequency table counts more than 20 events; its parameters are
    those sources, "permanent" and "all_services". An [enhance_monitoring]
    recommendation, of priority medium, is emitted exactly when the batch
    has more than 10 distinct ports; its parameters are the five most
    targeted ports and the threshold 10. *)
Theorem generate_recommendations_spec (self : Analyzer.HoneypotAIAnalyzer)
    (logs : list Event) (features : Features) (threats : list Threat) :
  Analyzer.extract_features self logs = Ok features →
  let recs := Analyzer.generate_recommendations threats features in
  let ports := prioritize spec_critical_ports (port_frequency features) in
  let ips := Analyzer.frequent_attackers features in
  let focus := take 5 (port_frequency features).*1 in
  (length recs ≤ 3)%nat
  ∧ recs = of_type "adapt" recs ++ of_action "block_ips" recs
           ++ of_action "enhance_monitoring" recs
  ∧ match threats with
    | [] => of_type "adapt" recs = []
    | _ :: _ =>
        ∃ r, of_type "adapt" recs = [r]
          ∧ r_priority r = High
          ∧ r_parameters r
            = SpawnParams ports ["ssh"; "web"; "ftp"] (Z.min 5 (Z.of_nat (length ports)))
    end
  ∧ (length ports ≤ 10)%nat
  ∧ (∀ ip, ip ∈ ips ↔ ∃ n, (ip, n) ∈ ip_frequency features ∧ 20 < n)
  ∧ match ips with
    | [] => of_action "block_ips" recs = []
    | _ :: _ =>
        ∃ r, of_action "block_ips" recs = [r]
          ∧ r_priority r = Critical
          ∧ r_parameters r = BlockParams ips "permanent" "all_services"
    end
  ∧ (if 10 <? unique_ports features
     then ∃ r, of_action "enhance_monitoring" recs = [r]
            ∧ r_priority r = Medium
            ∧ r_parameters r = MonitorParams focus 10
     else of_action "enhance_monitoring" recs = [])
  ∧ unique_ports features = DataFrame.nunique (map dst_port logs)
  ∧ top_by_frequency logs focus.
Proof.
  intros Hf. cbv zeta.
  pose proof (extract_features_well_formed self logs features Hf) as Hwf.
  assert (Analyzer.identify_high_value_ports features
          = prioritize spec_critical_ports (port_frequency features)) as Hports.
  { apply identify_high_value_ports_body. apply (wf_port_keys _ Hwf). }
  assert (unique_ports features = DataFrame.nunique (map dst_port logs)) as Huniq.
  { revert Hf. unfold Analyzer.extract_features. case_match eqn:Hlen.
    - intros [= <-]. simpl. destruct logs; [done|].
      apply Z.eqb_eq in Hlen. simpl in Hlen. lia.
    - destruct (Analyzer.time_analysis logs); simpl; [|done]. intros [= <-]. simpl.
      destruct (DataFrame.has_column (map dst_port logs)) eqn:Hc; [done|].
      unfold DataFrame.nunique. by rewrite cells_without_column. }
  unfold Analyzer.generate_recommendations, of_type, of_action.
  split_and!.
  - destruct threats, (Analyzer.frequent_attackers features),
      (10 <? unique_ports features); simpl; lia.
  - by destruct threats, (Analyzer.frequent_attackers features),
      (10 <? unique_ports features).
  - destruct threats, (Analyzer.frequent_attackers features),
      (10 <? unique_ports features); simpl; try done;
      (eexists; split; [reflexivity|]; split; [done|]; simpl; by rewrite Hports).
  - apply prioritize_length.
  - apply frequent_attackers_spec.
  - destruct threats, (Analyzer.frequent_attackers features),
      (10 <? unique_ports features); simpl; try done; eauto.
  - destruct threats, (Analyzer.frequent_attackers features),
      (10 <? unique_ports features); simpl; try done; eauto.
  - done.
  - by eapply focus_ports_top.
Qed.

(** ** Comparisons of floats *)
Section FloatOrder.
Local Open Scope float_scope.

Lemma SFcompare_antisym a b : SFcompare b a = option_map CompOpp (SFcompare a b).
Proof.
  destruct a as [sa|sa| |sa ma ea], b as [sb|sb| |sb mb eb]; simpl; try reflexivity;
    try (destruct sa; reflexivity); try (destruct sb; reflexivity);
    try (destruct sa, sb; reflexivity).
  destruct sa, sb; simpl; try reflexivity.
  - rewrite (Z.compare_antisym ea eb). destruct (ea ?= eb)%Z; simpl; try reflexivity.
    rewrite Pos.compare_cont_antisym. simpl.
    destruct (Pos.compare_cont Eq ma mb); reflexivity.
  - rewrite (Z.compare_antisym ea eb). destruct (ea ?= eb)%Z; simpl; try reflexivity.
    rewrite Pos.compare_cont_antisym. simpl.
    destruct (Pos.compare_cont Eq ma mb); reflexivity.
Qed.

Lemma SFcompare_refl a b c : SFcompare a b = Some c → SFcompare a a = Some Eq.
Proof.
  destruct a as [sa|sa| |sa ma ea]; simpl; try reflexivity.
  - destruct sa; reflexivity.
  - destruct b; discriminate.
  - intros _. rewrite Z.compare_refl, Pos.compare_cont_refl. destruct sa; reflexivity.
Qed.

Lemma SFcompare_None a b :
  SFcompare a b = None → SFcompare a a = None ∨ SFcompare b b = None.
Proof.
  destruct a as [sa|sa| |sa ma ea], b as [sb|sb| |sb mb eb]; simpl; auto; discriminate.
Qed.

Lemma ltb_asym a b : (a <? b) = true → (b <? a) = false.
Proof.
  rewrite !FloatAxioms.ltb_spec. unfold SFltb.
  rewrite (SFcompare_antisym (Prim2SF a) (Prim2SF b)).
  destruct (SFcompare (Prim2SF a) (Prim2SF b)) as [[]|]; simpl; congruence.
Qed.

Lemma eqb_not_ltb a b : (a =? b) = true → (a <? b) = false.
Proof.
  rewrite FloatAxioms.eqb_spec, FloatAxioms.ltb_spec. unfold SFeqb, SFltb.
  destruct (SFcompare _ _) as [[]|]; congruence.
Qed.

Lemma ltb_number a b : (a <? b) = true → is_number a.
Proof.
  unfold is_number. rewrite FloatAxioms.eqb_spec, FloatAxioms.ltb_spec. unfold SFeqb, SFltb.
  destruct (SFcompare (Prim2SF a) (Prim2SF b)) as [c|] eqn:Hc; [|done].
  intros _. by rewrite (SFcompare_refl _ _ _ Hc).
Qed.

Lemma not_ltb_leb a b :
  is_number a → is_number b → (a <? b) = false → (b <=? a) = true.
Proof.
  unfold is_number. rewrite !FloatAxioms.eqb_spec, FloatAxioms.ltb_spec, FloatAxioms.leb_spec. unfold SFeqb, SFltb, SFleb.
  rewrite (SFcompare_antisym (Prim2SF a) (Prim2SF b)).
  destruct (SFcompare (Prim2SF a) (Prim2SF b)) as [[]|] eqn:Hc; simpl; try done.
  apply SFcompare_None in Hc as [-> | ->]; done.
Qed.

(** [min(1.0, x)] is a number whatever [x] is. *)
Lemma min_one_number x : is_number (Py.min 1 x).
Proof.
  unfold Py.min. destruct (x <? 1) eqn:Hx; [by eapply ltb_number|].
  by vm_compute.
Qed.

End FloatOrder.

(** ** The rule stage of the classifier *)
Section RuleStageFacts.
Import Classifier.
Implicit Types (sigs : list (string * list string)) (msg : list ascii) (port : Z).

(** The [if]/[elif] chain on the kind adds the increment of the kind on
    the ports the kind expects. *)
Lemma pattern_confidence_spec kind matched total port :
  pattern_confidence kind matched total port = spec_confidence kind matched total port.
Proof.
  unfold pattern_confidence, spec_confidence, boosted_confidence, port_boost,
    expected_port, boost_of.
  repeat case_bool_decide; subst; simpl; try done.
Qed.

Lemma grid_zero sigs : In 0%float (confidence_grid sigs).
Proof. by left. Qed.

Lemma grid_confidence_tail sigs msg port sig :
  sig ∈ sigs → (0 < matches_of msg sig)%nat →
  In (kind_confidence msg port sig) (tl (confidence_grid sigs)).
Proof.
  intros Hsig Hpos. cbn [confidence_grid tl]. apply in_flat_map. exists sig.
  split; [by apply list_elem_of_In|].
  apply in_flat_map. exists (matches_of msg sig). split.
  - apply in_seq. split; [lia|].
    assert (matches_of msg sig ≤ length sig.2)%nat; [|lia].
    unfold matches_of, patterns_hit. apply List.filter_length_le.
  - unfold kind_confidence, spec_confidence.
    destruct (expected_port sig.1 port); simpl; auto.
Qed.

Lemma grid_confidence sigs msg port sig :
  sig ∈ sigs → (0 < matches_of msg sig)%nat →
  In (kind_confidence msg port sig) (confidence_grid sigs).
Proof. intros. right. by apply grid_confidence_tail. Qed.

Lemma grid_order grid a b c :
  well_ordered grid = true → In a grid → In b grid → In c grid →
  ordered_triple a b c = true.
Proof.
  unfold well_ordered. intros Hw Ha Hb Hc.
  rewrite forallb_forall in Hw. specialize (Hw a Ha).
  rewrite forallb_forall in Hw. specialize (Hw b Hb).
  rewrite forallb_forall in Hw. by apply Hw.
Qed.

Lemma grid_trans grid a b c :
  well_ordered grid = true → In a grid → In b grid → In c grid →
  (a <? b)%float = true → (b <? c)%float = true → (a <? c)%float = true.
Proof.
  intros Hw Ha Hb Hc Hab Hbc. pose proof (grid_order grid a b c Hw Ha Hb Hc) as Ho.
  unfold ordered_triple in Ho. rewrite Hab, Hbc in Ho. simpl in Ho.
  by destruct (a <? c)%float.
Qed.

Lemma grid_trans_le grid a b c :
  well_ordered grid = true → In a grid → In b grid → In c grid →
  (a <=? b)%float = true → (b <? c)%float = true → (a <? c)%float = true.
Proof.
  intros Hw Ha Hb Hc Hab Hbc. pose proof (grid_order grid a b c Hw Ha Hb Hc) as Ho.
  unfold ordered_triple in Ho. rewrite Hab, Hbc in Ho. simpl in Ho.
  destruct (a <? c)%float; [done|]. by rewrite !andb_false_r in Ho.
Qed.

Lemma grid_total grid a b :
  well_ordered grid = true → In a grid → In b grid →
  (a <? b)%float = false → (b <=? a)%float = true.
Proof.
  intros Hw Ha Hb Hab. pose proof (grid_order grid a b a Hw Ha Hb Ha) as Ho.
  unfold ordered_triple in Ho. rewrite Hab in Ho. simpl in Ho.
  destruct (b <=? a)%float; [done|]. by rewrite !andb_false_r in Ho.
Qed.

Lemma rule_loop_snoc sigs sig msg port :
  rule_loop (sigs ++ [sig]) msg port = rule_step msg port (rule_loop sigs msg port) sig.
Proof. unfold rule_loop. by rewrite fold_left_app. Qed.

Lemma rule_step_confidence msg port st sig :
  (0 < matches_of msg sig)%nat →
  (max_confidence (rule_step msg port st sig), detected_type (rule_step msg port st sig))
  = if (max_confidence st <? kind_confidence msg port sig)%float
    then (kind_confidence msg port sig, sig.1)
    else (max_confidence st, detected_type st).
Proof.
  intros Hpos. unfold rule_step, kind_confidence. fold (matches_of msg sig).
  rewrite <- pattern_confidence_spec.
  apply Nat.ltb_lt in Hpos. rewrite Hpos.
  by destruct (max_confidence st <? _)%float.
Qed.

Lemma rule_step_no_match msg port st sig :
  matches_of msg sig = 0%nat →
  (max_confidence (rule_step msg port st sig), detected_type (rule_step msg port st sig))
  = (max_confidence st, detected_type st).
Proof.
  intros Hzero. unfold rule_step. fold (matches_of msg sig). by rewrite Hzero.
Qed.

(** The loop keeps the first kind of largest confidence, provided the
    confidences it compares are ordered by [<?]. A matching kind has a
    positive confidence, so the loop keeps [normal] only when none matches. *)
Lemma rule_loop_verdict sigs msg port :
  well_ordered (confidence_grid sigs) = true →
  (∀ sig, sig ∈ sigs → (0 < matches_of msg sig)%nat →
     (0 <? kind_confidence msg port sig)%float = true) →
  In (max_confidence (rule_loop sigs msg port)) (confidence_grid sigs)
  ∧ rule_verdict sigs msg port
      (detected_type (rule_loop sigs msg port))
      (max_confidence (rule_loop sigs msg port)).
Proof.
  intros Hw Hpos.
  assert (∀ seen rest, sigs = seen ++ rest →
    In (max_confidence (rule_loop seen msg port)) (confidence_grid sigs)
    ∧ rule_verdict seen msg port
        (detected_type (rule_loop seen msg port))
        (max_confidence (rule_loop seen msg port))) as Hall.
  2:{ apply (Hall sigs []). by rewrite app_nil_r. }
  induction seen as [|sig seen IH] using rev_ind; intros rest Hsplit.
  { split; [apply grid_zero|]. left. split_and!; [done..|].
    by intros sig ?%elem_of_nil. }
  rewrite <- app_assoc in Hsplit. cbn [app] in Hsplit.
  destruct (IH _ Hsplit) as [Hgrid Hverdict].
  assert (∀ s, s ∈ seen ++ [sig] → s ∈ sigs) as Hsub.
  { intros s Hs. rewrite Hsplit.
    apply elem_of_app in Hs as [Hs|Hs%list_elem_of_singleton];
      [|subst s]; set_solver. }
  assert (∀ s, s ∈ seen ++ [sig] → (0 < matches_of msg s)%nat →
            In (kind_confidence msg port s) (confidence_grid sigs)) as Hin
    by (intros; apply grid_confidence; auto).
  rewrite rule_loop_snoc.
  set (st := rule_loop seen msg port) in *.
  destruct (Nat.eq_dec (matches_of msg sig) 0%nat) as [Hzero|Hsome].
  { pose proof (rule_step_no_match msg port st sig Hzero) as [= -> ->].
    split; [done|]. destruct Hverdict as [(Hk & Hc & Hnone)|Hwin].
    - left. split_and!; [done..|].
      intros s [Hs|Hs%list_elem_of_singleton]%elem_of_app; [auto|by subst s].
    - right. destruct Hwin as (before & win & after & -> & Hm & Hk & Hc & Hb & Ha).
      exists before, win, (after ++ [sig]). rewrite <- app_assoc. split_and!; try done.
      intros s [Hs|Hs%list_elem_of_singleton]%elem_of_app; [auto|subst s; lia]. }
  assert (0 < matches_of msg sig)%nat as Hmatch by lia.
  assert (In (kind_confidence msg port sig) (confidence_grid sigs)) as Hcin
    by (apply Hin; [set_solver|done]).
  pose proof (rule_step_confidence msg port st sig Hmatch) as Hstep.
  destruct (max_confidence st <? kind_confidence msg port sig)%float eqn:Hlt;
    injection Hstep as -> ->.
  - (* the new kind takes over: every earlier one is strictly below it *)
    split; [done|]. right. exists seen, sig, []. split_and!; try done.
    2:{ by intros s ?%elem_of_nil. }
    intros s Hs Hsm.
    assert (In (kind_confidence msg port s) (confidence_grid sigs)) as Hsin
      by (apply Hin; [set_solver|done]).
    destruct Hverdict as [(Hk & Hc & Hnone)|Hwin].
    { specialize (Hnone s Hs). lia. }
    destruct Hwin as (before & win & after & -> & Hm & Hk & Hc & Hb & Ha).
    apply elem_of_app in Hs as [Hs|[->|Hs]%elem_of_cons].
    + eapply (grid_trans _ _ (max_confidence st)); eauto.
    + by rewrite <- Hc.
    + eapply (grid_trans_le _ _ (max_confidence st)); eauto.
  - (* the kept kind is not below the new one *)
    split; [done|]. destruct Hverdict as [(Hk & Hc & Hnone)|Hwin].
    + exfalso. rewrite Hc in Hlt.
      rewrite (Hpos sig) in Hlt; [done| |done]. apply Hsub. set_solver.
    + right. destruct Hwin as (before & win & after & -> & Hm & Hk & Hc & Hb & Ha).
      exists before, win, (after ++ [sig]). rewrite <- app_assoc. split_and!; try done.
      intros s [Hs|Hs%list_elem_of_singleton]%elem_of_app Hsm; [auto|subst s].
      eapply grid_total; eauto.
Qed.

End RuleStageFacts.

(** ** The signature table of the classifier *)
Section DefaultTable.
Import Classifier.
Implicit Types (msg : list ascii) (port : Z).

Lemma default_kinds : map fst default_signatures = kinds_in_order.
Proof. reflexivity. Qed.

(** Every signature is written in the fragment of [re] that [Regex] covers. *)
Lemma default_patterns_in_fragment :
  forallb (fun sig => forallb (fun p => Regex.in_fragment (list_ascii_of_string p)) sig.2)
    default_signatures = true.
Proof. by vm_compute. Qed.

Lemma default_grid_ordered : well_ordered (confidence_grid default_signatures) = true.
Proof. by vm_compute. Qed.

Lemma default_grid_positive :
  forallb (fun c => (0 <? c)%float) (tl (confidence_grid default_signatures)) = true.
Proof. by vm_compute. Qed.

Lemma default_confidence_positive msg port sig :
  sig ∈ default_signatures → (0 < matches_of msg sig)%nat →
  (0 <? kind_confidence msg port sig)%float = true.
Proof.
  intros Hsig Hpos. pose proof default_grid_positive as Hall.
  rewrite forallb_forall in Hall. apply Hall. by apply grid_confidence_tail.
Qed.

Lemma rule_fold_number sigs msg port st :
  is_number (max_confidence st) →
  is_number (max_confidence (fold_left (rule_step msg port) sigs st)).
Proof.
  revert st. induction sigs as [|sig sigs IH]; intros st Hst; [done|].
  cbn [fold_left]. apply IH. unfold rule_step.
  destruct (0 <? length (patterns_hit msg sig.2))%nat; [|done].
  destruct (max_confidence st <? _)%float; [|done].
  apply min_one_number.
Qed.

Lemma rule_loop_number sigs msg port : is_number (max_confidence (rule_loop sigs msg port)).
Proof. apply rule_fold_number. by vm_compute. Qed.

(** The rule stage returns whenever the message is a text (or absent). *)
Lemma rule_based_classification_ok clf e text :
  message_text e = Ok text →
  ∃ patterns indicators,
    rule_based_classification clf e
    = Ok (RuleBased
            (detected_type (rule_loop (attack_signatures clf) (Py.lower text) (dst_port_or_zero e)))
            (max_confidence (rule_loop (attack_signatures clf) (Py.lower text) (dst_port_or_zero e)))
            patterns indicators).
Proof.
  intros Ht. unfold rule_based_classification, extract_indicators. rewrite Ht. simpl.
  eauto.
Qed.

Lemma rule_based_classification_number clf e r :
  rule_based_classification clf e = Ok r → is_number (confidence_of r).
Proof.
  destruct (message_text e) as [text|why] eqn:Ht.
  - destruct (rule_based_classification_ok clf e text Ht) as (ps & inds & ->).
    intros [= <-]. apply rule_loop_number.
  - unfold rule_based_classification. by rewrite Ht.
Qed.

End DefaultTable.

(** ** Matching ignores case *)
Section CaseFacts.

Lemma ascii_listed (c : ascii) : c ∈ all_ascii.
Proof.
  unfold all_ascii. apply list_elem_of_fmap. exists (nat_of_ascii c). split.
  - by rewrite ascii_nat_embedding.
  - apply list_elem_of_In, in_seq. pose proof (nat_ascii_bounded c). lia.
Qed.

Lemma every_ascii (P : ascii → bool) :
  forallb P all_ascii = true → ∀ c, P c = true.
Proof.
  intros Hall c. rewrite forallb_forall in Hall. apply Hall, list_elem_of_In, ascii_listed.
Qed.

Lemma every_ascii_pair (P : ascii → ascii → bool) :
  forallb (fun c => forallb (P c) all_ascii) all_ascii = true → ∀ c d, P c d = true.
Proof.
  intros Hall c d.
  apply (every_ascii (P c)), (every_ascii (fun c => forallb (P c) all_ascii)), Hall.
Qed.

Lemma same_ignoring_case_test_spec c d :
  same_ignoring_case_test c d = true ↔ same_ignoring_case c d.
Proof.
  unfold same_ignoring_case_test, same_ignoring_case.
  rewrite orb_true_iff, Ascii.eqb_eq, existsb_exists. split.
  - intros [->|([a b] & Hin%list_elem_of_In & Hab)]; [by left|right].
    simpl in Hab. rewrite orb_true_iff, !andb_true_iff, !Ascii.eqb_eq in Hab.
    destruct Hab as [[-> ->]|[-> ->]]; [by left|by right].
  - intros [->|[Hin|Hin]]; [by left| |]; right.
    + exists (c, d). split; [by apply list_elem_of_In|]. simpl.
      by rewrite !Ascii.eqb_refl.
    + exists (d, c). split; [by apply list_elem_of_In|]. simpl.
      rewrite !Ascii.eqb_refl. by rewrite orb_true_r.
Qed.

(** The comparison [re.IGNORECASE] makes is the comparison up to case. *)
Lemma same_letter_spec c d : Regex.same_letter c d = true ↔ same_ignoring_case c d.
Proof.
  rewrite <- same_ignoring_case_test_spec.
  assert (Regex.same_letter c d = same_ignoring_case_test c d) as ->; [|done].
  apply Bool.eqb_prop.
  apply (every_ascii_pair (fun c d =>
    Bool.eqb (Regex.same_letter c d) (same_ignoring_case_test c d))).
  by vm_compute.
Qed.

Lemma is_newline_spec d : Regex.is_newline d = false ↔ d ≠ line_feed_char.
Proof.
  unfold Regex.is_newline, line_feed_char. by rewrite Ascii.eqb_neq.
Qed.

(** Lowering the text changes nothing to a case-insensitive comparison. *)
Lemma same_letter_lower c d :
  Regex.same_letter c (Py.lower_ascii d) = Regex.same_letter c d.
Proof.
  apply Bool.eqb_prop.
  apply (every_ascii_pair (fun c d =>
    Bool.eqb (Regex.same_letter c (Py.lower_ascii d)) (Regex.same_letter c d))).
  by vm_compute.
Qed.

Lemma is_newline_lower d : Regex.is_newline (Py.lower_ascii d) = Regex.is_newline d.
Proof.
  apply Bool.eqb_prop.
  apply (every_ascii (fun d =>
    Bool.eqb (Regex.is_newline (Py.lower_ascii d)) (Regex.is_newline d))).
  by vm_compute.
Qed.

Lemma match_here_star re s :
  Regex.match_here (Regex.DotStar :: re) s
  = Regex.match_here re s
    || match s with
       | d :: s' => negb (Regex.is_newline d) && Regex.match_here (Regex.DotStar :: re) s'
       | [] => false
       end.
Proof. by destruct s. Qed.

Lemma match_here_lower re s :
  Regex.match_here re (map Py.lower_ascii s) = Regex.match_here re s.
Proof.
  revert s. induction re as [|[c| |] re IH]; intros s.
  - done.
  - destruct s as [|d s]; [done|]. simpl. by rewrite same_letter_lower, IH.
  - destruct s as [|d s]; [done|]. simpl. by rewrite is_newline_lower, IH.
  - induction s as [|d s IHs]; [done|]. cbn [map].
    rewrite (match_here_star re (d :: s)), (match_here_star re (_ :: map _ s)).
    rewrite <- (IH (d :: s)). cbn [map]. by rewrite is_newline_lower, IHs.
Qed.

Lemma search_from_lower re s :
  Regex.search_from re (Py.lower s) = Regex.search_from re s.
Proof.
  unfold Py.lower. induction s as [|d s IH]; [done|].
  cbn [map Regex.search_from]. rewrite <- (match_here_lower re (d :: s)).
  cbn [map]. by rewrite IH.
Qed.

(** The matcher accepts the texts that begin with a segment the
    expression reads. *)
Lemma match_here_reads re s :
  Regex.match_here re s = true ↔ ∃ segment after, s = segment ++ after ∧ reads re segment.
Proof.
  revert s. induction re as [|[c| |] re IH]; intros s.
  - split; [|done]. intros _. exists [], s. split; [done|constructor].
  - destruct s as [|d s]; simpl.
    + split; [done|]. intros (seg & after & Heq & Hr). inversion Hr; subst. done.
    + rewrite andb_true_iff, same_letter_spec, IH. split.
      * intros (Hc & seg & after & -> & Hr). exists (d :: seg), after.
        split; [done|by constructor].
      * intros (seg & after & Heq & Hr). inversion Hr; subst.
        injection Heq as <- ->. split; [done|]. by eexists _, _.
  - destruct s as [|d s]; simpl.
    + split; [done|]. intros (seg & after & Heq & Hr). inversion Hr; subst. done.
    + rewrite andb_true_iff, negb_true_iff, is_newline_spec, IH. split.
      * intros (Hc & seg & after & -> & Hr). exists (d :: seg), after.
        split; [done|by constructor].
      * intros (seg & after & Heq & Hr). inversion Hr; subst.
        injection Heq as <- ->. split; [done|]. by eexists _, _.
  - split.
    + induction s as [|d s IHs]; rewrite match_here_star, orb_true_iff.
      * intros [(seg & after & Heq & Hr)%IH|?]; [|done].
        exists seg, after. split; [done|by apply reads_skip].
      * intros [(seg & after & Heq & Hr)%IH|Hmore].
        { exists seg, after. split; [done|by apply reads_skip]. }
        apply andb_true_iff in Hmore as [Hd%negb_true_iff%is_newline_spec Hs].
        destruct (IHs Hs) as (seg & after & -> & Hr).
        exists (d :: seg), after. split; [done|by apply reads_more].
    + intros (seg & after & -> & Hr).
      remember (Regex.DotStar :: re) as star eqn:Hstar.
      induction Hr as [|c d re' s' Hc Hr' IHr|d re' s' Hd Hr' IHr|re' s' Hr' IHr
                       |d re' s' Hd Hr' IHr]; try done.
      * injection Hstar as ->. rewrite match_here_star, orb_true_iff. left.
        apply IH. by eexists _, _.
      * rewrite Hstar in *. change ((d :: s') ++ after) with (d :: (s' ++ after)).
        rewrite match_here_star, orb_true_iff. right.
        apply andb_true_iff. split; [by apply negb_true_iff, is_newline_spec|].
        by apply IHr.
Qed.

Lemma search_from_reads re s :
  Regex.search_from re s = true
  ↔ ∃ before segment after, s = before ++ segment ++ after ∧ reads re segment.
Proof.
  induction s as [|d s IHs]; cbn [Regex.search_from]; rewrite orb_true_iff, match_here_reads.
  - split.
    + intros [(seg & after & Heq & Hr)|?]; [|done]. by exists [], seg, after.
    + intros (before & seg & after & Heq & Hr). left.
      symmetry in Heq. apply app_eq_nil in Heq as [-> Heq]. by exists seg, after.
  - rewrite IHs. split.
    + intros [(seg & after & Heq & Hr)|(before & seg & after & -> & Hr)].
      * by exists [], seg, after.
      * by exists (d :: before), seg, after.
    + intros (before & seg & after & Heq & Hr). destruct before as [|b before].
      * left. by exists seg, after.
      * right. injection Heq as -> ->. by exists before, seg, after.
Qed.

(** What the rule stage tests of a pattern, on the lowered message, is
    that the pattern is found in the message ignoring case. *)
Lemma search_found p text :
  Regex.search p (Py.lower text) = true ↔ found_ignoring_case text p.
Proof.
  unfold Regex.search, found_ignoring_case. by rewrite search_from_lower, search_from_reads.
Qed.

Lemma patterns_hit_count text ps :
  pattern_count (found_ignoring_case text) ps
    (length (Classifier.patterns_hit (Py.lower text) ps)).
Proof.
  induction ps as [|p ps IH]; [constructor|].
  unfold Classifier.patterns_hit in *. simpl.
  destruct (Regex.search p (Py.lower text)) eqn:Hp.
  - simpl. apply count_hit; [by apply search_found|done].
  - apply count_miss; [|done]. rewrite <- search_found. by rewrite Hp.
Qed.

(** The count of the patterns that satisfy a property is unique. *)
Lemma pattern_count_unique P ps n m :
  pattern_count P ps n → pattern_count P ps m → n = m.
Proof.
  intros Hn. revert m. induction Hn; intros m Hm; inversion Hm; subst; try done.
  - f_equal. eauto.
  - eauto.
Qed.

End CaseFacts.

(** C2. The rule stage goes through the kinds in the order brute_force,
    port_scan, web_attack, ddos, malware, whose patterns are all written
    with literals, [.] and [.*]. The confidence the code gives a kind
    with [matched] of [total] patterns matched is
    min(0.9, matched/total + 0.3), plus the increment of the kind when
    the destination port is one the kind expects, clamped to 1.0.

    On an event whose message is a text (an absent message is the empty
    text), the number of patterns the stage counts for a kind is the
    number of patterns of the kind that are found in the message
    ignoring case, and the stage returns the kind of largest confidence
    among those with a match, the earliest one on a tie, and [normal]
    with confidence 0 when no kind matches.

    On an event whose message is not a text the stage raises, and
    [classify_attack] returns the kind [unknown] under the method
    [error], with the text of the exception. *)
Theorem rule_stage_spec (trained : bool)
    (model : list float → option (string * list (string * float)))
    (e : Event) :
  let clf := Classifier.new_classifier trained model in
  map fst (Classifier.attack_signatures clf) = kinds_in_order
  ∧ signatures_in_fragment (Classifier.attack_signatures clf) = true
  ∧ (∀ kind matched total,
       Classifier.pattern_confidence kind matched total (dst_port_or_zero e)
       = spec_confidence kind matched total (dst_port_or_zero e))
  ∧ match message_text e with
    | Ok text =>
        (∀ sig, sig ∈ Classifier.attack_signatures clf →
           pattern_count (found_ignoring_case text) sig.2 (matches_of (Py.lower text) sig))
        ∧ ∃ r, Classifier.rule_based_classification clf e = Ok r
            ∧ Classifier.method_of r = "rule_based"
            ∧ rule_verdict (Classifier.attack_signatures clf) (Py.lower text)
                (dst_port_or_zero e) (Classifier.attack_type_of r)
                (Classifier.confidence_of r)
    | Fault why =>
        Classifier.rule_based_classification clf e = Fault why
        ∧ Classifier.classify_attack clf e = Classifier.Failed "error" why
    end.
Proof.
  cbv zeta. split; [apply default_kinds|]. split; [by vm_compute|].
  split; [intros; apply pattern_confidence_spec|].
  destruct (message_text e) as [text|why] eqn:Ht.
  - split; [intros sig _; apply patterns_hit_count|].
    destruct (rule_based_classification_ok (Classifier.new_classifier trained model) e text Ht)
      as (ps & inds & Hr).
    eexists. split; [exact Hr|]. split; [done|]. simpl.
    apply rule_loop_verdict.
    + apply default_grid_ordered.
    + apply default_confidence_positive.
  - assert (Classifier.rule_based_classification
              (Classifier.new_classifier trained model) e = Fault why) as Hr.
    { unfold Classifier.rule_based_classification. by rewrite Ht. }
    split; [exact Hr|].
    unfold Classifier.classify_attack, Classifier.classify_attack_traced. by rewrite Hr.
Qed.

(** A flood report in capitals of its own. The text does not contain the
    pattern [SYN flood detected] as it is written, and the pattern is
    found in it ignoring case: it is the one port_scan pattern of four
    that matches. One ddos pattern of four matches too, both kinds get
    the confidence 0.55, and the earlier kind is returned. *)
Lemma rule_stage_witness :
  let text := list_ascii_of_string "syn FLOOD Detected" in
  Py.str_in "SYN flood detected" text = false
  ∧ found_ignoring_case text "SYN flood detected"
  ∧ pattern_count (found_ignoring_case text)
      [ "Connection attempt.*refused"; "SYN flood detected";
        "Port scan detected"; "Multiple connection attempts" ] 1
  ∧ ∃ r, Classifier.rule_based_classification
           (Classifier.new_classifier false (fun _ => None)) Sample.shouted_flood = Ok r
      ∧ Classifier.attack_type_of r = "port_scan"
      ∧ Classifier.confidence_of r = 0.55%float
      ∧ rule_verdict Classifier.default_signatures (Py.lower text) 8080
          (Classifier.attack_type_of r) (Classifier.confidence_of r).
Proof.
  cbv zeta.
  pose proof (rule_stage_spec false (fun _ => None) Sample.shouted_flood) as Hspec.
  cbv zeta in Hspec. destruct Hspec as (_ & _ & _ & Hspec).
  assert (message_text Sample.shouted_flood
          = Ok (list_ascii_of_string "syn FLOOD Detected")) as Ht by reflexivity.
  rewrite Ht in Hspec. destruct Hspec as (Hcount & r & Hr & _ & Hv).
  split; [by vm_compute|].
  split; [apply search_found; by vm_compute|].
  split.
  { exact (Hcount
             ("port_scan",
              [ "Connection attempt.*refused"; "SYN flood detected";
                "Port scan detected"; "Multiple connection attempts" ])
             ltac:(by vm_compute; repeat constructor)). }
  exists r. split; [exact Hr|].
  vm_compute in Hr. injection Hr as <-. split; [by vm_compute|]. split; [by vm_compute|].
  exact Hv.
Defined.

(** An entry whose message is a number: the rule stage returns no kind,
    and [classify_attack] answers [unknown] under the method [error]. *)
Lemma rule_stage_raises :
  ((∃ r, Classifier.rule_based_classification
           (Classifier.new_classifier false (fun _ => None)) Sample.numeric_message
         = Ok r) → False)
  ∧ Classifier.attack_type_of
      (Classifier.classify_attack
         (Classifier.new_classifier false (fun _ => None)) Sample.numeric_message)
    = "unknown"
  ∧ Classifier.method_of
      (Classifier.classify_attack
         (Classifier.new_classifier false (fun _ => None)) Sample.numeric_message)
    = "error".
Proof.
  split; [|by vm_compute]. intros [r Hr]. by vm_compute in Hr.
Qed.

(** C3. [classify_attack] calls the statistical stage only when the rule
    stage returned a confidence of at most 0.7 (and the model is trained).
    When it is called, the statistical result is returned if its
    confidence is strictly higher than the rule stage's, and the rule
    stage's result if it is strictly lower or equal. When it is not called,
    the rule stage's result is returned. *)
Theorem classify_attack_spec (clf : Classifier.AttackClassifier) (e : Event) :
  match Classifier.rule_based_classification clf e with
  | Fault why =>
      Classifier.classify_attack_traced clf e
      = ([Classifier.RuleStage], Classifier.Failed "error" why)
  | Ok rule_result =>
      let ml_result := Classifier.ml_classification clf e in
      let rule_c := Classifier.confidence_of rule_result in
      let ml_c := Classifier.confidence_of ml_result in
      if decide (Classifier.StatisticalStage ∈ (Classifier.classify_attack_traced clf e).1)
      then (rule_c <=? 0.7)%float = true
           ∧ Classifier.is_trained clf = true
           ∧ ((rule_c <? ml_c)%float = true → Classifier.classify_attack clf e = ml_result)
           ∧ ((ml_c <? rule_c)%float = true → Classifier.classify_attack clf e = rule_result)
           ∧ ((rule_c =? ml_c)%float = true → Classifier.classify_attack clf e = rule_result)
      else Classifier.classify_attack clf e = rule_result
           ∧ ((0.7 <? rule_c)%float = true ∨ Classifier.is_trained clf = false)
  end.
Proof.
  unfold Classifier.classify_attack, Classifier.classify_attack_traced.
  destruct (Classifier.rule_based_classification clf e) as [rule_result|why] eqn:Hrule;
    [|done].
  cbv zeta. destruct (0.7 <? Classifier.confidence_of rule_result)%float eqn:Hhigh.
  { cbn [fst snd]. case_decide as Hin; [|auto].
    apply list_elem_of_singleton in Hin. discriminate. }
  destruct (Classifier.is_trained clf) eqn:Htrained.
  2:{ cbn [fst snd]. case_decide as Hin; [|auto].
      apply list_elem_of_singleton in Hin. discriminate. }
  cbn [fst snd]. case_decide as Hin.
  2:{ exfalso. apply Hin. right. left. }
  split_and!; [|done|..].
  - apply not_ltb_leb; [by vm_compute| |done].
    by eapply rule_based_classification_number.
  - by intros ->.
  - by intros ->%ltb_asym.
  - by intros ->%eqb_not_ltb.
Qed.

(** The failed login gets confidence 0.65 from the rule stage; the trained
    model is consulted and ties with it, so the rule stage's verdict stands. *)
Lemma classify_attack_example :
  Classifier.classify_attack_traced
    (Classifier.new_classifier true Sample.scan_model) Sample.failed_login
  = ([Classifier.RuleStage; Classifier.StatisticalStage],
     Classifier.RuleBased "brute_force" 0.65%float
       ["Failed password for.*from.*port"]
       [ ("failed_login", IBool true); ("multiple_attempts", IBool true);
         ("common_passwords", IBool true); ("username_enumeration", IBool false) ]).
Proof. by vm_compute. Qed.

(** ** Scenario A *)
Section ScenarioA.
Import Analyzer.
Variable stamps : list Z.
Hypothesis sixty : length stamps = 60%nat.

Lemma scenario_a_length : length (Sample.scenario_a stamps) = 60%nat.
Proof. unfold Sample.scenario_a. by rewrite length_map. Qed.

Lemma scenario_a_sources : map src_ip (Sample.scenario_a stamps) = repeat (Some "10.0.0.1") 60.
Proof.
  rewrite <- sixty. unfold Sample.scenario_a. clear sixty.
  induction stamps as [|us l IH]; [done|]. simpl. by rewrite IH.
Qed.

Lemma scenario_a_ports : map dst_port (Sample.scenario_a stamps) = repeat (Some 22) 60.
Proof.
  rewrite <- sixty. unfold Sample.scenario_a. clear sixty.
  induction stamps as [|us l IH]; [done|]. simpl. by rewrite IH.
Qed.

Lemma scenario_a_protocols : map protocol (Sample.scenario_a stamps) = repeat None 60.
Proof.
  rewrite <- sixty. unfold Sample.scenario_a. clear sixty.
  induction stamps as [|us l IH]; [done|]. simpl. by rewrite IH.
Qed.

Lemma scenario_a_rows : rows_of "10.0.0.1" (Sample.scenario_a stamps) = (Sample.scenario_a stamps).
Proof.
  unfold Sample.scenario_a, rows_of. clear sixty.
  induction stamps as [|us l IH]; [done|]. simpl. by rewrite IH.
Qed.

Lemma scenario_a_stamps :
  DataFrame.has_column (map timestamp (Sample.scenario_a stamps)) = true
  ∧ DataFrame.to_datetime (map timestamp (Sample.scenario_a stamps)) = Ok (map Some stamps).
Proof.
  unfold Sample.scenario_a. split.
  - destruct stamps; [done|]. done.
  - clear sixty.
    assert (∀ format position, format = None ∨ format = Some Sample.iso_layout →
              DataFrame.read_column format position
                (map timestamp (map Sample.scenario_a_event stamps))
              = Ok (map Some stamps)) as Hread.
    { intros format position Hfmt. revert position.
      induction stamps as [|us l IH]; intros position; [done|].
      cbn [map timestamp Sample.scenario_a_event DataFrame.read_column].
      rewrite IH, (read_cell_ok format position _ us); [done|].
      destruct Hfmt as [->| ->]; [done|]. by vm_compute. }
    apply Hread. destruct stamps; [by left|by right].
Qed.

Lemma scenario_a_features :
  ∃ range,
    extract_features new_analyzer (Sample.scenario_a stamps)
    = Ok {| total_events := 60;
            unique_ips := 1;
            unique_ports := 1;
            time_range := Some range;
            ip_frequency := [("10.0.0.1", 60)];
            port_frequency := [(22, 60)];
            patterns := [("10.0.0.1", mkPattern false 60 1)];
            protocol_distribution := None |}.
Proof.
  destruct scenario_a_stamps as [Hcol Hparse].
  unfold extract_features, time_analysis, pattern_of.
  rewrite Hcol, Hparse, scenario_a_length, scenario_a_sources, scenario_a_ports,
    scenario_a_protocols.
  assert ((if DataFrame.has_column (repeat (Some "10.0.0.1") 60)
           then DataFrame.head 10 (DataFrame.value_counts (repeat (Some "10.0.0.1") 60))
           else []) = [("10.0.0.1", 60)]) as -> by by vm_compute.
  cbn [map fst]. rewrite scenario_a_rows, scenario_a_ports.
  eexists. cbn [mbind result_bind mret result_ret].
  change (Z.of_nat 60 =? 0) with false. cbv iota.
  reflexivity.
Qed.

Lemma scenario_a_detect :
  AnomalyDetector.detect (Sample.scenario_a stamps)
  = Ok [mkAnomaly "IP Frequency Spike" (Some "10.0.0.1") Medium 0.4%float None].
Proof.
  destruct scenario_a_stamps as [Hcol Hparse].
  unfold AnomalyDetector.detect, AnomalyDetector.temporal_burst,
    AnomalyDetector.port_targeting, AnomalyDetector.ip_spikes.
  assert (AnomalyDetector.empty (Sample.scenario_a stamps) = false) as ->.
  { unfold Sample.scenario_a. destruct stamps; [done|]. done. }
  rewrite Hcol, Hparse, scenario_a_length, scenario_a_sources, scenario_a_ports.
  cbn [mbind result_bind mret result_ret].
  change (100 <? Z.of_nat 60) with false. rewrite andb_false_r.
  by vm_compute.
Qed.

Lemma scenario_a_rule_stage trained model e :
  e ∈ (Sample.scenario_a stamps) →
  Classifier.rule_based_classification (Classifier.new_classifier trained model) e
  = Ok (Classifier.RuleBased "normal" 0 [] []).
Proof.
  unfold Sample.scenario_a. intros (us & -> & _)%list_elem_of_fmap.
  by vm_compute.
Qed.

End ScenarioA.

(** C1, as the code has it. On sixty events from one source to port 22
    with the message "Failed password for root", within ten seconds: the
    classification step reports one attack, brute_force of severity high
    with confidence 0.6 (below 0.7); the rule stage of the classifier
    matches no signature on any of the events and returns [normal] with
    confidence 0; the anomaly detector reports one frequency spike, of
    severity medium (the count is above 50 and not above 100) and
    confidence 0.4; the threat analyzer reports exactly one threat,
    critical and immediate. *)
Theorem scenario_a_analysis (stamps : list Z) :
  length stamps = 60%nat →
  (∀ s t, s ∈ stamps → t ∈ stamps → t - s ≤ 10000000) →
  ∃ features,
    Analyzer.extract_features Analyzer.new_analyzer (Sample.scenario_a stamps) = Ok features
    ∧ map (fun a => (a_type a, a_severity a, a_source_ip a, a_confidence a))
        (Analyzer.classify_attacks features)
      = [("brute_force", High, "10.0.0.1", 0.6%float)]
    ∧ (0.6 <? 0.7)%float = true
    ∧ (∀ trained model e, e ∈ Sample.scenario_a stamps →
         Classifier.rule_based_classification (Classifier.new_classifier trained model) e
         = Ok (Classifier.RuleBased "normal" 0 [] []))
    ∧ AnomalyDetector.detect (Sample.scenario_a stamps)
      = Ok [mkAnomaly "IP Frequency Spike" (Some "10.0.0.1") Medium 0.4%float None]
    ∧ Analyzer.analyze_threats (Analyzer.classify_attacks features)
        (Analyzer.detect_anomalies features) = [scenario_a_threat]
    ∧ is_immediate scenario_a_threat.
Proof.
  intros Hlen _. destruct (scenario_a_features stamps Hlen) as [range Hf].
  eexists. split; [exact Hf|]. split; [by vm_compute|]. split; [by vm_compute|].
  split; [intros trained model e He; by apply (scenario_a_rule_stage stamps)|].
  split; [by apply scenario_a_detect|]. split; [by vm_compute|]. done.
Qed.

Lemma stamps_a_window :
  ∀ s t, s ∈ Sample.stamps_a → t ∈ Sample.stamps_a → t - s ≤ 10000000.
Proof.
  assert (Forall (fun s => Forall (fun t => t - s ≤ 10000000) Sample.stamps_a)
            Sample.stamps_a) as Hall
    by (apply (bool_decide_unpack _); by vm_compute).
  intros s t Hs Ht. rewrite List.Forall_forall in Hall.
  specialize (Hall s (proj1 (list_elem_of_In _ _) Hs)).
  rewrite List.Forall_forall in Hall. apply Hall. by apply list_elem_of_In.
Defined.

Lemma scenario_a_witness :
  ∃ features,
    Analyzer.extract_features Analyzer.new_analyzer (Sample.scenario_a Sample.stamps_a)
      = Ok features
    ∧ map (fun a => (a_type a, a_severity a, a_source_ip a, a_confidence a))
        (Analyzer.classify_attacks features)
      = [("brute_force", High, "10.0.0.1", 0.6%float)]
    ∧ (0.6 <? 0.7)%float = true
    ∧ (∀ trained model e, e ∈ Sample.scenario_a Sample.stamps_a →
         Classifier.rule_based_classification (Classifier.new_classifier trained model) e
         = Ok (Classifier.RuleBased "normal" 0 [] []))
    ∧ AnomalyDetector.detect (Sample.scenario_a Sample.stamps_a)
      = Ok [mkAnomaly "IP Frequency Spike" (Some "10.0.0.1") Medium 0.4%float None]
    ∧ Analyzer.analyze_threats (Analyzer.classify_attacks features)
        (Analyzer.detect_anomalies features) = [scenario_a_threat]
    ∧ is_immediate scenario_a_threat.
Proof.
  refine (scenario_a_analysis Sample.stamps_a _ stamps_a_window). by vm_compute.
Defined.

(** On that batch the confidence of the brute_force attack is 0.6, not at
    least 0.7, and the frequency spike is of severity medium, not high:
    two of the three expectations of the specification fail. *)
Lemma scenario_a_refuted :
  (scenario_a_confident (Sample.scenario_a Sample.stamps_a) → False)
  ∧ (scenario_a_high_spike (Sample.scenario_a Sample.stamps_a) → False)
  ∧ (scenario_a_claim (Sample.scenario_a Sample.stamps_a) → False).
Proof.
  assert (length Sample.stamps_a = 60%nat) as Hlen by by vm_compute.
  destruct (scenario_a_features Sample.stamps_a Hlen) as [range Hf].
  pose proof (scenario_a_detect Sample.stamps_a Hlen) as Hd.
  assert (scenario_a_confident (Sample.scenario_a Sample.stamps_a) → False) as Hconf.
  { intros (features & a & Hf' & Ha & _ & Hc). rewrite Hf in Hf'.
    injection Hf' as <-. vm_compute in Ha.
    apply list_elem_of_singleton in Ha. subst a. by vm_compute in Hc. }
  assert (scenario_a_high_spike (Sample.scenario_a Sample.stamps_a) → False) as Hspike.
  { intros (found & spike & Hd' & Hs & _ & Hsev). rewrite Hd in Hd'.
    injection Hd' as <-. apply list_elem_of_singleton in Hs. by subst spike. }
  split; [done|]. split; [done|]. intros (Hc & _). auto.
Qed.

(** The report of the whole pass on the batch of scenario A: one
    brute_force attack, the critical immediate threat, the [adapt] and
    [block_ips] recommendations and a reputation of 10 for the source. The
    pass runs the analyzer's own anomaly rules, which have no
    frequency-spike rule, so the report lists no anomaly. *)
Lemma scenario_a_report :
  let report :=
    (Analyzer.analyze_logs Analyzer.new_analyzer Sample.clock
       (Sample.scenario_a Sample.stamps_a)).1 in
  Analyzer.error report = None
  ∧ map a_type (Analyzer.attacks report) = ["brute_force"]
  ∧ Analyzer.anomalies report = []
  ∧ Analyzer.threats report = [scenario_a_threat]
  ∧ map r_action (Analyzer.recommendations report) = ["spawn_honeypots"; "block_ips"]
  ∧ Analyzer.reputation_updates report
    = Some [("10.0.0.1", Analyzer.mkUpdate 50 10 (-40))].
Proof. by vm_compute. Qed.

Lemma generate_recommendations_witness :
  ∃ features,
    Analyzer.extract_features Analyzer.new_analyzer Sample.sweep = Ok features
    ∧ map r_action
        (Analyzer.generate_recommendations
           (Analyzer.analyze_threats (Analyzer.classify_attacks features)
              (Analyzer.detect_anomalies features)) features)
      = ["spawn_honeypots"; "block_ips"; "enhance_monitoring"]
    ∧ (length
         (Analyzer.generate_recommendations
            (Analyzer.analyze_threats (Analyzer.classify_attacks features)
               (Analyzer.detect_anomalies features)) features) ≤ 3)%nat
    ∧ top_by_frequency Sample.sweep (take 5 (port_frequency features).*1).
Proof.
  eexists. split; [by vm_compute|]. split; [by vm_compute|].
  match goal with
  | |- context [Analyzer.generate_recommendations ?t ?f] =>
      destruct (generate_recommendations_spec Analyzer.new_analyzer Sample.sweep f t)
        as (Hlen & _ & _ & _ & _ & _ & _ & _ & Htop)
  end; [by vm_compute|].
  split; [exact Hlen|exact Htop].
Defined.

(** X1. Starting from the analyzer [__init__] builds, after any sequence of
    passes on any batches every stored reputation score lies within
    [0,100]. *)
Theorem reputation_bounded_every_pass (passes : list (string * list Event)) :
  scores_bounded (run_passes Analyzer.new_analyzer passes).
Proof.
  unfold run_passes.
  assert (∀ self, scores_bounded self →
            scores_bounded
              (fold_left (fun s pass => (Analyzer.analyze_logs s pass.1 pass.2).2)
                 passes self)) as Hall.
  { induction passes as [|pass passes IH]; intros self Hb; [done|].
    cbn [fold_left]. apply IH. by apply analyze_logs_scores_bounded. }
  apply Hall, new_analyzer_scores_bounded.
Qed.

(** X2. The frequency tables of every batch hold at most ten entries, no
    key twice, in order of decreasing count, and each entry holds the
    number of events of the batch with that source (that port). *)
Theorem frequency_tables_shape (self : Analyzer.HoneypotAIAnalyzer) logs features :
  Analyzer.extract_features self logs = Ok features →
  (length (ip_frequency features) ≤ 10)%nat
  ∧ (length (port_frequency features) ≤ 10)%nat
  ∧ descending (ip_frequency features)
  ∧ descending (port_frequency features)
  ∧ NoDup (ip_frequency features).*1
  ∧ NoDup (port_frequency features).*1
  ∧ (∀ ip n, (ip, n) ∈ ip_frequency features →
       n = DataFrame.count ip (DataFrame.cells (map src_ip logs)))
  ∧ (∀ port n, (port, n) ∈ port_frequency features →
       n = DataFrame.count port (DataFrame.cells (map dst_port logs))).
Proof.
  intros Hf. destruct (extract_features_well_formed self logs features Hf).
  split_and!; try done.
  - revert Hf. unfold Analyzer.extract_features. case_match.
    { intros [= <-]. by intros ?? ?%elem_of_nil. }
    destruct (Analyzer.time_analysis logs); simpl; [|done]. intros [= <-]. simpl.
    intros ip n.
    destruct (DataFrame.has_column (map src_ip logs)); [|by intros ?%elem_of_nil].
    by intros [_ ?]%elem_of_head%elem_of_value_counts.
  - revert Hf. unfold Analyzer.extract_features. case_match.
    { intros [= <-]. by intros ?? ?%elem_of_nil. }
    destruct (Analyzer.time_analysis logs); simpl; [|done]. intros [= <-]. simpl.
    intros port n.
    destruct (DataFrame.has_column (map dst_port logs)); [|by intros ?%elem_of_nil].
    by intros [_ ?]%elem_of_head%elem_of_value_counts.
Qed.

Lemma frequency_tables_witness :
  ∃ features,
    Analyzer.extract_features Analyzer.new_analyzer Sample.sweep = Ok features
    ∧ ip_frequency features = [("203.0.113.9", 22)]
    ∧ (length (port_frequency features) ≤ 10)%nat
    ∧ descending (port_frequency features).
Proof.
  eexists. split; [by vm_compute|]. split; [by vm_compute|].
  match goal with
  | |- context [port_frequency ?f] =>
      destruct (frequency_tables_shape Analyzer.new_analyzer Sample.sweep f)
        as (_ & Hlen & _ & Hdesc & _)
  end; [by vm_compute|].
  split; [exact Hlen|exact Hdesc].
Defined.

(** X3. An event without a message field goes through the rule stage
    without a fault and comes out [normal] with confidence 0; a classifier
    that is not trained returns that verdict. *)
Theorem missing_message_is_normal
    (model : list float → option (string * list (string * float))) (e : Event) :
  message e = None →
  Classifier.rule_based_classification (Classifier.new_classifier false model) e
    = Ok (Classifier.RuleBased "normal" 0 [] [])
  ∧ Classifier.classify_attack (Classifier.new_classifier false model) e
    = Classifier.RuleBased "normal" 0 [] [].
Proof.
  intros Hm.
  assert (Classifier.rule_based_classification (Classifier.new_classifier false model) e
          = Ok (Classifier.RuleBased "normal" 0 [] [])) as Hrule.
  { unfold Classifier.rule_based_classification, Classifier.extract_indicators,
      message_text. rewrite Hm. by vm_compute. }
  split; [done|].
  unfold Classifier.classify_attack, Classifier.classify_attack_traced.
  rewrite Hrule. by vm_compute.
Qed.

Lemma missing_message_witness :
  Classifier.rule_based_classification
    (Classifier.new_classifier false (fun _ => None)) Sample.garbled
    = Ok (Classifier.RuleBased "normal" 0 [] [])
  ∧ Classifier.classify_attack
      (Classifier.new_classifier false (fun _ => None)) Sample.garbled
    = Classifier.RuleBased "normal" 0 [] [].
Proof. exact (missing_message_is_normal (fun _ => None) Sample.garbled eq_refl). Defined.

(** The summaries, and with them the attacks list, cover the ten most
    frequent sources only: in a batch of eleven sources that all send more
    than ten events, the least frequent one is not reported. *)
Lemma eleventh_source_unreported :
  ∃ features,
    Analyzer.extract_features Analyzer.new_analyzer Sample.crowd = Ok features
    ∧ DataFrame.count "10.1.0.11" (DataFrame.cells (map src_ip Sample.crowd)) = 11
    ∧ DataFrame.lookup "10.1.0.11" (patterns features) = None
    ∧ entries_of "brute_force" "10.1.0.11" (Analyzer.classify_attacks features) = []
    ∧ map a_source_ip (Analyzer.classify_attacks features) = Sample.crowd_sources.
Proof. eexists. split; [by vm_compute|]. by vm_compute. Qed.

(** ** How the stages of a pass fit together *)
Section PassFacts.
Import Analyzer.
Implicit Types (self : HoneypotAIAnalyzer) (logs : list Event) (features : Features).

(** The three ways a pass can end. *)
Lemma analyze_logs_cases self now logs :
  (logs = [] ∧ analyze_logs self now logs = (empty_response now, self))
  ∨ (∃ why, extract_features self logs = Fault why
       ∧ analyze_logs self now logs = (error_response now why, self))
  ∨ (∃ features,
       logs ≠ []
       ∧ extract_features self logs = Ok features
       ∧ analyze_logs self now logs
         = ({| error := None;
               timestamp_of := now;
               attacks := classify_attacks features;
               anomalies := detect_anomalies features;
               threats := analyze_threats (classify_attacks features)
                            (detect_anomalies features);
               recommendations :=
                 generate_recommendations
                   (analyze_threats (classify_attacks features)
                      (detect_anomalies features)) features;
               statistics := Some (generate_statistics self features);
               reputation_updates := Some (get_reputation_updates self features).2 |},
            (get_reputation_updates self features).1)).
Proof.
  unfold analyze_logs, run_pass. destruct logs as [|e logs]; [by left|].
  right. destruct (extract_features self (e :: logs)) as [features|why] eqn:Hf.
  - right. exists features. split; [done|]. split; [done|]. simpl.
    by destruct (get_reputation_updates self features).
  - left. by exists why.
Qed.

Lemma port_table_keys self logs features p :
  extract_features self logs = Ok features →
  p ∈ (port_frequency features).*1 → Some p ∈ map dst_port logs.
Proof.
  unfold extract_features. case_match.
  { intros [= <-]. by intros ?%elem_of_nil. }
  destruct (time_analysis logs); simpl; [|done]. intros [= <-]. simpl.
  destruct (DataFrame.has_column (map dst_port logs)); [|by intros ?%elem_of_nil].
  intros ([p' n] & -> & Hin)%list_elem_of_fmap.
  apply elem_of_head, elem_of_value_counts in Hin as [Hin _]. simpl.
  unfold DataFrame.cells in Hin. apply list_elem_of_omap in Hin as (c & Hc & Hid).
  simpl in Hid. by subst c.
Qed.

Lemma source_table_keys self logs features ip :
  extract_features self logs = Ok features →
  ip ∈ (ip_frequency features).*1 → Some ip ∈ map src_ip logs.
Proof.
  unfold extract_features. case_match.
  { intros [= <-]. by intros ?%elem_of_nil. }
  destruct (time_analysis logs); simpl; [|done]. intros [= <-]. simpl.
  destruct (DataFrame.has_column (map src_ip logs)); [|by intros ?%elem_of_nil].
  intros ([p' n] & -> & Hin)%list_elem_of_fmap.
  apply elem_of_head, elem_of_value_counts in Hin as [Hin _]. simpl.
  unfold DataFrame.cells in Hin. apply list_elem_of_omap in Hin as (c & Hc & Hid).
  simpl in Hid. by subst c.
Qed.

Lemma filter_NoDup_bool {A} (f : A → bool) (l : list A) :
  NoDup l → NoDup (List.filter f l).
Proof.
  induction 1 as [|x l Hx Hl IH]; simpl; [constructor|].
  destruct (f x); [|done]. constructor; [|done].
  intros Hin%list_elem_of_In%filter_In. apply Hx, list_elem_of_In, Hin.
Qed.

Lemma detect_anomalies_shape self logs features :
  extract_features self logs = Ok features →
  (length (detect_anomalies features) ≤ 2)%nat
  ∧ Forall (pass_anomaly logs) (detect_anomalies features).
Proof.
  intros Hf. pose proof (extract_features_well_formed self logs features Hf) as Hwf.
  unfold detect_anomalies.
  set (unusual := List.filter (fun p => negb (bool_decide (p ∈ usual_ports)))
                    (map fst (port_frequency features))).
  assert (length unusual ≤ 10)%nat as Hlen.
  { pose proof (wf_port_size _ Hwf). pose proof (List.filter_length_le
      (fun p => negb (bool_decide (p ∈ usual_ports))) (map fst (port_frequency features))).
    rewrite length_map in *. unfold unusual. lia. }
  assert (Forall (pass_anomaly logs)
            (if 3 <? Z.of_nat (length unusual)
             then [mkAnomaly "unusual_ports" None Low 0.6%float (Some unusual)]
             else [])) as Hports.
  { destruct (3 <? Z.of_nat (length unusual)) eqn:Hthree; [|constructor].
    apply Z.ltb_lt in Hthree. constructor; [|constructor].
    split; [done|]. right. split; [done|]. split; [done|].
    exists unusual. split; [done|]. split; [lia|]. split.
    - apply filter_NoDup_bool, (wf_port_keys _ Hwf).
    - intros p [Hp Hu]%list_elem_of_In%filter_In. split.
      + apply negb_true_iff, bool_decide_eq_false in Hu. exact Hu.
      + eapply port_table_keys; [exact Hf|]. by apply list_elem_of_In. }
  destruct (time_range features) as [range|].
  - destruct ((duration_minutes range <? 1)%float && (100 <? total_events features)).
    + split.
      * simpl. destruct (3 <? Z.of_nat (length unusual)); simpl; lia.
      * apply Forall_app. split; [|done]. constructor; [|constructor].
        split; [done|]. by left.
    + split; [|done]. simpl. destruct (3 <? Z.of_nat (length unusual)); simpl; lia.
  - split; [|done]. simpl. destruct (3 <? Z.of_nat (length unusual)); simpl; lia.
Qed.

End PassFacts.

(** X4. The anomalies of a report are at most two, a temporal burst first
    and a list of unusual ports second; the pass never reports an anomaly
    about a source (the frequency spikes of the anomaly detector are not
    part of it). The unusual ports listed are at least four and at most
    ten distinct ports of the batch outside the usual set. *)
Theorem report_anomalies_shape (self : Analyzer.HoneypotAIAnalyzer) now logs :
  (length (Analyzer.anomalies (Analyzer.analyze_logs self now logs).1) ≤ 2)%nat
  ∧ Forall (pass_anomaly logs) (Analyzer.anomalies (Analyzer.analyze_logs self now logs).1).
Proof.
  destruct (analyze_logs_cases self now logs)
    as [[_ ->]|[(why & _ & ->)|(features & _ & Hf & ->)]]; simpl.
  - split; [lia|constructor].
  - split; [lia|constructor].
  - by eapply detect_anomalies_shape.
Qed.

(** ** The attacks and threats of a pass *)
Section PassThreatFacts.
Import Analyzer.
Implicit Types (features : Features) (ip : string).

Lemma elem_of_classify_attacks features a :
  a ∈ classify_attacks features ↔
    ∃ ip data, (ip, data) ∈ patterns features
      ∧ ((10 < frequency data ∧ brute_force_attack (ip, data) = Some a)
         ∨ (5 < ports_targeted data ∧ a = port_scan_attack (ip, data))).
Proof.
  unfold classify_attacks. rewrite elem_of_app, list_elem_of_omap, list_elem_of_fmap.
  split.
  - intros [([ip data] & Hin & Hb)|([ip data] & -> & Hin)].
    + exists ip, data. split; [done|]. left. split; [|done].
      simpl in Hb. destruct (10 <? frequency data) eqn:Hten; [|done].
      by apply Z.ltb_lt.
    + apply list_elem_of_In, filter_In in Hin as [Hin Hp]. simpl in Hp.
      exists ip, data. split; [by apply list_elem_of_In|]. right.
      split; [by apply Z.ltb_lt|done].
  - intros (ip & data & Hin & [[_ Hb]|[Hp ->]]).
    + left. by exists (ip, data).
    + right. exists (ip, data). split; [done|].
      apply list_elem_of_In, filter_In. split; [by apply list_elem_of_In|].
      by apply Z.ltb_lt.
Qed.

(** Only a brute_force attack is ever of severity high, and then the source
    sent more than 50 events. *)
Lemma high_attack_is_brute_force features a :
  a ∈ classify_attacks features → a_severity a = High →
  a_type a = "brute_force"
  ∧ ∃ data, (a_source_ip a, data) ∈ patterns features ∧ 50 < frequency data.
Proof.
  intros (ip & data & Hin & [[_ Hb]|[_ ->]])%elem_of_classify_attacks Hhigh;
    [|done].
  simpl in Hb. destruct (10 <? frequency data); [|done]. injection Hb as <-.
  simpl in *. split; [done|]. exists data. split; [done|].
  destruct (50 <? frequency data) eqn:Hfifty; [by apply Z.ltb_lt|done].
Qed.

Lemma omap_length_le {A B} (f : A → option B) (l : list A) :
  (length (omap f l) ≤ length l)%nat.
Proof.
  induction l as [|x l IH]; [done|]. csimpl. destruct (f x); simpl; lia.
Qed.

Lemma attacks_from_app ip (l1 l2 : list Attack) :
  attacks_from ip (l1 ++ l2) = attacks_from ip l1 ++ attacks_from ip l2.
Proof. apply List.filter_app. Qed.

Lemma brute_force_from ip pats :
  attacks_from ip (omap brute_force_attack pats)
  = omap brute_force_attack (List.filter (of_source ip) pats).
Proof.
  unfold attacks_from, of_source.
  induction pats as [|[k d] pats IH]; [done|]. simpl.
  destruct (10 <? frequency d) eqn:Hf; simpl.
  - case_bool_decide; simpl; [|done]. rewrite Hf. by f_equal.
  - case_bool_decide; simpl; [|done]. by rewrite Hf.
Qed.

Lemma port_scan_from ip pats :
  attacks_from ip (map port_scan_attack pats)
  = map port_scan_attack (List.filter (of_source ip) pats).
Proof.
  unfold attacks_from, of_source.
  induction pats as [|[k d] pats IH]; [done|]. simpl.
  case_bool_decide; simpl; by rewrite IH.
Qed.

(** The attacks of one source in the attacks list: its brute_force entry,
    then its port_scan entry. *)
Lemma attacks_of_source features ip :
  NoDup (patterns features).*1 →
  attacks_from ip (classify_attacks features)
  = match DataFrame.lookup ip (patterns features) with
    | Some data =>
        option_list (brute_force_attack (ip, data))
        ++ (if 5 <? ports_targeted data then [port_scan_attack (ip, data)] else [])
    | None => []
    end.
Proof.
  intros Hnd. unfold classify_attacks.
  rewrite attacks_from_app, brute_force_from, port_scan_from, filter_commute.
  rewrite summaries_of_source by done.
  destruct (DataFrame.lookup ip (patterns features)) as [data|]; [|done].
  simpl. by destruct (brute_force_attack (ip, data)), (5 <? ports_targeted data).
Qed.

Lemma threat_of_type (attacks : list Attack) (found : list Anomaly) t :
  t ∈ analyze_threats attacks found →
  (t_type t = "immediate_threat"
   ∧ ∃ a, a ∈ attacks ∧ a_severity a = High ∧ t = immediate_threat a)
  ∨ (t_type t = "persistent_threat"
     ∧ ∃ ip, ip ∈ sources_of attacks
         ∧ (1 < length (attacks_from ip attacks))%nat
         ∧ t = persistent_threat (ip, attacks_from ip attacks)).
Proof.
  unfold analyze_threats. rewrite group_by_source_spec, filter_map_commute.
  intros [Ht|Ht]%elem_of_app.
  - left. apply list_elem_of_fmap in Ht as (a & -> & Ha).
    apply list_elem_of_In, filter_In in Ha as [Ha Hh]. split; [done|].
    exists a. split; [by apply list_elem_of_In|]. split; [|done].
    by apply bool_decide_eq_true in Hh.
  - right. apply list_elem_of_fmap in Ht as (entry & -> & Hentry).
    apply list_elem_of_fmap in Hentry as (ip & -> & Hip).
    apply list_elem_of_In, filter_In in Hip as [Hip Hlen]. simpl in Hlen.
    split; [done|]. exists ip. split; [by apply list_elem_of_In|].
    split; [by apply Nat.ltb_lt|done].
Qed.

End PassThreatFacts.

(** X5. The attacks of a pass concern only sources of the frequency table,
    which are sources of the batch: they are at most twenty, the
    brute_force entries first and the port_scan entries after them. An
    attack is of severity high exactly when it is the brute_force entry of
    a source that sent more than 50 events. *)
Theorem pass_attacks_shape (self : Analyzer.HoneypotAIAnalyzer) logs features :
  Analyzer.extract_features self logs = Ok features →
  (length (Analyzer.classify_attacks features) ≤ 20)%nat
  ∧ (∃ brute scans,
       Analyzer.classify_attacks features = brute ++ scans
       ∧ Forall (fun a => a_type a = "brute_force") brute
       ∧ Forall (fun a => a_type a = "port_scan" ∧ a_severity a = Medium) scans)
  ∧ (∀ a, a ∈ Analyzer.classify_attacks features →
       a_source_ip a ∈ (ip_frequency features).*1
       ∧ Some (a_source_ip a) ∈ map src_ip logs
       ∧ (a_severity a = High ↔
            a_type a = "brute_force"
            ∧ 50 < DataFrame.count (a_source_ip a) (DataFrame.cells (map src_ip logs)))).
Proof.
  intros Hf. pose proof (extract_features_well_formed self logs features Hf) as Hwf.
  assert (length (patterns features) ≤ 10)%nat as Hten.
  { pose proof (wf_ip_size _ Hwf) as Hsize.
    rewrite <- (length_fmap fst), (wf_pattern_keys _ Hwf), length_fmap. exact Hsize. }
  split; [|split].
  - unfold Analyzer.classify_attacks. rewrite length_app, length_map.
    pose proof (List.filter_length_le (fun entry => 5 <? ports_targeted entry.2)
                  (patterns features)).
    pose proof (omap_length_le Analyzer.brute_force_attack (patterns features)). lia.
  - eexists _, _. split; [reflexivity|]. split.
    + apply Forall_forall. intros a ([k d] & _ & Hb)%list_elem_of_omap. simpl in Hb. destruct (10 <? frequency d); [|done]. by injection Hb as <-.
    + apply Forall_map, Forall_forall. by intros [k d] _.
  - intros a Ha.
    assert (∃ data, (a_source_ip a, data) ∈ patterns features) as [data Hin].
    { apply elem_of_classify_attacks in Ha as (ip & data & Hin & [[_ Hb]|[_ ->]]).
      - simpl in Hb. destruct (10 <? frequency data); [|done]. injection Hb as <-.
        by exists data.
      - by exists data. }
    assert (a_source_ip a ∈ (ip_frequency features).*1) as Hkey.
    { rewrite <- (wf_pattern_keys _ Hwf). apply list_elem_of_fmap. by eexists (_, _). }
    split; [done|]. split; [by eapply source_table_keys|].
    split.
    + intros Hhigh. destruct (high_attack_is_brute_force features a Ha Hhigh)
        as (Hty & data' & Hin' & Hfifty).
      split; [done|].
      by destruct (extract_features_summary self logs features _ _ Hf Hin') as (<- & _).
    + intros [Hty Hfifty].
      apply elem_of_classify_attacks in Ha as (ip & d & Hd & [[_ Hb]|[_ ->]]); [|done].
      simpl in Hb. destruct (10 <? frequency d); [|done]. injection Hb as <-. simpl in *.
      destruct (extract_features_summary self logs features _ _ Hf Hd) as (Hfreq & _).
      rewrite <- Hfreq in Hfifty. apply Z.ltb_lt in Hfifty. by rewrite Hfifty.
Qed.

Lemma pass_attacks_witness :
  ∃ features,
    Analyzer.extract_features Analyzer.new_analyzer Sample.crowd = Ok features
    ∧ (length (Analyzer.classify_attacks features) ≤ 20)%nat
    ∧ (∀ a, a ∈ Analyzer.classify_attacks features →
         Some (a_source_ip a) ∈ map src_ip Sample.crowd).
Proof.
  eexists. split; [by vm_compute|].
  match goal with
  | |- context [Analyzer.classify_attacks ?f] =>
      destruct (pass_attacks_shape Analyzer.new_analyzer Sample.crowd f)
        as (Hlen & _ & Hall)
  end; [by vm_compute|].
  split; [exact Hlen|]. intros a Ha. by destruct (Hall a Ha) as (_ & ? & _).
Defined.

(** ** The threats of a pass *)
Section PassThreats.
Import Analyzer.

Lemma first_seen_NoDup {A} `{EqDecision A} (xs : list A) :
  NoDup xs → DataFrame.first_seen xs = xs.
Proof.
  induction xs as [|x xs IH] using rev_ind; [done|].
  intros (Hxs & Hx & _)%NoDup_app. rewrite first_seen_snoc, IH by done.
  case_decide as Hin; [|done]. exfalso. apply (Hx x Hin). set_solver.
Qed.

(** Values seen after a duplicate-free prefix are new or repeated; those
    a test rejects can be forgotten. *)
Lemma first_seen_filter_app {A} `{EqDecision A} (Q : A → bool) (xs ys : list A) :
  NoDup xs → (∀ y, y ∈ ys → Q y = true → y ∈ xs) →
  List.filter Q (DataFrame.first_seen (xs ++ ys)) = List.filter Q xs.
Proof.
  intros Hxs. induction ys as [|y ys IH] using rev_ind; intros Hys.
  - by rewrite app_nil_r, first_seen_NoDup.
  - rewrite app_assoc, first_seen_snoc.
    assert (List.filter Q (DataFrame.first_seen (xs ++ ys)) = List.filter Q xs) as IH'.
    { apply IH. intros z Hz. apply Hys. set_solver. }
    case_decide as Hin; [done|].
    rewrite List.filter_app, IH'. simpl.
    destruct (Q y) eqn:HQ; [|by rewrite app_nil_r].
    exfalso. apply Hin, elem_of_first_seen, elem_of_app. left.
    apply Hys; [set_solver|done].
Qed.

Lemma filter_fst {A B} (f : A * B → bool) (g : A → bool) (l : list (A * B)) :
  (∀ x, x ∈ l → f x = g x.1) →
  map fst (List.filter f l) = List.filter g l.*1.
Proof.
  induction l as [|x l IH]; intros Hfg; [done|]. csimpl.
  rewrite <- (Hfg x) by set_solver.
  destruct (f x); simpl; rewrite IH; try done; intros y Hy; apply Hfg; set_solver.
Qed.

Lemma filter_ext_elem {A} (f g : A → bool) (l : list A) :
  (∀ x, x ∈ l → f x = g x) → List.filter f l = List.filter g l.
Proof.
  induction l as [|x l IH]; intros Hfg; [done|]. simpl.
  rewrite (Hfg x), IH; [done| |set_solver]. intros y Hy. apply Hfg. set_solver.
Qed.

Lemma no_high_port_scan pats :
  List.filter (fun a => bool_decide (a_severity a = High)) (map port_scan_attack pats) = [].
Proof. induction pats as [|[k d] pats IH]; [done|]. simpl. exact IH. Qed.

Lemma immediate_of_pass features :
  map immediate_threat
    (List.filter (fun a => bool_decide (a_severity a = High)) (classify_attacks features))
  = map brute_force_threat
      (map fst (List.filter (fun e => 50 <? frequency e.2) (patterns features))).
Proof.
  unfold classify_attacks. rewrite List.filter_app, no_high_port_scan, app_nil_r.
  induction (patterns features) as [|[k d] pats IH]; [done|]. csimpl.
  destruct (50 <? frequency d) eqn:H50.
  - assert ((10 <? frequency d) = true) as -> by (apply Z.ltb_lt; apply Z.ltb_lt in H50; lia).
    csimpl. by rewrite IH.
  - destruct (10 <? frequency d); csimpl; exact IH.
Qed.

Lemma brute_force_sources pats :
  map a_source_ip (omap brute_force_attack pats)
  = map fst (List.filter (fun e => 10 <? frequency e.2) pats).
Proof.
  induction pats as [|[k d] pats IH]; [done|]. csimpl.
  destruct (10 <? frequency d); csimpl; by rewrite IH.
Qed.

Lemma two_attacks_of_source features ip :
  NoDup (patterns features).*1 →
  (1 <? length (attacks_from ip (classify_attacks features)))%nat
  = match DataFrame.lookup ip (patterns features) with
    | Some data => (10 <? frequency data) && (5 <? ports_targeted data)
    | None => false
    end.
Proof.
  intros Hnd. rewrite attacks_of_source by done.
  destruct (DataFrame.lookup ip (patterns features)) as [data|]; [|done].
  simpl. by destruct (10 <? frequency data), (5 <? ports_targeted data).
Qed.

Lemma filter_filter_keys {A B} (Q : A → bool) (f g : A * B → bool) (l : list (A * B)) :
  (∀ e, e ∈ l → f e = true → Q e.1 = g e) →
  List.filter Q (map fst (List.filter f l))
  = map fst (List.filter (fun e => f e && g e) l).
Proof.
  induction l as [|e l IH]; intros HQ; [done|]. simpl.
  destruct (f e) eqn:Hf; simpl.
  - rewrite (HQ e) by (done || set_solver).
    destruct (g e); simpl; rewrite IH; try done; intros e' He'; apply HQ; set_solver.
  - apply IH. intros e' He'. apply HQ. set_solver.
Qed.

Lemma persistent_of_pass features :
  NoDup (patterns features).*1 →
  map persistent_threat
    (List.filter (fun entry => (1 <? length entry.2)%nat)
       (group_by_source (classify_attacks features)))
  = map staged_threat
      (map fst (List.filter
         (fun e => (10 <? frequency e.2) && (5 <? ports_targeted e.2))
         (patterns features))).
Proof.
  intros Hnd. rewrite group_by_source_spec, filter_map_commute. simpl.
  set (Q := fun ip => (1 <? length (attacks_from ip (classify_attacks features)))%nat).
  assert (∀ ip data, (ip, data) ∈ patterns features →
            Q ip = (10 <? frequency data) && (5 <? ports_targeted data)) as HQ.
  { intros ip data Hin. unfold Q. rewrite two_attacks_of_source by done.
    by rewrite (lookup_NoDup _ _ _ Hnd Hin). }
  assert (List.filter Q (sources_of (classify_attacks features))
          = map fst (List.filter
              (fun e => (10 <? frequency e.2) && (5 <? ports_targeted e.2))
              (patterns features))) as ->.
  { unfold sources_of, classify_attacks.
    rewrite map_app, brute_force_sources, first_seen_filter_app.
    - apply filter_filter_keys. intros [ip data] Hin H10. simpl in *.
      by rewrite (HQ ip data Hin), H10.
    - rewrite (filter_fst _ (fun ip =>
        match DataFrame.lookup ip (patterns features) with
        | Some data => 10 <? frequency data
        | None => false
        end)).
      + by apply filter_NoDup_bool.
      + intros [ip data] Hin. simpl. by rewrite (lookup_NoDup _ _ _ Hnd Hin).
    - intros ip _ Hip. unfold Q in Hip. rewrite two_attacks_of_source in Hip by done.
      destruct (DataFrame.lookup ip (patterns features)) as [data|] eqn:Hl; [|done].
      apply andb_true_iff in Hip as [H10 _].
      apply lookup_Some_elem_of in Hl.
      apply list_elem_of_In, in_map_iff. exists (ip, data). split; [done|].
      apply filter_In. split; [by apply list_elem_of_In|done]. }
  rewrite !List.map_map. apply List.map_ext_in.
  intros [ip data] [Hin Hboth]%filter_In. simpl in *.
  apply andb_true_iff in Hboth as [H10 H5].
  unfold persistent_threat, staged_threat. simpl.
  rewrite attacks_of_source by done.
  rewrite (lookup_NoDup _ _ _ Hnd (proj2 (list_elem_of_In _ _) Hin)).
  simpl. by rewrite H10, H5.
Qed.

End PassThreats.

(** X6. The threats of a pass, read off the batch. Of the sources of the
    frequency table, in its order: first one critical immediate threat,
    with the brute_force impact and actions, for each source that sent
    more than 50 events; then one persistent threat of severity high,
    naming brute_force and port_scan, for each source that sent more than
    10 events and touched more than 5 distinct ports. There is no other
    threat, whatever the anomalies, and every source of an immediate
    threat is among the sources the block recommendation lists. *)
Theorem pass_threats (self : Analyzer.HoneypotAIAnalyzer) logs features
    (found : list Anomaly) :
  Analyzer.extract_features self logs = Ok features →
  Analyzer.analyze_threats (Analyzer.classify_attacks features) found
  = map brute_force_threat
      (List.filter (fun ip => 50 <? events_of logs ip) (ip_frequency features).*1)
    ++ map staged_threat
         (List.filter (fun ip => (10 <? events_of logs ip) && (5 <? ports_of logs ip))
            (ip_frequency features).*1)
  ∧ (∀ t, t ∈ Analyzer.analyze_threats (Analyzer.classify_attacks features) found →
       t_severity t = Critical → t_source t ∈ Analyzer.frequent_attackers features).
Proof.
  intros Hf. pose proof (extract_features_well_formed self logs features Hf) as Hwf.
  assert (NoDup (patterns features).*1) as Hnd
    by (rewrite (wf_pattern_keys _ Hwf); apply (wf_ip_keys _ Hwf)).
  split.
  - unfold Analyzer.analyze_threats.
    rewrite immediate_of_pass, persistent_of_pass by done.
    rewrite <- (wf_pattern_keys _ Hwf).
    rewrite (filter_fst _ (fun ip => 50 <? events_of logs ip)),
      (filter_fst _ (fun ip => (10 <? events_of logs ip) && (5 <? ports_of logs ip)));
      [done| |].
    + intros [ip data] Hin. simpl.
      by destruct (extract_features_summary self logs features _ _ Hf Hin) as (-> & -> & _).
    + intros [ip data] Hin. simpl.
      by destruct (extract_features_summary self logs features _ _ Hf Hin) as (-> & _).
  - intros t [(_ & a & Ha & Hhigh & ->)|(_ & ip & _ & _ & ->)]%threat_of_type Hsev;
      [|done].
    destruct (high_attack_is_brute_force features a Ha Hhigh) as (_ & data & Hin & Hfifty).
    apply frequent_attackers_spec. exists (frequency data).
    split; [by apply (wf_pattern_frequency _ Hwf)|lia].
Qed.

Lemma pass_threats_witness :
  ∃ features,
    Analyzer.extract_features Analyzer.new_analyzer Sample.sweep = Ok features
    ∧ Analyzer.analyze_threats (Analyzer.classify_attacks features)
        (Analyzer.detect_anomalies features) = [staged_threat "203.0.113.9"].
Proof.
  eexists. split; [by vm_compute|].
  match goal with
  | |- context [Analyzer.detect_anomalies ?f] =>
      destruct (pass_threats Analyzer.new_analyzer Sample.sweep f
                  (Analyzer.detect_anomalies f)) as (Heq & _)
  end; [by vm_compute|].
  rewrite Heq. by vm_compute.
Defined.

(** ** The reputation state across a pass *)
Section ReputationFrame.
Import Analyzer.

Lemma reputation_fold_known table self updates :
  known_malicious_ips (fold_left reputation_step table (self, updates)).1
  = known_malicious_ips self.
Proof.
  revert self updates. induction table as [|[ip freq] table IH]; intros self updates; [done|].
  cbn [fold_left]. by rewrite reputation_step_spec, IH.
Qed.

Lemma decayed_score_le self ip freq :
  scores_bounded self → 0 ≤ freq → decayed_score self ip freq ≤ score_before self ip.
Proof.
  intros Hb Hfreq. unfold decayed_score, score_before.
  assert (0 ≤ default 50 (reputation_scores self !! ip)) as Hold.
  { destruct (reputation_scores self !! ip) as [s|] eqn:Hs; simpl; [|lia].
    by apply (Hb ip s). }
  case_bool_decide; lia.
Qed.

End ReputationFrame.

(** X7. A pass only lowers reputations. Starting from scores within
    [0,100], whatever the batch and whether or not the pass fails: the
    known-malicious set is left as it was; no source ends with a higher
    score than it had (an unseen source counting for 50); a source that
    does not appear in the batch keeps its entry, or its absence, in the
    score table; and no entry of the score table is removed. *)
Theorem reputation_only_decays (self : Analyzer.HoneypotAIAnalyzer) now logs :
  scores_bounded self →
  let after := (Analyzer.analyze_logs self now logs).2 in
  Analyzer.known_malicious_ips after = Analyzer.known_malicious_ips self
  ∧ (∀ ip, score_before after ip ≤ score_before self ip)
  ∧ (∀ ip, Some ip ∉ map src_ip logs →
       Analyzer.reputation_scores after !! ip = Analyzer.reputation_scores self !! ip)
  ∧ (∀ ip, is_Some (Analyzer.reputation_scores self !! ip) →
       is_Some (Analyzer.reputation_scores after !! ip)).
Proof.
  intros Hb. cbv zeta.
  destruct (analyze_logs_cases self now logs)
    as [[_ ->]|[(why & _ & ->)|(features & _ & Hf & ->)]]; simpl.
  - split; [done|]. split; [intros ip; lia|]. by split.
  - split; [done|]. split; [intros ip; lia|]. by split.
  - pose proof (extract_features_well_formed self logs features Hf) as Hwf.
    pose proof (wf_ip_keys _ Hwf) as Hnd.
    unfold Analyzer.get_reputation_updates. split; [|split; [|split]].
    + apply reputation_fold_known.
    + intros ip. unfold score_before at 1. rewrite reputation_fold_scores by done.
      destruct (DataFrame.lookup ip (ip_frequency features)) as [freq|] eqn:Hl; simpl.
      * apply decayed_score_le; [done|].
        apply lookup_Some_elem_of in Hl. pose proof (wf_ip_pos _ Hwf _ _ Hl). lia.
      * unfold score_before. lia.
    + intros ip Hip. rewrite reputation_fold_scores by done.
      destruct (DataFrame.lookup ip (ip_frequency features)) as [freq|] eqn:Hl; [|done].
      exfalso. apply Hip. eapply source_table_keys; [exact Hf|].
      apply list_elem_of_fmap. exists (ip, freq). split; [done|].
      by apply lookup_Some_elem_of.
    + intros ip Hs. rewrite reputation_fold_scores by done.
      by destruct (DataFrame.lookup ip (ip_frequency features)).
Qed.

Lemma reputation_only_decays_witness :
  Analyzer.known_malicious_ips
    (Analyzer.analyze_logs Analyzer.new_analyzer Sample.clock Sample.sweep).2
  = Analyzer.known_malicious_ips Analyzer.new_analyzer
  ∧ score_before
      (Analyzer.analyze_logs Analyzer.new_analyzer Sample.clock Sample.sweep).2
      "203.0.113.9"
    ≤ score_before Analyzer.new_analyzer "203.0.113.9".
Proof.
  destruct (reputation_only_decays Analyzer.new_analyzer Sample.clock Sample.sweep
              new_analyzer_scores_bounded) as (Hknown & Hscore & _).
  split; [exact Hknown|exact (Hscore "203.0.113.9")].
Defined.

(** ** Failed passes *)
Section FailedPass.
Import Analyzer.

Lemma run_pass_ok self now logs out :
  run_pass self now logs = Ok out → error out.1 = None.
Proof.
  unfold run_pass. destruct logs as [|e logs]; [by intros [= <-]|].
  destruct (extract_features self (e :: logs)) as [features|why]; simpl; [|done].
  destruct (get_reputation_updates self features). by intros [= <-].
Qed.

End FailedPass.

(** X8. A pass fails exactly when the timestamps of the batch cannot be
    read as one column: one of them does not match the format inferred
    from the first (two ISO texts of different precision, for one) or,
    no format being inferred, is no date. A failed pass reports the
    error and nothing else, and leaves the analyzer as it was: no
    reputation is touched by a batch that could not be analysed,
    whatever else the batch holds. *)
Theorem failed_pass_keeps_state (self : Analyzer.HoneypotAIAnalyzer) now logs :
  (is_Some (Analyzer.error (Analyzer.analyze_logs self now logs).1) ↔ unreadable logs)
  ∧ (is_Some (Analyzer.error (Analyzer.analyze_logs self now logs).1) →
       ∃ why, Analyzer.analyze_logs self now logs
              = (Analyzer.error_response now why, self)).
Proof.
  rewrite <- (run_pass_fault self now logs). unfold Analyzer.analyze_logs.
  destruct (Analyzer.run_pass self now logs) as [out|why] eqn:Hr; simpl.
  - rewrite (run_pass_ok _ _ _ _ Hr). split.
    + split; [by intros [? ?]|by intros [? ?]].
    + by intros [? ?].
  - split; [split; eauto|]. intros _. by exists why.
Qed.

(** Two dates of different precision make the pass fail, though each
    is a date when read on its own. *)
Lemma failed_pass_witness :
  Forall (fun e => ∃ c, timestamp e = Some c ∧ is_Some (ts_lenient c))
    Sample.mixed_precision
  ∧ unreadable Sample.mixed_precision
  ∧ is_Some (Analyzer.error
               (Analyzer.analyze_logs Analyzer.new_analyzer Sample.clock
                  Sample.mixed_precision).1)
  ∧ (Analyzer.analyze_logs Analyzer.new_analyzer Sample.clock Sample.mixed_precision).2
    = Analyzer.new_analyzer.
Proof.
  destruct (failed_pass_keeps_state Analyzer.new_analyzer Sample.clock
              Sample.mixed_precision) as [Hfails Hstate].
  assert (unreadable Sample.mixed_precision) as Hbad.
  { eexists _, _. split; [right; left|]. split; [done|]. by vm_compute. }
  split; [repeat constructor; by eexists|]. split; [exact Hbad|].
  apply Hfails in Hbad. split; [exact Hbad|].
  destruct (Hstate Hbad) as [why Heq]. by rewrite Heq.
Defined.

(** ** The statistics of a pass *)
Section StatisticsFacts.
Import Analyzer.

Lemma extract_features_tables self logs features :
  extract_features self logs = Ok features →
  ip_frequency features
    = (if DataFrame.has_column (map src_ip logs)
       then DataFrame.head 10 (DataFrame.value_counts (map src_ip logs)) else [])
  ∧ port_frequency features
    = (if DataFrame.has_column (map dst_port logs)
       then DataFrame.head 10 (DataFrame.value_counts (map dst_port logs)) else [])
  ∧ total_events features = Z.of_nat (length logs).
Proof.
  unfold extract_features. case_match eqn:Hlen.
  { intros [= <-]. simpl. apply Z.eqb_eq in Hlen.
    destruct logs; [done|]. simpl in Hlen. lia. }
  destruct (time_analysis logs); simpl; [|done]. by intros [= <-].
Qed.

Lemma max_by_count_descending {K} (t : list (K * Z)) :
  descending t → Py.max_by_count t = head t.
Proof.
  destruct t as [|x t]; [done|]. intros [_ Hx]%StronglySorted_inv. simpl. f_equal.
  induction Hx as [|y t Hy Hx IH]; [done|]. simpl.
  assert ((x.2 <? y.2) = false) as -> by (apply Z.ltb_ge; lia). exact IH.
Qed.

Lemma count_unseen {A} `{EqDecision A} (x : A) (xs : list A) :
  x ∉ xs → DataFrame.count x xs = 0.
Proof.
  unfold DataFrame.count. induction xs as [|y xs IH]; [done|].
  intros [Hne Hx]%not_elem_of_cons. rewrite filter_cons.
  case_decide; [congruence|]. by apply IH.
Qed.

Lemma column_has_cell {A} (col : list (option A)) :
  DataFrame.has_column col = true → ∃ x, Some x ∈ col.
Proof.
  unfold DataFrame.has_column. intros (c & Hc & Hs)%existsb_exists.
  apply bool_decide_eq_true in Hs as [x ->]. exists x. by apply list_elem_of_In.
Qed.

(** The first entry of a frequency table is a most frequent value of the
    column, with its number of occurrences. *)
Lemma top_of_value_counts {A} `{EqDecision A} (col : list (option A)) :
  DataFrame.has_column col = true →
  ∃ x, Py.max_by_count (DataFrame.head 10 (DataFrame.value_counts col))
       = Some (x, DataFrame.count x (DataFrame.cells col))
     ∧ Some x ∈ col
     ∧ ∀ y, DataFrame.count y (DataFrame.cells col)
            ≤ DataFrame.count x (DataFrame.cells col).
Proof.
  intros [x0 Hx0%cells_of_column]%column_has_cell.
  rewrite max_by_count_descending by apply head_descending, value_counts_descending.
  pose proof (value_counts_descending col) as Hs.
  assert ((x0, DataFrame.count x0 (DataFrame.cells col)) ∈ DataFrame.value_counts col)
    as Hin0 by by apply elem_of_value_counts.
  destruct (DataFrame.value_counts col) as [|[x n] rest] eqn:Hvc;
    [by apply elem_of_nil in Hin0|].
  assert ((x, n) ∈ DataFrame.value_counts col) as Hin by (rewrite Hvc; left).
  apply elem_of_value_counts in Hin as [Hx ->].
  exists x. split; [done|]. split; [by apply cells_of_column|].
  intros y. destruct (decide (y ∈ DataFrame.cells col)) as [Hy|Hy].
  - assert ((y, DataFrame.count y (DataFrame.cells col)) ∈ DataFrame.value_counts col)
      as Hiny by by apply elem_of_value_counts.
    rewrite Hvc in Hiny. apply elem_of_cons in Hiny as [[= -> _]|Hiny]; [lia|].
    apply StronglySorted_inv in Hs as [_ Hall].
    rewrite List.Forall_forall in Hall.
    apply (Hall _ (proj1 (list_elem_of_In _ _) Hiny)).
  - rewrite (count_unseen y) by done. pose proof (count_pos _ _ Hx). lia.
Qed.

End StatisticsFacts.

(** X9. The statistics name a true maximum. When some entry of the batch
    has a source address, the top attacker of the statistics is a source
    of the batch together with the number of its entries, and no source
    has more entries; without any source address it is the pair
    ("None", 0). The same holds of the most targeted port and the
    destination ports. The total is the number of entries. *)
Theorem statistics_top_entries (self : Analyzer.HoneypotAIAnalyzer) logs features :
  Analyzer.extract_features self logs = Ok features →
  let stats := Analyzer.generate_statistics self features in
  (if DataFrame.has_column (map src_ip logs)
   then ∃ ip, Analyzer.s_top_attacker stats = Some (ip, events_of logs ip)
          ∧ Some ip ∈ map src_ip logs
          ∧ ∀ q, events_of logs q ≤ events_of logs ip
   else Analyzer.s_top_attacker stats = Some ("None", 0))
  ∧ (if DataFrame.has_column (map dst_port logs)
     then ∃ port, Analyzer.s_most_targeted_port stats = Some (Some port, hits_of logs port)
            ∧ Some port ∈ map dst_port logs
            ∧ ∀ q, hits_of logs q ≤ hits_of logs port
     else Analyzer.s_most_targeted_port stats = Some (None, 0))
  ∧ Analyzer.s_total_events stats = Z.of_nat (length logs).
Proof.
  intros (Hips & Hports & Htotal)%extract_features_tables. cbv zeta.
  unfold Analyzer.generate_statistics. simpl. rewrite Hips, Hports, Htotal.
  split; [|split; [|done]].
  - destruct (DataFrame.has_column (map src_ip logs)) eqn:Hc; [|done].
    destruct (top_of_value_counts _ Hc) as (ip & -> & Hin & Hmax).
    by exists ip.
  - destruct (DataFrame.has_column (map dst_port logs)) eqn:Hc; [|done].
    destruct (top_of_value_counts _ Hc) as (port & -> & Hin & Hmax).
    by exists port.
Qed.

Lemma statistics_top_entries_witness :
  ∃ features,
    Analyzer.extract_features Analyzer.new_analyzer Sample.crowd = Ok features
    ∧ Analyzer.s_top_attacker (Analyzer.generate_statistics Analyzer.new_analyzer features)
      = Some ("10.1.0.1", 12)
    ∧ Analyzer.s_most_targeted_port
        (Analyzer.generate_statistics Analyzer.new_analyzer features)
      = Some (None, 0).
Proof.
  eexists. split; [by vm_compute|].
  match goal with
  | |- context [Analyzer.generate_statistics _ ?f] =>
      destruct (statistics_top_entries Analyzer.new_analyzer Sample.crowd f)
        as (Htop & Hport & _)
  end; [by vm_compute|].
  split; [|exact Hport]. destruct Htop as (ip & Htop & _). by vm_compute.
Defined.

(** ** Port prioritization on the feature set of a batch *)
Section BatchPorts.
Implicit Types (table : list (Z * Z)) (critical : list Z).

Lemma frequent_port_listed table port :
  0 < frequency_of table port → port ∈ table.*1.
Proof.
  unfold frequency_of. intros Hpos.
  destruct (DataFrame.lookup port table) as [n|] eqn:Hl; simpl in Hpos; [|lia].
  apply lookup_Some_elem_of in Hl. apply list_elem_of_fmap. by exists (port, n).
Qed.

(** A table of at most ten ports leaves the cut nothing to drop. *)
Lemma prioritize_short critical table :
  NoDup critical → NoDup table.*1 → (length table ≤ 10)%nat →
  NoDup (prioritize critical table)
  ∧ ∀ port, port ∈ prioritize critical table
      ↔ (port ∈ critical ∧ 5 < frequency_of table port) ∨ 10 < frequency_of table port.
Proof.
  intros Hc Hnd Hlen. unfold prioritize.
  set (allow := List.filter (fun port => 5 <? frequency_of table port) critical).
  set (disc := List.filter (fun port =>
                 (10 <? frequency_of table port) && negb (bool_decide (port ∈ allow)))
                 table.*1).
  assert (∀ port, port ∈ allow ↔ port ∈ critical ∧ 5 < frequency_of table port) as Hallow.
  { intros port. unfold allow. rewrite list_elem_of_In, filter_In, <- list_elem_of_In.
    by rewrite Z.ltb_lt. }
  assert (∀ port, port ∈ disc ↔ 10 < frequency_of table port ∧ port ∉ allow) as Hdisc.
  { intros port. unfold disc. rewrite list_elem_of_In, filter_In, <- list_elem_of_In.
    rewrite andb_true_iff, Z.ltb_lt, negb_true_iff, bool_decide_eq_false. split.
    - by intros (_ & ? & ?).
    - intros [Hfreq Hnot]. split; [|done]. apply frequent_port_listed. lia. }
  assert (NoDup (allow ++ disc)) as Hnodup.
  { apply NoDup_app. split; [by apply filter_NoDup_bool|]. split.
    - intros port Hp [_ Hq]%Hdisc. done.
    - by apply filter_NoDup_bool. }
  assert (length (allow ++ disc) ≤ 10)%nat as Hshort.
  { etrans; [|exact Hlen]. rewrite <- (length_fmap fst table).
    apply submseteq_length, NoDup_submseteq; [done|].
    intros port [[_ Hp]%Hallow|[Hp _]%Hdisc]%elem_of_app;
      apply frequent_port_listed; lia. }
  rewrite take_ge by done. split; [done|].
  intros port. rewrite elem_of_app, Hallow, Hdisc. split.
  - intros [?|[? _]]; [by left|by right].
  - intros [?|Hfreq]; [by left|].
    destruct (decide (port ∈ allow)) as [Hin|Hout]; [|by right].
    left. by apply Hallow.
Qed.

End BatchPorts.

(** X10. Port prioritization on the feature set of a batch. The cut to
    ten entries never drops a port there, so each helper lists, without
    repetition, exactly its critical ports seen more than 5 times in the
    frequency table and the ports seen more than 10 times. Every port the
    adaptation engine lists is listed by the analyzer, and every listed
    port is a destination port of the batch with the frequency the table
    gives it. *)
Theorem high_value_ports_of_batch (self : Analyzer.HoneypotAIAnalyzer) logs features :
  Analyzer.extract_features self logs = Ok features →
  let table := port_frequency features in
  let analyzer_ports := Analyzer.identify_high_value_ports features in
  let engine_ports := AdaptationEngine.identify_high_value_ports features in
  NoDup analyzer_ports
  ∧ NoDup engine_ports
  ∧ (∀ port, port ∈ analyzer_ports
       ↔ (port ∈ Analyzer.critical_ports ∧ 5 < frequency_of table port)
         ∨ 10 < frequency_of table port)
  ∧ (∀ port, port ∈ engine_ports
       ↔ (port ∈ AdaptationEngine.critical_ports ∧ 5 < frequency_of table port)
         ∨ 10 < frequency_of table port)
  ∧ (∀ port, port ∈ engine_ports → port ∈ analyzer_ports)
  ∧ (∀ port, port ∈ analyzer_ports →
       Some port ∈ map dst_port logs ∧ frequency_of table port = hits_of logs port).
Proof.
  intros Hf. cbv zeta.
  pose proof (extract_features_well_formed self logs features Hf) as Hwf.
  pose proof (wf_port_keys _ Hwf) as Hnd. pose proof (wf_port_size _ Hwf) as Hlen.
  rewrite identify_high_value_ports_body, adaptation_high_value_ports_body by done.
  assert (NoDup spec_critical_ports) as Hc1 by (apply (bool_decide_unpack _); by vm_compute).
  assert (NoDup AdaptationEngine.critical_ports) as Hc2
    by (apply (bool_decide_unpack _); by vm_compute).
  destruct (prioritize_short spec_critical_ports _ Hc1 Hnd Hlen) as [Hnd1 Hin1].
  destruct (prioritize_short AdaptationEngine.critical_ports _ Hc2 Hnd Hlen) as [Hnd2 Hin2].
  split; [done|]. split; [done|]. split; [exact Hin1|]. split; [exact Hin2|]. split.
  - intros port [[Hp Hfreq]|Hfreq]%Hin2; apply Hin1; [left|by right].
    split; [|done]. revert Hp. unfold AdaptationEngine.critical_ports, spec_critical_ports.
    set_solver.
  - intros port Hp.
    assert (port ∈ (port_frequency features).*1) as Hkey.
    { apply frequent_port_listed. apply Hin1 in Hp as [[_ ?]|?]; lia. }
    split; [by eapply port_table_keys|].
    apply list_elem_of_fmap in Hkey as ([port' n] & -> & Hin). simpl.
    rewrite (frequency_of_entry _ _ _ Hnd Hin).
    apply extract_features_tables in Hf as (_ & Hports & _). rewrite Hports in Hin.
    destruct (DataFrame.has_column (map dst_port logs)); [|by apply elem_of_nil in Hin].
    by apply elem_of_head, elem_of_value_counts in Hin as [_ ->].
Qed.

Lemma high_value_ports_witness :
  ∃ features,
    Analyzer.extract_features Analyzer.new_analyzer
      (Sample.scenario_a Sample.stamps_a) = Ok features
    ∧ NoDup (Analyzer.identify_high_value_ports features)
    ∧ (∀ port, port ∈ AdaptationEngine.identify_high_value_ports features →
         port ∈ Analyzer.identify_high_value_ports features).
Proof.
  eexists. split; [by vm_compute|].
  match goal with
  | |- context [Analyzer.identify_high_value_ports ?f] =>
      destruct (high_value_ports_of_batch Analyzer.new_analyzer
                  (Sample.scenario_a Sample.stamps_a) f)
        as (Hnd & _ & _ & _ & Hsub & _)
  end; [by vm_compute|].
  split; [exact Hnd|exact Hsub].
Defined.

(** X11. The plan of the adaptation engine on the feature set of a batch.
    The plan is empty when there is no threat or no port qualifies (no
    critical port of the engine seen more than 5 times, no port seen more
    than 10 times); otherwise it is a single deployment of priority high
    on the qualifying ports, each listed once and each a destination port
    of the batch, with min(5, number of ports) instances, which is at
    least 1 and at most 5. *)
Theorem adaptation_plan_of_batch (self : Analyzer.HoneypotAIAnalyzer) logs features
    (found : list Threat) :
  Analyzer.extract_features self logs = Ok features →
  let qualifies port :=
    (port ∈ AdaptationEngine.critical_ports ∧ 5 < frequency_of (port_frequency features) port)
    ∨ 10 < frequency_of (port_frequency features) port in
  match AdaptationEngine.generate_adaptation_plan found features with
  | [] => found = [] ∨ ∀ port, ¬ qualifies port
  | [d] =>
      found ≠ []
      ∧ AdaptationEngine.d_action d = "deploy_honeypots"
      ∧ AdaptationEngine.d_priority d = High
      ∧ NoDup (AdaptationEngine.d_ports d)
      ∧ (∀ port, port ∈ AdaptationEngine.d_ports d ↔ qualifies port)
      ∧ (∀ port, port ∈ AdaptationEngine.d_ports d → Some port ∈ map dst_port logs)
      ∧ AdaptationEngine.d_instances d
        = Z.min 5 (Z.of_nat (length (AdaptationEngine.d_ports d)))
      ∧ 1 ≤ AdaptationEngine.d_instances d ≤ 5
  | _ => False
  end.
Proof.
  intros Hf. cbv zeta.
  pose proof (extract_features_well_formed self logs features Hf) as Hwf.
  pose proof (wf_port_keys _ Hwf) as Hnd. pose proof (wf_port_size _ Hwf) as Hlen.
  assert (NoDup AdaptationEngine.critical_ports) as Hc
    by (apply (bool_decide_unpack _); by vm_compute).
  destruct (prioritize_short AdaptationEngine.critical_ports _ Hc Hnd Hlen) as [Hnd' Hin].
  rewrite <- adaptation_high_value_ports_body in Hnd', Hin by done.
  unfold AdaptationEngine.generate_adaptation_plan.
  destruct found as [|t found]; [by left|].
  destruct (AdaptationEngine.identify_high_value_ports features) as [|p ports] eqn:Hports.
  { right. intros port Hq%Hin. by apply elem_of_nil in Hq. }
  simpl. split; [done|]. split; [done|]. split; [done|]. split; [done|].
  split; [done|]. split; [|lia].
  intros port Hp%Hin. eapply port_table_keys; [exact Hf|].
  apply frequent_port_listed. destruct Hp as [[_ ?]|?]; lia.
Qed.

Lemma adaptation_plan_witness :
  ∃ features,
    Analyzer.extract_features Analyzer.new_analyzer
      (Sample.scenario_a Sample.stamps_a) = Ok features
    ∧ map AdaptationEngine.d_ports
        (AdaptationEngine.generate_adaptation_plan [scenario_a_threat] features) = [[22]]
    ∧ map AdaptationEngine.d_instances
        (AdaptationEngine.generate_adaptation_plan [scenario_a_threat] features) = [1].
Proof.
  eexists. split; [by vm_compute|].
  match goal with
  | |- context [AdaptationEngine.generate_adaptation_plan _ ?f] =>
      pose proof (adaptation_plan_of_batch Analyzer.new_analyzer
                    (Sample.scenario_a Sample.stamps_a) f [scenario_a_threat]) as Hplan
  end.
  specialize (Hplan ltac:(by vm_compute)). by vm_compute.
Defined.

(** ** The stand-alone anomaly detector *)
Section DetectorFacts.
Import AnomalyDetector.

Lemma filter_perm_length {A} (f : A → bool) (l1 l2 : list A) :
  l1 ≡ₚ l2 → length (List.filter f l1) = length (List.filter f l2).
Proof.
  induction 1 as [|x l1 l2 _ IH|x y l|l1 l2 l3 _ IH1 _ IH2]; simpl.
  - done.
  - destruct (f x); simpl; by rewrite IH.
  - by destruct (f x), (f y).
  - by rewrite IH1.
Qed.

Lemma value_counts_without_column {A} `{EqDecision A} (col : list (option A)) :
  DataFrame.has_column col = false → DataFrame.value_counts col = [].
Proof.
  intros Hc. unfold DataFrame.value_counts. by rewrite cells_without_column.
Qed.

Lemma spikes_of_table df (t : list (string * Z)) :
  (∀ ip n, (ip, n) ∈ t → n = events_of df ip) →
  concat (map frequency_spike t)
  = map (spike_of df) (List.filter (fun ip => 50 <? events_of df ip) t.*1).
Proof.
  induction t as [|[ip n] t IH]; intros Ht; [done|]. csimpl.
  rewrite IH by (intros ip' n' Hin; apply Ht; by right).
  rewrite <- (Ht ip n) by left.
  destruct (50 <? n) eqn:Hn; [|done]. simpl. f_equal.
  unfold spike_of. by rewrite <- (Ht ip n) by left.
Qed.

Lemma ip_spikes_spec df :
  ip_spikes df
  = map (spike_of df)
      (List.filter (fun ip => 50 <? events_of df ip) (sources_by_frequency df)).
Proof.
  unfold ip_spikes, sources_by_frequency.
  destruct (DataFrame.has_column (map src_ip df)) eqn:Hc.
  - apply spikes_of_table. intros ip n Hin.
    by apply elem_of_value_counts in Hin as [_ ->].
  - by rewrite value_counts_without_column.
Qed.

Lemma port_targeting_spec df :
  port_targeting df
  = if 5 <? Z.of_nat (length (uncommon_ports_of df)) then [targeting_anomaly] else [].
Proof.
  unfold port_targeting, uncommon_ports_of.
  destruct (DataFrame.has_column (map dst_port df)) eqn:Hc.
  - rewrite <- (length_map fst (List.filter _ _)).
    rewrite (filter_fst _ (fun port => negb (bool_decide (port ∈ common_ports))))
      by done.
    by rewrite (filter_perm_length _ _ _ (value_counts_keys (map dst_port df))).
  - by rewrite cells_without_column.
Qed.

Lemma temporal_burst_spec df bursts :
  temporal_burst df = Ok bursts →
  bursts = [] ∨ (bursts = [burst_anomaly] ∧ 100 < Z.of_nat (length df)).
Proof.
  unfold temporal_burst.
  destruct (DataFrame.has_column (map timestamp df)); [|intros [= <-]; by left].
  destruct (DataFrame.to_datetime (map timestamp df)) as [stamps|]; simpl; [|done].
  intros [= <-].
  destruct ((DataFrame.span_seconds stamps <? 60)%float); simpl; [|by left].
  destruct (100 <? Z.of_nat (length df)) eqn:Hlen; [|by left].
  right. split; [done|]. by apply Z.ltb_lt.
Qed.

Lemma temporal_burst_fault df :
  (∃ why, temporal_burst df = Fault why) ↔ unreadable df.
Proof.
  rewrite <- to_datetime_fault. unfold temporal_burst.
  destruct (DataFrame.has_column (map timestamp df)) eqn:Hc.
  - destruct (DataFrame.to_datetime (map timestamp df)); simpl;
      split; intros [? ?]; by eauto.
  - split; [by intros [? ?]|]. intros Hw.
    apply to_datetime_fault, unreadable_has_column in Hw. congruence.
Qed.

(** A batch without any field has no source, port or timestamp. *)
Lemma empty_columns df :
  empty df = true →
  map src_ip df = map (fun _ => None) df
  ∧ map dst_port df = map (fun _ => None) df
  ∧ map timestamp df = map (fun _ => None) df.
Proof.
  unfold empty. intros Hall.
  assert (∀ e, In e df → src_ip e = None ∧ dst_port e = None ∧ timestamp e = None) as He.
  { intros e He. rewrite forallb_forall in Hall. specialize (Hall e He).
    rewrite !andb_true_iff, !bool_decide_eq_true in Hall. naive_solver. }
  split; [|split]; apply map_ext_in; intros e Hin; by destruct (He e Hin) as (? & ? & ?).
Qed.

Lemma blank_column {A B} (df : list B) :
  DataFrame.has_column (map (fun _ => @None A) df) = false.
Proof. induction df; [done|]. simpl. exact IHdf. Qed.

End DetectorFacts.

Section DetectorSpikes.

Lemma spike_sources df ip :
  50 < events_of df ip
  ↔ ip ∈ List.filter (fun ip => 50 <? events_of df ip) (sources_by_frequency df).
Proof.
  rewrite list_elem_of_In, filter_In, <- list_elem_of_In, Z.ltb_lt. split; [|by intros [_ ?]].
  intros Hip. split; [|done]. unfold sources_by_frequency.
  apply list_elem_of_fmap. exists (ip, events_of df ip). split; [done|].
  apply elem_of_value_counts. split; [|done].
  destruct (decide (ip ∈ DataFrame.cells (map src_ip df))) as [|Hout]; [done|].
  unfold events_of in Hip. rewrite count_unseen in Hip by done. lia.
Qed.

Lemma spike_found df (bursts : list Anomaly) ip :
  bursts = [] ∨ (bursts = [burst_anomaly] ∧ 100 < Z.of_nat (length df)) →
  50 < events_of df ip
  ↔ ∃ an, an ∈ bursts
            ++ (if 5 <? Z.of_nat (length (uncommon_ports_of df))
                then [targeting_anomaly] else [])
            ++ map (spike_of df)
                 (List.filter (fun ip => 50 <? events_of df ip) (sources_by_frequency df))
          ∧ an_ip an = Some ip.
Proof.
  intros Hb. rewrite spike_sources. split.
  - intros Hip. exists (spike_of df ip). split; [|done].
    rewrite !elem_of_app. right. right. apply list_elem_of_fmap. by exists ip.
  - intros (an & Han & Hip). rewrite !elem_of_app in Han.
    destruct Han as [Han|[Han|Han]].
    + destruct Hb as [->|[-> _]]; [by apply elem_of_nil in Han|].
      apply list_elem_of_singleton in Han. by subst an.
    + destruct (5 <? Z.of_nat (length (uncommon_ports_of df)));
        [|by apply elem_of_nil in Han].
      apply list_elem_of_singleton in Han. by subst an.
    + apply list_elem_of_fmap in Han as (ip' & -> & Hin). simpl in Hip.
      by injection Hip as <-.
Qed.

End DetectorSpikes.

(** X12. What the stand-alone detector reports. It fails exactly when
    the timestamps of the batch cannot be read as one column (one of
    them does not match the format inferred from the first or, no format
    being inferred, is no date).
    Otherwise the report is, in this order: at most one temporal burst, and only for a batch of more than
    100 entries; one unusual-port-targeting anomaly exactly when the
    batch names more than 5 distinct destination ports outside the common
    ones; and one frequency spike for each source with more than 50
    entries, whatever the number of sources, the most frequent first,
    of severity high above 100 entries and medium otherwise. A source
    has an anomaly to its name exactly when it sent more than 50
    entries. *)
Theorem detect_report (df : list Event) :
  match AnomalyDetector.detect df with
  | Fault why => unreadable df
  | Ok found =>
      ¬ unreadable df
      ∧ (∃ bursts,
         found = bursts
                 ++ (if 5 <? Z.of_nat (length (uncommon_ports_of df))
                     then [targeting_anomaly] else [])
                 ++ map (spike_of df)
                      (List.filter (fun ip => 50 <? events_of df ip)
                         (sources_by_frequency df))
         ∧ (bursts = [] ∨ (bursts = [burst_anomaly] ∧ 100 < Z.of_nat (length df))))
      ∧ (∀ ip, 50 < events_of df ip ↔ ∃ an, an ∈ found ∧ an_ip an = Some ip)
      ∧ NoDup (sources_by_frequency df)
  end.
Proof.
  unfold AnomalyDetector.detect.
  destruct (AnomalyDetector.empty df) eqn:He.
  - destruct (empty_columns df He) as (Hsrc & Hport & _).
    assert (sources_by_frequency df = []) as Hnone.
    { unfold sources_by_frequency. rewrite Hsrc, value_counts_without_column; [done|].
      apply blank_column. }
    assert (uncommon_ports_of df = []) as Hports.
    { unfold uncommon_ports_of.
      rewrite Hport, cells_without_column; [done|]. apply blank_column. }
    assert (([] : list Anomaly)
            = [] ++ (if 5 <? Z.of_nat (length (uncommon_ports_of df))
                     then [targeting_anomaly] else [])
                 ++ map (spike_of df)
                      (List.filter (fun ip => 50 <? events_of df ip)
                         (sources_by_frequency df))) as Heq
      by by rewrite Hnone, Hports.
    simpl. split.
    { intros Hbad%unreadable_has_column.
      destruct (empty_columns df He) as (_ & _ & Hts).
      rewrite Hts, blank_column in Hbad. done. }
    split; [exists []; split; [exact Heq|by left]|]. split.
    + intros ip. split; [|by intros (an & ?%elem_of_nil & _)].
      unfold events_of. rewrite Hsrc, cells_without_column by apply blank_column.
      unfold DataFrame.count. simpl. lia.
    + rewrite Hnone. constructor.
  - destruct (AnomalyDetector.temporal_burst df) as [bursts|why] eqn:Hb; simpl.
    + rewrite port_targeting_spec, ip_spikes_spec.
      pose proof (temporal_burst_spec df bursts Hb) as Hshape.
      split.
      { intros [why Hwhy]%temporal_burst_fault. congruence. }
      split; [by exists bursts|]. split.
      * intros ip. by apply spike_found.
      * apply NoDup_value_counts.
    + apply temporal_burst_fault. by exists why.
Qed.

(** ** The range of the classifier's confidence *)
Section ConfidenceRange.
Import Classifier.

Lemma fold_max_In xs x :
  fold_left Py.max xs x = x ∨ In (fold_left Py.max xs x) xs.
Proof.
  revert x. induction xs as [|y xs IH]; intros x; [by left|]. simpl.
  destruct (IH (Py.max x y)) as [->|Hin]; [|by right; right].
  unfold Py.max. destruct (x <? y)%float; [right; by left|by left].
Qed.

Lemma max_list_In xs c : Py.max_list xs = Some c → In c xs.
Proof.
  destruct xs as [|x xs]; [done|]. intros [= <-].
  destruct (fold_max_In xs x) as [->|Hin]; [by left|by right].
Qed.

Lemma default_grid_unit :
  forallb (fun c => (0 <=? c)%float && (c <=? 1)%float)
    (confidence_grid default_signatures) = true.
Proof. by vm_compute. Qed.

Lemma rule_confidence_unit trained model e r :
  rule_based_classification (new_classifier trained model) e = Ok r →
  unit_interval (confidence_of r).
Proof.
  intros Hr. destruct (message_text e) as [text|why] eqn:Ht.
  2:{ unfold rule_based_classification in Hr. by rewrite Ht in Hr. }
  destruct (rule_based_classification_ok (new_classifier trained model) e text Ht)
    as (ps & inds & Hr').
  rewrite Hr' in Hr. injection Hr as <-. simpl.
  destruct (rule_loop_verdict default_signatures (Py.lower text) (dst_port_or_zero e)
              default_grid_ordered) as [Hin _].
  { intros sig. apply default_confidence_positive. }
  pose proof default_grid_unit as Hall. rewrite forallb_forall in Hall.
  apply Hall, andb_true_iff in Hin. exact Hin.
Qed.

Lemma ml_confidence_unit clf e :
  calibrated (model clf) → unit_interval (confidence_of (ml_classification clf e)).
Proof.
  intros Hcal. unfold ml_classification.
  destruct (extract_ml_features e) as [features|why]; simpl; [|by split].
  destruct (model clf features) as [[label probabilities]|] eqn:Hm; [|by split].
  destruct (Py.max_list (map snd probabilities)) as [c|] eqn:Hmax; simpl; [|by split].
  apply max_list_In in Hmax. specialize (Hcal _ _ _ Hm).
  rewrite List.Forall_forall in Hcal. by apply Hcal.
Qed.

Lemma classify_attack_unit trained model e :
  calibrated model →
  unit_interval (confidence_of (classify_attack (new_classifier trained model) e)).
Proof.
  intros Hcal. unfold classify_attack, classify_attack_traced.
  destruct (rule_based_classification (new_classifier trained model) e)
    as [rule_result|why] eqn:Hr; [|by split].
  pose proof (rule_confidence_unit _ _ _ _ Hr) as Hrule.
  destruct (0.7 <? confidence_of rule_result)%float; [done|].
  destruct (is_trained (new_classifier trained model)); [|done]. simpl.
  destruct (confidence_of rule_result
            <? confidence_of (ml_classification (new_classifier trained model) e))%float;
    [|done].
  by apply ml_confidence_unit.
Qed.

End ConfidenceRange.

(** X13. Classifier confidence lies in [0,1] for every input. With the
    signature table of the constructor and a model whose class
    probabilities lie in [0,1], whether or not the model is in use, the
    classification of any log entry has a confidence between 0 and 1:
    rule verdicts, statistical verdicts and the verdict of a failure
    alike, for entries with or without a message, a text message or
    another value. A batch is classified entry by entry, in order, each
    result beside its entry. *)
Theorem classifier_confidence_range (trained : bool)
    (model : list float → option (string * list (string * float)))
    (entries : list Event) :
  calibrated model →
  let clf := Classifier.new_classifier trained model in
  map fst (Classifier.batch_classify clf entries) = entries
  ∧ Forall (fun er =>
        er.2 = Classifier.classify_attack clf er.1
        ∧ unit_interval (Classifier.confidence_of er.2))
      (Classifier.batch_classify clf entries).
Proof.
  intros Hcal. cbv zeta. unfold Classifier.batch_classify. split.
  - rewrite List.map_map. simpl. apply List.map_id.
  - apply Forall_map, Forall_forall. intros e _. simpl. split; [done|].
    by apply classify_attack_unit.
Qed.

Lemma classifier_confidence_range_witness :
  Forall (fun er => unit_interval (Classifier.confidence_of er.2))
    (Classifier.batch_classify (Classifier.new_classifier true Sample.scan_model)
       [Sample.failed_login; Sample.garbled; Sample.flood_report]).
Proof.
  assert (calibrated Sample.scan_model) as Hcal.
  { intros x label probabilities [= <- <-]. repeat constructor. }
  destruct (classifier_confidence_range true Sample.scan_model
              [Sample.failed_login; Sample.garbled; Sample.flood_report] Hcal)
    as [_ Hall].
  eapply Forall_impl; [exact Hall|]. by intros er [_ ?].
Defined.

(** ** Updating the signature table *)
Section SignatureUpdates.
Import Classifier.
Implicit Types (sigs new_patterns : list (string * list string)).

Lemma extend_patterns_keys kind patterns sigs :
  (extend_patterns kind patterns sigs).*1
  = sigs.*1 ++ (if bool_decide (kind ∈ sigs.*1) then [] else [kind]).
Proof.
  induction sigs as [|[k old] sigs IH]; [done|]. cbn [extend_patterns].
  destruct (decide (k = kind)) as [->|Hne]; csimpl.
  - rewrite bool_decide_eq_true_2 by left. by rewrite app_nil_r.
  - rewrite IH. do 2 f_equal.
    rewrite (bool_decide_ext (kind ∈ k :: sigs.*1) (kind ∈ sigs.*1)); [done|].
    rewrite elem_of_cons. naive_solver.
Qed.

Lemma extend_patterns_lookup kind patterns sigs k :
  DataFrame.lookup k (extend_patterns kind patterns sigs)
  = if decide (k = kind)
    then Some (default [] (DataFrame.lookup kind sigs) ++ patterns)
    else DataFrame.lookup k sigs.
Proof.
  unfold DataFrame.lookup.
  induction sigs as [|[k' old] sigs IH]; simpl.
  - case_decide as Hk; [subst; by rewrite bool_decide_eq_true_2|].
    by rewrite bool_decide_eq_false_2 by congruence.
  - destruct (decide (k' = kind)) as [->|Hne]; simpl.
    + rewrite (bool_decide_eq_true_2 (kind = kind)) by done. simpl.
      case_decide as Hk; [subst; by rewrite bool_decide_eq_true_2|].
      by rewrite bool_decide_eq_false_2 by congruence.
    + rewrite (bool_decide_eq_false_2 (k' = kind)) by done.
      case_bool_decide as Hk'; simpl.
      * subst k'. by rewrite decide_False by done.
      * exact IH.
Qed.

Lemma lookup_cons {V} (k k' : string) (v : V) (d : list (string * V)) :
  DataFrame.lookup k ((k', v) :: d)
  = if decide (k = k') then Some v else DataFrame.lookup k d.
Proof.
  unfold DataFrame.lookup. simpl.
  destruct (decide (k = k')) as [->|Hne].
  - by rewrite bool_decide_eq_true_2.
  - by rewrite bool_decide_eq_false_2 by congruence.
Qed.

Lemma update_fold_lookup new_patterns sigs k :
  NoDup new_patterns.*1 →
  DataFrame.lookup k
    (fold_left (fun sigs entry => extend_patterns entry.1 entry.2 sigs) new_patterns sigs)
  = match DataFrame.lookup k new_patterns with
    | Some added => Some (default [] (DataFrame.lookup k sigs) ++ added)
    | None => DataFrame.lookup k sigs
    end.
Proof.
  revert sigs. induction new_patterns as [|[kind patterns] rest IH]; intros sigs Hnd; [done|].
  csimpl in Hnd. apply NoDup_cons in Hnd as [Hkind Hnd]. cbn [fold_left fst snd].
  rewrite IH by done. rewrite !extend_patterns_lookup, lookup_cons.
  destruct (decide (k = kind)) as [->|Hne]; [|done].
  apply lookup_None_not_key in Hkind. by rewrite Hkind.
Qed.

Lemma update_fold_keys new_patterns sigs :
  NoDup new_patterns.*1 →
  (fold_left (fun sigs entry => extend_patterns entry.1 entry.2 sigs) new_patterns sigs).*1
  = sigs.*1
    ++ List.filter (fun kind => negb (bool_decide (kind ∈ sigs.*1))) new_patterns.*1.
Proof.
  revert sigs. induction new_patterns as [|[kind patterns] rest IH]; intros sigs Hnd.
  { simpl. by rewrite app_nil_r. }
  csimpl in Hnd. apply NoDup_cons in Hnd as [Hkind Hnd]. cbn [fold_left fst snd].
  rewrite IH, extend_patterns_keys by done. csimpl.
  case_bool_decide as Hin; simpl.
  - by rewrite app_nil_r.
  - rewrite <- app_assoc. simpl. do 2 f_equal.
    apply filter_ext_elem. intros k Hk. f_equal. apply bool_decide_ext.
    rewrite elem_of_app, list_elem_of_singleton. split; [|by left].
    intros [?|Heq]; [done|]. subst k. by destruct Hkind.
Qed.

End SignatureUpdates.

(** X14. Updating the signature table loses nothing and reorders
    nothing. After an update from a dictionary of new patterns, a kind
    the dictionary names holds its former patterns followed by the new
    ones; every other kind holds what it held. The kinds keep their
    places, so their precedence on ties, and the kinds that are new
    follow them in the order of the dictionary. The model and its
    training flag are not touched. *)
Theorem update_signatures_spec (clf : Classifier.AttackClassifier)
    (new_patterns : list (string * list string)) :
  NoDup new_patterns.*1 →
  let updated := Classifier.update_signatures clf new_patterns in
  (∀ kind,
     DataFrame.lookup kind (Classifier.attack_signatures updated)
     = match DataFrame.lookup kind new_patterns with
       | Some added =>
           Some (default [] (DataFrame.lookup kind (Classifier.attack_signatures clf))
                 ++ added)
       | None => DataFrame.lookup kind (Classifier.attack_signatures clf)
       end)
  ∧ (Classifier.attack_signatures updated).*1
    = (Classifier.attack_signatures clf).*1
      ++ List.filter
           (fun kind => negb (bool_decide (kind ∈ (Classifier.attack_signatures clf).*1)))
           new_patterns.*1
  ∧ Classifier.is_trained updated = Classifier.is_trained clf
  ∧ Classifier.model updated = Classifier.model clf.
Proof.
  intros Hnd. cbv zeta. unfold Classifier.update_signatures. simpl.
  split; [intros kind; by apply update_fold_lookup|].
  split; [by apply update_fold_keys|done].
Qed.

Lemma update_signatures_witness :
  (Classifier.attack_signatures
     (Classifier.update_signatures (Classifier.new_classifier false (fun _ => None))
        [("ddos", ["HTTP flood"]); ("ransomware", ["files encrypted"])])).*1
  = kinds_in_order ++ ["ransomware"]
  ∧ DataFrame.lookup "ddos"
      (Classifier.attack_signatures
         (Classifier.update_signatures (Classifier.new_classifier false (fun _ => None))
            [("ddos", ["HTTP flood"]); ("ransomware", ["files encrypted"])]))
    = Some ["SYN flood"; "UDP flood"; "Connection flood"; "Rate limit exceeded";
            "HTTP flood"].
Proof.
  destruct (update_signatures_spec (Classifier.new_classifier false (fun _ => None))
              [("ddos", ["HTTP flood"]); ("ransomware", ["files encrypted"])])
    as (Hlookup & Hkeys & _).
  { apply (bool_decide_unpack _). by vm_compute. }
  split; [rewrite Hkeys; by vm_compute|]. rewrite Hlookup. by vm_compute.
Defined.

(** ** The statistics of a list of classifications *)
Section ClassificationStatistics.
Import Classifier.
Implicit Types (d : list (string * Z)) (keys : list string).

Lemma increment_lookup k d k' :
  DataFrame.lookup k' (increment k d)
  = if decide (k' = k) then Some (default 0 (DataFrame.lookup k d) + 1)
    else DataFrame.lookup k' d.
Proof.
  induction d as [|[k0 n] d IH]; cbn [increment].
  - rewrite !lookup_cons. by destruct (decide (k' = k)).
  - destruct (decide (k0 = k)) as [->|Hne]; rewrite !lookup_cons.
    + repeat case_decide; by simplify_eq.
    + rewrite IH. repeat case_decide; by simplify_eq.
Qed.

Lemma increment_keys k d :
  (increment k d).*1 = if decide (k ∈ d.*1) then d.*1 else d.*1 ++ [k].
Proof.
  induction d as [|[k0 n] d IH]; cbn [increment].
  - case_decide as Hin; [by apply elem_of_nil in Hin|done].
  - destruct (decide (k0 = k)) as [->|Hne]; rewrite !fmap_cons; simpl.
    + destruct (decide (k ∈ k :: d.*1)) as [|Hout]; [done|]. exfalso. apply Hout. left.
    + rewrite IH.
      destruct (decide (k ∈ d.*1)) as [Hin|Hout];
        destruct (decide (k ∈ k0 :: d.*1)) as [Hk|Hk]; try done.
      * exfalso. apply Hk. by right.
      * apply elem_of_cons in Hk as [->|Hk]; done.
Qed.

Lemma count_cons (x y : string) (xs : list string) :
  DataFrame.count x (y :: xs) = (if decide (y = x) then 1 else 0) + DataFrame.count x xs.
Proof.
  unfold DataFrame.count. rewrite filter_cons.
  destruct (decide (y = x)); simpl; lia.
Qed.

Lemma tally_lookup keys d k :
  default 0 (DataFrame.lookup k (fold_left (fun d k => increment k d) keys d))
  = default 0 (DataFrame.lookup k d) + DataFrame.count k keys.
Proof.
  revert d. induction keys as [|k0 keys IH]; intros d.
  - unfold DataFrame.count. simpl. lia.
  - cbn [fold_left]. rewrite IH, increment_lookup, count_cons.
    destruct (decide (k = k0)) as [->|Hne].
    + rewrite decide_True by done. simpl. lia.
    + rewrite decide_False by congruence. lia.
Qed.

Lemma tally_keys keys d :
  (fold_left (fun d k => increment k d) keys d).*1
  = fold_left (fun seen x => if decide (x ∈ seen) then seen else seen ++ [x]) keys d.*1.
Proof.
  revert d. induction keys as [|k0 keys IH]; intros d; [done|].
  cbn [fold_left]. by rewrite IH, increment_keys.
Qed.

Lemma statistics_fold results stats :
  let final := fold_left statistics_step results stats in
  total_classified final = total_classified stats
  ∧ attack_distribution final
    = fold_left (fun d k => increment k d) (map attack_type_of results)
        (attack_distribution stats)
  ∧ confidence_distribution final
    = fold_left (fun d k => increment k d)
        (map (fun r => confidence_bucket (confidence_of r)) results)
        (confidence_distribution stats)
  ∧ method_usage final
    = fold_left (fun d k => increment k d) (map method_of results) (method_usage stats)
  ∧ high_confidence_attacks final
    = high_confidence_attacks stats
      + DataFrame.count "high"
          (map (fun r => confidence_bucket (confidence_of r)) results).
Proof.
  cbv zeta. revert stats. induction results as [|r results IH]; intros stats.
  { unfold DataFrame.count. simpl. repeat split; lia. }
  cbn [fold_left map]. destruct (IH (statistics_step stats r)) as (-> & -> & -> & -> & ->).
  simpl. repeat split. rewrite count_cons. unfold confidence_bucket.
  destruct (0.8 <? confidence_of r)%float; [rewrite decide_True by done; lia|].
  destruct (0.5 <? confidence_of r)%float; rewrite decide_False by done; lia.
Qed.

End ClassificationStatistics.

(** X15. The statistics of a list of classifications count it exactly.
    The total is the length of the list. Each of the three distributions
    lists the values met (attack types, confidence buckets, methods) once
    each, in order of first appearance, with the number of results that
    carry the value; a value that was not met is absent. The count of
    high-confidence attacks is the count of the bucket "high". *)
Theorem attack_statistics_counts (results : list Classifier.Classification) :
  let stats := Classifier.get_attack_statistics results in
  let kinds := map Classifier.attack_type_of results in
  let buckets :=
    map (fun r => Classifier.confidence_bucket (Classifier.confidence_of r)) results in
  let methods := map Classifier.method_of results in
  Classifier.total_classified stats = Z.of_nat (length results)
  ∧ (Classifier.attack_distribution stats).*1 = DataFrame.first_seen kinds
  ∧ (Classifier.confidence_distribution stats).*1 = DataFrame.first_seen buckets
  ∧ (Classifier.method_usage stats).*1 = DataFrame.first_seen methods
  ∧ (∀ kind, default 0 (DataFrame.lookup kind (Classifier.attack_distribution stats))
             = DataFrame.count kind kinds)
  ∧ (∀ bucket, default 0 (DataFrame.lookup bucket (Classifier.confidence_distribution stats))
               = DataFrame.count bucket buckets)
  ∧ (∀ method, default 0 (DataFrame.lookup method (Classifier.method_usage stats))
               = DataFrame.count method methods)
  ∧ Classifier.high_confidence_attacks stats = DataFrame.count "high" buckets.
Proof.
  cbv zeta. unfold Classifier.get_attack_statistics.
  destruct (statistics_fold results
              (Classifier.mkAttackStatistics (Z.of_nat (length results)) [] [] [] 0))
    as (-> & -> & -> & -> & ->).
  rewrite !tally_keys. simpl.
  split; [done|]. split; [done|]. split; [done|]. split; [done|].
  split; [intros kind; by rewrite tally_lookup|].
  split; [intros bucket; by rewrite tally_lookup|].
  split; [intros method; by rewrite tally_lookup|done].
Qed.

(** ** The time range of a batch *)
Section TimeRange.
Import Analyzer.

Lemma foldr_min_spec (xs : list Z) (a : Z) :
  (foldr Z.min a xs = a ∨ foldr Z.min a xs ∈ xs)
  ∧ foldr Z.min a xs ≤ a
  ∧ ∀ x, x ∈ xs → foldr Z.min a xs ≤ x.
Proof.
  induction xs as [|y xs (Hin & Ha & Hall)]; simpl.
  { split; [by left|]. split; [lia|]. by intros x ?%elem_of_nil. }
  split; [|split].
  - destruct (Z.min_spec y (foldr Z.min a xs)) as [[_ ->]|[_ ->]]; [right; left|].
    destruct Hin as [->|Hin]; [by left|right; by right].
  - lia.
  - intros x [->|Hx]%elem_of_cons; [lia|]. specialize (Hall x Hx). lia.
Qed.

Lemma foldr_max_spec (xs : list Z) (a : Z) :
  (foldr Z.max a xs = a ∨ foldr Z.max a xs ∈ xs)
  ∧ a ≤ foldr Z.max a xs
  ∧ ∀ x, x ∈ xs → x ≤ foldr Z.max a xs.
Proof.
  induction xs as [|y xs (Hin & Ha & Hall)]; simpl.
  { split; [by left|]. split; [lia|]. by intros x ?%elem_of_nil. }
  split; [|split].
  - destruct (Z.max_spec y (foldr Z.max a xs)) as [[_ ->]|[_ ->]]; [|right; left].
    destruct Hin as [->|Hin]; [by left|right; by right].
  - lia.
  - intros x [->|Hx]%elem_of_cons; [lia|]. specialize (Hall x Hx). lia.
Qed.

Lemma minimum_spec (xs : list Z) :
  xs ≠ [] →
  DataFrame.minimum xs ∈ xs ∧ ∀ x, x ∈ xs → DataFrame.minimum xs ≤ x.
Proof.
  destruct xs as [|a xs]; [done|]. intros _. unfold DataFrame.minimum.
  destruct (foldr_min_spec (a :: xs) a) as ([Hm|Hm] & _ & Hall).
  - split; [|done]. cbn [List.hd]. rewrite Hm. left.
  - by split.
Qed.

Lemma maximum_spec (xs : list Z) :
  xs ≠ [] →
  DataFrame.maximum xs ∈ xs ∧ ∀ x, x ∈ xs → x ≤ DataFrame.maximum xs.
Proof.
  destruct xs as [|a xs]; [done|]. intros _. unfold DataFrame.maximum.
  destruct (foldr_max_spec (a :: xs) a) as ([Hm|Hm] & _ & Hall).
  - split; [|done]. cbn [List.hd]. rewrite Hm. left.
  - by split.
Qed.

Lemma to_datetime_cells col stamps us :
  DataFrame.to_datetime col = Ok stamps →
  us ∈ DataFrame.cells stamps
  ↔ ∃ c, Some c ∈ col ∧ DataFrame.instant (DataFrame.inferred_format col) c = Some us.
Proof. apply read_column_cells. Qed.

Lemma to_datetime_read col stamps c :
  DataFrame.to_datetime col = Ok stamps → Some c ∈ col →
  is_Some (DataFrame.instant (DataFrame.inferred_format col) c).
Proof.
  intros Hok Hc.
  destruct (DataFrame.instant (DataFrame.inferred_format col) c) eqn:Hi; [done|].
  destruct (proj2 (read_column_fault (DataFrame.inferred_format col) 0 col))
    as [why Hwhy]; [by exists c|].
  unfold DataFrame.to_datetime in Hok. congruence.
Qed.

Lemma to_datetime_present col stamps :
  DataFrame.has_column col = true → DataFrame.to_datetime col = Ok stamps →
  DataFrame.cells stamps ≠ [].
Proof.
  intros [c Hx]%column_has_cell Hok.
  destruct (to_datetime_read col stamps c Hok Hx) as [us Hus].
  assert (us ∈ DataFrame.cells stamps) as Hin
    by (apply (to_datetime_cells _ _ us Hok); eauto).
  intros Hnil. rewrite Hnil in Hin. by apply elem_of_nil in Hin.
Qed.

Lemma column_absent {A B} (f : B → option A) (df : list B) :
  DataFrame.has_column (map f df) = false → ∀ e, e ∈ df → f e = None.
Proof.
  unfold DataFrame.has_column. intros Hc e He.
  destruct (f e) as [x|] eqn:Hfe; [|done].
  assert (existsb (λ c, bool_decide (is_Some c)) (map f df) = true) as Ht; [|congruence].
  apply existsb_exists. exists (Some x). split; [|by apply bool_decide_eq_true_2].
  apply in_map_iff. exists e. split; [done|]. by apply list_elem_of_In.
Qed.

Lemma extract_features_range self logs features :
  extract_features self logs = Ok features →
  (logs = [] ∧ time_range features = None)
  ∨ time_analysis logs = Ok (time_range features).
Proof.
  unfold extract_features. case_match eqn:Hlen.
  { intros [= <-]. left. split; [|done]. apply Z.eqb_eq in Hlen.
    destruct logs; [done|]. simpl in Hlen. lia. }
  destruct (time_analysis logs); simpl; [|done]. intros [= <-]. by right.
Qed.

End TimeRange.

(** X16. The time range of a batch whose features are extracted. When
    no entry carries a timestamp the feature set has no time range;
    otherwise every timestamp of the batch is read as an instant, in the
    format of the batch, the start of the range is the earliest and its
    end the latest of these instants, both met in the batch, and every
    one of them lies between the two. Without a time range, and when all
    timestamps coincide (a batch of one entry, for one), the attack
    intensity is "Unknown", whatever the number of entries. *)
Theorem time_range_of_batch (self : Analyzer.HoneypotAIAnalyzer) logs features :
  Analyzer.extract_features self logs = Ok features →
  match time_range features with
  | None =>
      (∀ e, e ∈ logs → timestamp e = None)
      ∧ Analyzer.calculate_attack_intensity features = "Unknown"
  | Some range =>
      (∃ e, e ∈ logs ∧ stamped logs e (range_start range))
      ∧ (∃ e, e ∈ logs ∧ stamped logs e (range_end range))
      ∧ (∀ e c, e ∈ logs → timestamp e = Some c →
           ∃ us, stamped logs e us ∧ range_start range ≤ us ≤ range_end range)
      ∧ (∀ e us, e ∈ logs → stamped logs e us →
           range_start range ≤ us ≤ range_end range)
      ∧ (range_start range = range_end range →
           Analyzer.calculate_attack_intensity features = "Unknown")
  end.
Proof.
  intros [[-> Hnone]|Hrange]%extract_features_range.
  { rewrite Hnone. split; [by intros e ?%elem_of_nil|].
    unfold Analyzer.calculate_attack_intensity. by rewrite Hnone. }
  unfold Analyzer.time_analysis in Hrange.
  destruct (DataFrame.has_column (map timestamp logs)) eqn:Hc.
  2:{ injection Hrange as Hr. rewrite <- Hr. split; [by apply column_absent|].
      unfold Analyzer.calculate_attack_intensity. by rewrite <- Hr. }
  destruct (DataFrame.to_datetime (map timestamp logs)) as [stamps|] eqn:Hok;
    simpl in Hrange; [|done].
  injection Hrange as Hr. rewrite <- Hr.
  pose proof (to_datetime_present _ _ Hc Hok) as Hne.
  destruct (minimum_spec _ Hne) as [Hmin Hlow].
  destruct (maximum_spec _ Hne) as [Hmax Hhigh].
  assert (∀ us, us ∈ DataFrame.cells stamps ↔ ∃ e, e ∈ logs ∧ stamped logs e us)
    as Hcells.
  { intros us. rewrite (to_datetime_cells _ _ us Hok), inferred_format_of_batch.
    unfold stamped. setoid_rewrite timestamp_column. naive_solver. }
  assert (∀ e us, e ∈ logs → stamped logs e us →
            DataFrame.minimum (DataFrame.cells stamps) ≤ us
            ≤ DataFrame.maximum (DataFrame.cells stamps)) as Hall.
  { intros e us He Hus.
    assert (us ∈ DataFrame.cells stamps) as Hin by (apply Hcells; eauto).
    split; [by apply Hlow|by apply Hhigh]. }
  simpl. split; [by apply Hcells|]. split; [by apply Hcells|]. split; [|split].
  - intros e c He Hts.
    destruct (to_datetime_read _ _ c Hok) as [us Hus].
    { apply timestamp_column. by exists e. }
    rewrite inferred_format_of_batch in Hus.
    assert (stamped logs e us) as Hst by (by exists c).
    exists us. split; [done|]. by apply (Hall e).
  - exact Hall.
  - intros Heq. unfold Analyzer.calculate_attack_intensity. rewrite <- Hr. simpl.
    unfold DataFrame.span_seconds. by rewrite <- Heq, Z.sub_diag.
Qed.

Lemma time_range_witness :
  ∃ features range,
    Analyzer.extract_features Analyzer.new_analyzer
      (Sample.scenario_a Sample.stamps_a) = Ok features
    ∧ time_range features = Some range
    ∧ range_start range = 1700000000000000
    ∧ range_end range = 1700000008850000
    ∧ ∀ e us, e ∈ Sample.scenario_a Sample.stamps_a →
        stamped (Sample.scenario_a Sample.stamps_a) e us →
        range_start range ≤ us ≤ range_end range.
Proof.
  eexists _, _. split; [by vm_compute|]. split; [by vm_compute|].
  split; [by vm_compute|]. split; [by vm_compute|].
  match goal with
  | |- context [range_start ?r] =>
      pose proof (time_range_of_batch Analyzer.new_analyzer
                    (Sample.scenario_a Sample.stamps_a)
                    (mkFeatures 60 1 1 (Some r) [("10.0.0.1", 60)] [(22, 60)]
                       [("10.0.0.1", mkPattern false 60 1)] None)) as Hspec
  end.
  specialize (Hspec ltac:(by vm_compute)). simpl in Hspec.
  by destruct Hspec as (_ & _ & _ & Hall & _).
Defined.

(** ** The evidence the rule stage reports *)
Section RuleEvidence.
Import Classifier.

Lemma rule_fold_matched sigs msg port st :
  matched_patterns (fold_left (rule_step msg port) sigs st)
  = matched_patterns st ++ flat_map (fun sig => patterns_hit msg sig.2) sigs.
Proof.
  revert st. induction sigs as [|sig sigs IH]; intros st; simpl.
  { by rewrite app_nil_r. }
  rewrite IH, app_assoc. f_equal. unfold rule_step.
  destruct (0 <? length (patterns_hit msg sig.2))%nat; [|done].
  by destruct (max_confidence st
               <? pattern_confidence sig.1 (length (patterns_hit msg sig.2))
                    (length sig.2) port)%float.
Qed.

Lemma flat_map_nil {A B} (f : A → list B) (l : list A) :
  (∀ x, x ∈ l → f x = []) → flat_map f l = [].
Proof.
  induction l as [|x l IH]; intros Hall; [done|]. simpl.
  rewrite (Hall x) by left. apply IH. intros y Hy. apply Hall. by right.
Qed.

Lemma default_kind_not_normal sig : sig ∈ default_signatures → sig.1 ≠ "normal".
Proof.
  intros Hsig Hnormal.
  assert (sig.1 ∈ kinds_in_order) as Hk.
  { rewrite <- default_kinds. apply list_elem_of_In, in_map. by apply list_elem_of_In. }
  rewrite Hnormal in Hk. unfold kinds_in_order in Hk.
  repeat (apply elem_of_cons in Hk as [Hk|Hk]; [done|]). by apply elem_of_nil in Hk.
Qed.

Lemma normal_iff_no_match msg port :
  detected_type (rule_loop default_signatures msg port) = "normal"
  ↔ flat_map (fun sig => patterns_hit msg sig.2) default_signatures = [].
Proof.
  destruct (rule_loop_verdict default_signatures msg port default_grid_ordered)
    as [_ [(Hk & _ & Hnone)|Hwin]].
  { intros sig. apply default_confidence_positive. }
  - split; [intros _|done]. apply flat_map_nil. intros sig Hsig.
    specialize (Hnone sig Hsig). unfold matches_of in Hnone.
    by destruct (patterns_hit msg sig.2).
  - destruct Hwin as (before & sig & after & Hsplit & Hm & Hk & _). split.
    + intros Hnormal. exfalso. apply (default_kind_not_normal sig); [|congruence].
      rewrite Hsplit. set_solver.
    + rewrite Hsplit at 1. rewrite flat_map_app. simpl. unfold matches_of in Hm.
      destruct (patterns_hit msg sig.2); [simpl in Hm; lia|].
      intros Hnil. apply app_eq_nil in Hnil as [_ Hnil]. done.
Qed.

End RuleEvidence.

(** X17. The evidence of a rule verdict. With a signature table whose
    patterns are literal text, escaped punctuation, [.] and [.*], on an
    entry whose message is a text or is missing, the rule stage returns,
    beside the kind and the confidence, every pattern of the table that
    matches the message, for all the kinds and not only the detected
    one, in the order of the table, and the indicators of the detected
    kind. The patterns returned are those of the table that are found in
    the message ignoring case. With the signature table of the
    constructor the kind is "normal" exactly when no pattern matches. *)
Theorem rule_stage_evidence (clf : Classifier.AttackClassifier) (e : Event)
    (text : list ascii) :
  signatures_in_fragment (Classifier.attack_signatures clf) = true →
  message_text e = Ok text →
  ∃ kind confidence matched indicators,
    Classifier.rule_based_classification clf e
      = Ok (Classifier.RuleBased kind confidence matched indicators)
    ∧ matched
      = flat_map (fun sig => Classifier.patterns_hit (Py.lower text) sig.2)
          (Classifier.attack_signatures clf)
    ∧ (∀ p, p ∈ matched
            ↔ ∃ sig, sig ∈ Classifier.attack_signatures clf ∧ p ∈ sig.2
                     ∧ found_ignoring_case text p)
    ∧ Classifier.extract_indicators e kind = Ok indicators
    ∧ (Classifier.attack_signatures clf = Classifier.default_signatures →
         (kind = "normal" ↔ matched = [])).
Proof.
  intros _ Ht. unfold Classifier.rule_based_classification.
  rewrite Ht. simpl.
  set (st := Classifier.rule_loop (Classifier.attack_signatures clf) (Py.lower text)
               (dst_port_or_zero e)).
  destruct (Classifier.extract_indicators e (Classifier.detected_type st))
    as [indicators|why] eqn:Hind.
  2:{ unfold Classifier.extract_indicators in Hind. by rewrite Ht in Hind. }
  simpl. eexists _, _, _, _. split; [reflexivity|].
  assert (Classifier.matched_patterns st
          = flat_map (fun sig => Classifier.patterns_hit (Py.lower text) sig.2)
              (Classifier.attack_signatures clf)) as Hmatched
    by apply rule_fold_matched.
  split; [exact Hmatched|]. split.
  { intros p. rewrite Hmatched, list_elem_of_In, in_flat_map.
    unfold Classifier.patterns_hit. setoid_rewrite filter_In.
    setoid_rewrite search_found. setoid_rewrite <- list_elem_of_In. naive_solver. }
  split; [done|].
  intros Hdefault. rewrite Hmatched. unfold st. rewrite Hdefault.
  apply normal_iff_no_match.
Qed.

Lemma rule_stage_evidence_witness :
  ∃ kind confidence indicators,
    Classifier.rule_based_classification
      (Classifier.new_classifier false (fun _ => None)) Sample.flood_report
    = Ok (Classifier.RuleBased kind confidence ["SYN flood detected"; "SYN flood"] indicators).
Proof.
  destruct (rule_stage_evidence (Classifier.new_classifier false (fun _ => None))
              Sample.flood_report (list_ascii_of_string "SYN flood detected"))
    as (kind & confidence & matched & indicators & Hr & -> & _);
    [by vm_compute|done|].
  by exists kind, confidence, indicators.
Defined.

(** ** The cardinalities of a feature set *)
Section Cardinalities.
Import Analyzer.

Lemma nunique_size {A} `{Countable A} (col : list (option A)) :
  DataFrame.nunique col = Z.of_nat (size (list_to_set (DataFrame.cells col) : gset A)).
Proof.
  unfold DataFrame.nunique. f_equal.
  rewrite <- (size_list_to_set (C := gset A)) by apply NoDup_first_seen.
  f_equal. apply set_eq. intros x. by rewrite !elem_of_list_to_set, elem_of_first_seen.
Qed.

Lemma extract_features_counts self logs features :
  extract_features self logs = Ok features →
  unique_ips features = DataFrame.nunique (map src_ip logs)
  ∧ unique_ports features = DataFrame.nunique (map dst_port logs)
  ∧ protocol_distribution features
    = (if DataFrame.has_column (map protocol logs)
       then Some (DataFrame.value_counts (map protocol logs)) else None).
Proof.
  assert (∀ {A} `{EqDecision A} (col : list (option A)),
            (if DataFrame.has_column col then DataFrame.nunique col else 0)
            = DataFrame.nunique col) as Hn.
  { intros A ? col. destruct (DataFrame.has_column col) eqn:Hc; [done|].
    unfold DataFrame.nunique. by rewrite cells_without_column. }
  unfold extract_features. rewrite !Hn. case_match eqn:Hlen.
  { intros [= <-]. simpl. apply Z.eqb_eq in Hlen.
    destruct logs; [done|]. simpl in Hlen. lia. }
  destruct (time_analysis logs); simpl; [|done]. by intros [= <-].
Qed.

End Cardinalities.

(** X18. The counts of a feature set are the true cardinalities of the
    batch: the number of entries, the number of distinct source
    addresses and the number of distinct destination ports, entries
    without the field not counting. The protocol distribution is absent
    exactly when no entry names a protocol: when it is absent no entry
    names one, and when it is present some entry does, and it then lists
    every protocol of the batch once, with the number of entries that
    name it, whatever the number of protocols. *)
Theorem feature_counts_true (self : Analyzer.HoneypotAIAnalyzer) logs features :
  Analyzer.extract_features self logs = Ok features →
  total_events features = Z.of_nat (length logs)
  ∧ unique_ips features = Z.of_nat (size (source_set logs))
  ∧ unique_ports features = Z.of_nat (size (port_set logs))
  ∧ match protocol_distribution features with
    | None => ∀ e, e ∈ logs → protocol e = None
    | Some distribution =>
        (∃ e, e ∈ logs ∧ is_Some (protocol e))
        ∧ distribution ≠ []
        ∧ NoDup distribution.*1
        ∧ descending distribution
        ∧ ∀ name n, (name, n) ∈ distribution
            ↔ (∃ e, e ∈ logs ∧ protocol e = Some name)
              ∧ n = DataFrame.count name (DataFrame.cells (map protocol logs))
    end.
Proof.
  intros Hf. destruct (extract_features_counts self logs features Hf) as (-> & -> & ->).
  destruct (extract_features_tables self logs features Hf) as (_ & _ & ->).
  split; [done|]. split; [apply nunique_size|]. split; [apply nunique_size|].
  destruct (DataFrame.has_column (map protocol logs)) eqn:Hc; [|by apply column_absent].
  destruct (column_has_cell _ Hc) as [name0 Hname0].
  split.
  { apply list_elem_of_fmap in Hname0 as (e & He & Hin). exists e. by rewrite <- He. }
  split.
  { intros Hnil.
    assert ((name0, DataFrame.count name0 (DataFrame.cells (map protocol logs)))
            ∈ DataFrame.value_counts (map protocol logs)) as Hin
      by (apply elem_of_value_counts; split; [by apply cells_of_column|done]).
    rewrite Hnil in Hin. by apply elem_of_nil in Hin. }
  split; [apply NoDup_value_counts|]. split; [apply value_counts_descending|].
  intros name n. rewrite elem_of_value_counts, cells_of_column, list_elem_of_fmap.
  naive_solver.
Qed.

Lemma feature_counts_witness :
  ∃ features,
    Analyzer.extract_features Analyzer.new_analyzer Sample.crowd = Ok features
    ∧ total_events features = 131
    ∧ unique_ips features = 11
    ∧ (length (ip_frequency features) = 10)%nat.
Proof.
  eexists. split; [by vm_compute|].
  match goal with
  | |- context [total_events ?f] =>
      destruct (feature_counts_true Analyzer.new_analyzer Sample.crowd f)
        as (Htotal & Hips & _)
  end; [by vm_compute|].
  split; [rewrite Htotal; by vm_compute|]. split; [rewrite Hips; by vm_compute|].
  by vm_compute.
Defined.

(** ** How the parts of a report agree *)
Section ReportConsistency.
Import Analyzer.

Lemma attack_source_listed features a :
  well_formed features → a ∈ classify_attacks features →
  ∃ n, (a_source_ip a, n) ∈ ip_frequency features ∧ 1 ≤ n.
Proof.
  intros Hwf (ip & data & Hin & Ha)%elem_of_classify_attacks.
  assert (a_source_ip a = ip) as ->.
  { destruct Ha as [[_ Hb]|[_ ->]]; [|done].
    simpl in Hb. destruct (10 <? frequency data); [|done]. by injection Hb as <-. }
  pose proof (wf_pattern_frequency _ Hwf _ _ Hin) as Hfreq.
  exists (frequency data). split; [done|]. by eapply wf_ip_pos.
Qed.

Lemma threat_has_attack (found_attacks : list Attack) (found : list Anomaly) t :
  t ∈ analyze_threats found_attacks found →
  ∃ a, a ∈ found_attacks ∧ a_source_ip a = t_source t.
Proof.
  intros [(_ & a & Ha & _ & ->)|(_ & ip & Hip & _ & ->)]%threat_of_type.
  - by exists a.
  - unfold sources_of in Hip.
    apply elem_of_first_seen, list_elem_of_fmap in Hip as (a & -> & Ha). by exists a.
Qed.

Lemma critical_threat_frequent features (found : list Anomaly) t :
  well_formed features →
  t ∈ analyze_threats (classify_attacks features) found →
  t_severity t = Critical → t_source t ∈ frequent_attackers features.
Proof.
  intros Hwf [(_ & a & Ha & Hhigh & ->)|(_ & ip & _ & _ & ->)]%threat_of_type Hsev;
    [|done].
  destruct (high_attack_is_brute_force features a Ha Hhigh) as (_ & data & Hin & Hfifty).
  apply frequent_attackers_spec. exists (frequency data).
  split; [by apply (wf_pattern_frequency _ Hwf)|lia].
Qed.

Lemma decayed_score_lt self ip freq :
  scores_bounded self → 1 ≤ freq →
  decayed_score self ip freq < score_before self ip ∨ score_before self ip = 0.
Proof.
  intros Hb Hfreq. unfold decayed_score, score_before.
  assert (0 ≤ default 50 (reputation_scores self !! ip)) as Hold.
  { destruct (reputation_scores self !! ip) as [s|] eqn:Hs; simpl; [|lia].
    by apply (Hb ip s). }
  case_bool_decide; lia.
Qed.

End ReportConsistency.

(** X19. The parts of a report agree with one another and with the
    state the pass leaves. Starting from scores within [0,100], in the
    report of any pass: every threat is about the source of a reported
    attack; every critical threat is about a source that a block
    recommendation of the report lists; there is an adapt recommendation
    exactly when there is a threat; and every reported attack comes with
    a reputation update of its source, from the score the source had to
    the score now stored, which is lower unless it was 0 already. *)
Theorem report_consistency (self : Analyzer.HoneypotAIAnalyzer) now logs :
  scores_bounded self →
  let report := (Analyzer.analyze_logs self now logs).1 in
  let after := (Analyzer.analyze_logs self now logs).2 in
  (∀ t, t ∈ Analyzer.threats report →
     ∃ a, a ∈ Analyzer.attacks report ∧ a_source_ip a = t_source t)
  ∧ (∀ t, t ∈ Analyzer.threats report → t_severity t = Critical →
       ∃ r ips duration scope,
         r ∈ Analyzer.recommendations report
         ∧ r_parameters r = BlockParams ips duration scope
         ∧ t_source t ∈ ips)
  ∧ (Analyzer.threats report = [] ↔ of_type "adapt" (Analyzer.recommendations report) = [])
  ∧ (∀ a, a ∈ Analyzer.attacks report →
       ∃ updates u,
         Analyzer.reputation_updates report = Some updates
         ∧ (a_source_ip a, u) ∈ updates
         ∧ Analyzer.old_score u = score_before self (a_source_ip a)
         ∧ Analyzer.reputation_scores after !! a_source_ip a = Some (Analyzer.new_score u)
         ∧ (Analyzer.new_score u < Analyzer.old_score u ∨ Analyzer.old_score u = 0)).
Proof.
  intros Hb. cbv zeta.
  destruct (analyze_logs_cases self now logs)
    as [[_ ->]|[(why & _ & ->)|(features & _ & Hf & ->)]]; simpl.
  - split; [by intros t ?%elem_of_nil|]. split; [by intros t ?%elem_of_nil|].
    split; [done|]. by intros a ?%elem_of_nil.
  - split; [by intros t ?%elem_of_nil|]. split; [by intros t ?%elem_of_nil|].
    split; [done|]. by intros a ?%elem_of_nil.
  - pose proof (extract_features_well_formed self logs features Hf) as Hwf.
    pose proof (wf_ip_keys _ Hwf) as Hnd.
    split; [intros t; apply threat_has_attack|]. split; [|split].
    + intros t Ht Hsev.
      pose proof (critical_threat_frequent features _ t Hwf Ht Hsev) as Hfreq.
      unfold Analyzer.generate_recommendations.
      destruct (Analyzer.frequent_attackers features) as [|ip ips] eqn:Hips;
        [by apply elem_of_nil in Hfreq|].
      exists (Analyzer.block_recommendation (ip :: ips)), (ip :: ips),
        "permanent", "all_services".
      split; [|done]. rewrite !elem_of_app. right. left. left.
    + unfold Analyzer.generate_recommendations, of_type.
      destruct (Analyzer.analyze_threats (Analyzer.classify_attacks features)
                  (Analyzer.detect_anomalies features)),
        (Analyzer.frequent_attackers features), (10 <? unique_ports features);
        by simpl.
    + intros a Ha. destruct (attack_source_listed features a Hwf Ha) as (n & Hin & Hn).
      unfold Analyzer.get_reputation_updates.
      rewrite reputation_fold_updates, reputation_fold_scores by done.
      rewrite (lookup_NoDup _ _ _ Hnd Hin). simpl.
      exists (map (update_of self) (ip_frequency features)),
        (update_of self (a_source_ip a, n)).2.
      split; [done|]. split.
      { apply list_elem_of_fmap. by exists (a_source_ip a, n). }
      split; [done|]. split; [done|]. simpl. by apply decayed_score_lt.
Qed.

Lemma report_consistency_witness :
  ∃ u, Analyzer.reputation_scores
         (Analyzer.analyze_logs Analyzer.new_analyzer Sample.clock Sample.sweep).2
         !! "203.0.113.9" = Some (Analyzer.new_score u)
     ∧ (Analyzer.new_score u < Analyzer.old_score u ∨ Analyzer.old_score u = 0).
Proof.
  destruct (report_consistency Analyzer.new_analyzer Sample.clock Sample.sweep
              new_analyzer_scores_bounded) as (_ & _ & _ & Hall).
  assert (∃ a, a ∈ Analyzer.attacks
                     (Analyzer.analyze_logs Analyzer.new_analyzer Sample.clock
                        Sample.sweep).1
             ∧ a_source_ip a = "203.0.113.9") as (a & Ha & Hip).
  { vm_compute. eexists. split; [left|reflexivity]. }
  destruct (Hall a Ha) as (updates & u & _ & _ & _ & Hscore & Hlower).
  rewrite Hip in Hscore. exists u. exact (conj Hscore Hlower).
Defined.

(** ** The two stages together *)
Section HybridFacts.
Import Classifier.
Local Open Scope float_scope.

Lemma ltb_leb a b : (a <? b) = true → (a <=? b) = true.
Proof.
  rewrite FloatAxioms.ltb_spec, FloatAxioms.leb_spec. unfold SFltb, SFleb.
  by destruct (SFcompare (Prim2SF a) (Prim2SF b)) as [[]|].
Qed.

Lemma leb_refl a : is_number a → (a <=? a) = true.
Proof.
  unfold is_number. rewrite FloatAxioms.eqb_spec, FloatAxioms.leb_spec.
  unfold SFeqb, SFleb. by destruct (SFcompare (Prim2SF a) (Prim2SF a)) as [[]|].
Qed.

End HybridFacts.

(** X20. The statistical stage never lowers a verdict. Whatever the
    signature table and the model, when the rule stage returns a result,
    [classify_attack] returns either that result or the result of the
    statistical stage, the latter only from a trained classifier, when
    the rule confidence is not above 0.7 and is strictly below the
    statistical one. In both cases the confidence returned is at least
    the rule confidence; a statistical confidence that is not a number
    never replaces a rule verdict. *)
Theorem statistical_stage_never_lowers (clf : Classifier.AttackClassifier) (e : Event)
    (rule_result : Classifier.Classification) :
  Classifier.rule_based_classification clf e = Ok rule_result →
  let final := Classifier.classify_attack clf e in
  let rule_c := Classifier.confidence_of rule_result in
  (final = rule_result
   ∨ (final = Classifier.ml_classification clf e
      ∧ Classifier.is_trained clf = true
      ∧ (0.7 <? rule_c)%float = false
      ∧ (rule_c <? Classifier.confidence_of final)%float = true
      ∧ is_number (Classifier.confidence_of final)))
  ∧ (rule_c <=? Classifier.confidence_of final)%float = true.
Proof.
  intros Hr. cbv zeta.
  pose proof (rule_based_classification_number clf e rule_result Hr) as Hnum.
  unfold Classifier.classify_attack, Classifier.classify_attack_traced. rewrite Hr.
  destruct (0.7 <? Classifier.confidence_of rule_result)%float eqn:Hhigh; simpl.
  { split; [by left|by apply leb_refl]. }
  destruct (Classifier.is_trained clf) eqn:Htrained; simpl.
  2:{ split; [by left|by apply leb_refl]. }
  destruct (Classifier.confidence_of rule_result
            <? Classifier.confidence_of (Classifier.ml_classification clf e))%float
    eqn:Hlt.
  - split; [|by apply ltb_leb]. right. split; [done|]. split; [done|].
    split; [done|]. split; [done|].
    destruct (Classifier.confidence_of (Classifier.ml_classification clf e)
              =? Classifier.confidence_of (Classifier.ml_classification clf e))%float
      eqn:Heq; [done|].
    exfalso. revert Hlt Heq.
    rewrite FloatAxioms.ltb_spec, FloatAxioms.eqb_spec. unfold SFltb, SFeqb.
    destruct (SFcompare (Prim2SF (Classifier.confidence_of rule_result))
                (Prim2SF (Classifier.confidence_of (Classifier.ml_classification clf e))))
      as [c|] eqn:Hc; [|done].
    rewrite SFcompare_antisym in Hc.
    destruct (SFcompare
                (Prim2SF (Classifier.confidence_of (Classifier.ml_classification clf e)))
                (Prim2SF (Classifier.confidence_of rule_result))) as [c'|] eqn:Hc';
      [|done].
    by rewrite (SFcompare_refl _ _ _ Hc').
  - split; [by left|by apply leb_refl].
Qed.

Lemma statistical_stage_witness :
  Classifier.classify_attack (Classifier.new_classifier true Sample.scan_model)
    Sample.failed_login
  = Classifier.RuleBased "brute_force" 0.65%float
      ["Failed password for.*from.*port"]
      [ ("failed_login", IBool true); ("multiple_attempts", IBool true);
        ("common_passwords", IBool true); ("username_enumeration", IBool false) ].
Proof.
  destruct (statistical_stage_never_lowers
              (Classifier.new_classifier true Sample.scan_model) Sample.failed_login
              (Classifier.RuleBased "brute_force" 0.65%float
                 ["Failed password for.*from.*port"]
                 [ ("failed_login", IBool true); ("multiple_attempts", IBool true);
                   ("common_passwords", IBool true);
                   ("username_enumeration", IBool false) ]))
    as [[Hrule|(_ & _ & _ & Hlt & _)] _]; [by vm_compute|exact Hrule|].
  by vm_compute in Hlt.
Defined.

(** ** The same batch, analysed again and again *)
Section RepeatedBatch.
Import Analyzer.

Lemma extract_features_known self other logs :
  known_malicious_ips other = known_malicious_ips self →
  extract_features other logs = extract_features self logs.
Proof. intros Hk. unfold extract_features, pattern_of. by rewrite Hk. Qed.

Lemma pass_state self now logs features :
  extract_features self logs = Ok features →
  (analyze_logs self now logs).2 = (get_reputation_updates self features).1.
Proof.
  intros Hf.
  destruct (analyze_logs_cases self now logs)
    as [[-> ->]|[(why & Hw & _)|(features' & _ & Hf' & ->)]].
  - by injection Hf as <-.
  - congruence.
  - simpl. congruence.
Qed.

Lemma decayed_score_closed self ip freq :
  0 ≤ score_before self ip →
  decayed_score self ip freq = Z.max 0 (score_before self ip - penalty_of self ip freq).
Proof. unfold decayed_score, penalty_of. case_bool_decide; lia. Qed.

Lemma score_before_nonneg self ip : scores_bounded self → 0 ≤ score_before self ip.
Proof.
  intros Hb. unfold score_before.
  destruct (reputation_scores self !! ip) as [s|] eqn:Hs; simpl; [|lia].
  by apply (Hb ip s).
Qed.

Lemma repeated_passes_score self logs features (clocks : list string) ip freq :
  scores_bounded self →
  extract_features self logs = Ok features →
  (ip, freq) ∈ ip_frequency features →
  score_before (run_passes self (map (fun now => (now, logs)) clocks)) ip
  = Z.max 0 (score_before self ip - Z.of_nat (length clocks) * penalty_of self ip freq).
Proof.
  intros Hb Hf Hin. revert self Hb Hf.
  induction clocks as [|now clocks IH]; intros self Hb Hf.
  { simpl. pose proof (score_before_nonneg self ip Hb). lia. }
  pose proof (extract_features_well_formed self logs features Hf) as Hwf.
  pose proof (wf_ip_keys _ Hwf) as Hnd.
  pose proof (wf_ip_pos _ Hwf _ _ Hin) as Hpos.
  unfold run_passes. cbn [map fold_left fst snd].
  fold (run_passes (analyze_logs self now logs).2 (map (fun now => (now, logs)) clocks)).
  set (next := (analyze_logs self now logs).2).
  assert (known_malicious_ips next = known_malicious_ips self) as Hk.
  { unfold next. rewrite (pass_state _ _ _ _ Hf). apply reputation_fold_known. }
  assert (score_before next ip = decayed_score self ip freq) as Hscore.
  { unfold next, score_before at 1. rewrite (pass_state _ _ _ _ Hf).
    unfold get_reputation_updates. rewrite reputation_fold_scores by done.
    by rewrite (lookup_NoDup _ _ _ Hnd Hin). }
  rewrite IH.
  - rewrite Hscore. unfold penalty_of at 1. rewrite Hk. fold (penalty_of self ip freq).
    rewrite decayed_score_closed by by apply score_before_nonneg.
    assert (0 ≤ penalty_of self ip freq) as Hq by (unfold penalty_of; case_bool_decide; lia).
    assert (0 ≤ Z.of_nat (length clocks) * penalty_of self ip freq) as Hprod
      by (apply Z.mul_nonneg_nonneg; lia).
    rewrite length_cons, Nat2Z.inj_succ, Z.mul_succ_l. lia.
  - by apply analyze_logs_scores_bounded.
  - by rewrite (extract_features_known self next logs Hk).
Qed.

End RepeatedBatch.

(** X21. Analysing the same batch again is not idempotent: it decays the
    scores again. Starting from scores within [0,100], after n passes
    over one batch (whatever the clock readings) the score of a source
    of its frequency table is max(0, s - n*p), where s is the score the
    source started with (50 if unseen) and p, between 2 and 60, is
    min(2*frequency, 40) plus 20 for a known-malicious source. After
    fifty passes the score is 0. *)
Theorem repeated_batch_decay (self : Analyzer.HoneypotAIAnalyzer) logs features
    (clocks : list string) ip freq :
  scores_bounded self →
  Analyzer.extract_features self logs = Ok features →
  (ip, freq) ∈ ip_frequency features →
  let after := run_passes self (map (fun now => (now, logs)) clocks) in
  score_before after ip
  = Z.max 0 (score_before self ip - Z.of_nat (length clocks) * penalty_of self ip freq)
  ∧ 2 ≤ penalty_of self ip freq ≤ 60
  ∧ ((50 ≤ length clocks)%nat → score_before after ip = 0).
Proof.
  intros Hb Hf Hin. cbv zeta.
  pose proof (repeated_passes_score self logs features clocks ip freq Hb Hf Hin) as Hscore.
  pose proof (wf_ip_pos _ (extract_features_well_formed self logs features Hf) _ _ Hin)
    as Hpos.
  assert (2 ≤ penalty_of self ip freq ≤ 60) as Hq
    by (unfold penalty_of; case_bool_decide; lia).
  split; [exact Hscore|]. split; [exact Hq|].
  intros Hfifty. rewrite Hscore.
  assert (score_before self ip ≤ 100) as Hmax.
  { unfold score_before.
    destruct (Analyzer.reputation_scores self !! ip) as [s|] eqn:Hs; simpl; [|lia].
    by apply (Hb ip s). }
  nia.
Qed.

Lemma repeated_batch_witness :
  score_before
    (run_passes Analyzer.new_analyzer
       (map (fun now => (now, Sample.sweep)) [Sample.clock; Sample.clock]))
    "203.0.113.9"
  = 0.
Proof.
  assert (∃ features,
            Analyzer.extract_features Analyzer.new_analyzer Sample.sweep = Ok features
            ∧ ("203.0.113.9", 22) ∈ ip_frequency features) as (features & Hf & Hin).
  { eexists. split; [by vm_compute|]. left. }
  destruct (repeated_batch_decay Analyzer.new_analyzer Sample.sweep features
              [Sample.clock; Sample.clock] "203.0.113.9" 22
              new_analyzer_scores_bounded Hf Hin) as (Hscore & _).
  rewrite Hscore. by vm_compute.
Defined.

(** ** The sources the attacks list covers *)
Section ListedSources.
Import Analyzer.

(** A source of the batch that the frequency table leaves out: the table
    is full, and none of its sources has fewer events. *)
Lemma unlisted_source self logs features ip q :
  extract_features self logs = Ok features →
  ip ∈ (ip_frequency features).*1 →
  Some q ∈ map src_ip logs → q ∉ (ip_frequency features).*1 →
  events_of logs q ≤ events_of logs ip ∧ length (ip_frequency features) = 10%nat.
Proof.
  intros (Hips & _)%extract_features_tables. rewrite Hips. clear Hips.
  destruct (DataFrame.has_column (map src_ip logs)); [|by intros ?%elem_of_nil].
  set (vc := DataFrame.value_counts (map src_ip logs)).
  unfold DataFrame.head. intros Hip Hq Hnot.
  apply list_elem_of_fmap in Hip as ([ip' n] & -> & Hip). simpl.
  assert ((ip', n) ∈ vc) as Hin
    by (apply elem_of_take in Hip as (i & Hi & _); by eapply list_elem_of_lookup_2).
  apply elem_of_value_counts in Hin as [_ ->].
  assert ((q, events_of logs q) ∈ drop 10 vc) as Hqd.
  { assert ((q, events_of logs q) ∈ vc) as Hqv
      by (apply elem_of_value_counts; split; [by apply cells_of_column|done]).
    rewrite <- (take_drop 10 vc) in Hqv. apply elem_of_app in Hqv as [Hqv|Hqv]; [|done].
    exfalso. apply Hnot. apply list_elem_of_fmap. by eexists (_, _). }
  split.
  - pose proof (value_counts_descending (map src_ip logs)) as Hs. fold vc in Hs.
    unfold descending in Hs. rewrite <- (take_drop 10 vc) in Hs.
    exact (sorted_app_order _ _ _ _ _ Hs Hip Hqd).
  - rewrite length_take.
    assert (length (drop 10 vc) ≠ 0)%nat as Hlen
      by (destruct (drop 10 vc); [by apply elem_of_nil in Hqd|done]).
    rewrite length_drop in Hlen. lia.
Qed.

End ListedSources.

(** What the classification step makes of the features of a batch. *)
Lemma classify_attacks_of_features (self : Analyzer.HoneypotAIAnalyzer) logs features :
  Analyzer.extract_features self logs = Ok features →
  Forall (fun a => a_type a = "brute_force" ∨ a_type a = "port_scan")
    (Analyzer.classify_attacks features)
  ∧ (∀ ip,
      brute_force_entry (Analyzer.classify_attacks features) ip
        (DataFrame.lookup ip (patterns features))
      ∧ port_scan_entry (Analyzer.classify_attacks features) ip
          (DataFrame.lookup ip (patterns features))
      ∧ (length (entries_of "brute_force" ip (Analyzer.classify_attacks features)) ≤ 1)%nat
      ∧ (length (entries_of "port_scan" ip (Analyzer.classify_attacks features)) ≤ 1)%nat)
  ∧ (∀ ip data, DataFrame.lookup ip (patterns features) = Some data →
      frequency data = DataFrame.count ip (DataFrame.cells (map src_ip logs))
      ∧ ports_targeted data
        = DataFrame.nunique (map dst_port (Analyzer.rows_of ip logs)))
  ∧ (∀ ip, is_Some (DataFrame.lookup ip (patterns features))
           ↔ ip ∈ (ip_frequency features).*1)
  ∧ (length (ip_frequency features) ≤ 10)%nat
  ∧ (∀ q, Some q ∈ map src_ip logs → DataFrame.lookup q (patterns features) = None →
       entries_of "brute_force" q (Analyzer.classify_attacks features) = []
       ∧ entries_of "port_scan" q (Analyzer.classify_attacks features) = []
       ∧ length (ip_frequency features) = 10%nat
       ∧ ∀ ip, ip ∈ (ip_frequency features).*1 → events_of logs q ≤ events_of logs ip).
Proof.
  intros Hf. pose proof (extract_features_well_formed self logs features Hf) as Hwf.
  assert (NoDup (patterns features).*1) as Hnd.
  { rewrite (wf_pattern_keys _ Hwf). apply (wf_ip_keys _ Hwf). }
  assert (∀ ip, is_Some (DataFrame.lookup ip (patterns features))
                ↔ ip ∈ (ip_frequency features).*1) as Hlisted.
  { intros ip. rewrite <- (wf_pattern_keys _ Hwf), <- not_eq_None_Some.
    rewrite lookup_None_not_key. split; [apply dec_stable|by intros ? ?]. }
  split; [apply classify_attacks_kinds|]. split; [|split; [|split; [done|split]]].
  - intros ip.
    pose proof (classify_attacks_brute_force features ip Hnd) as Hb.
    pose proof (classify_attacks_port_scan features ip Hnd) as Hp.
    split; [done|]. split; [done|]. split.
    + unfold brute_force_entry in Hb.
      destruct (DataFrame.lookup ip (patterns features)) as [data|];
        [destruct (10 <? frequency data); [destruct Hb as (a & -> & _)|rewrite Hb]
        |rewrite Hb]; simpl; lia.
    + unfold port_scan_entry in Hp.
      destruct (DataFrame.lookup ip (patterns features)) as [data|];
        [destruct (5 <? ports_targeted data); [destruct Hp as (a & -> & _)|rewrite Hp]
        |rewrite Hp]; simpl; lia.
  - intros ip data Hl%lookup_Some_elem_of.
    by destruct (extract_features_summary self logs features ip data Hf Hl) as (? & ? & _).
  - apply (wf_ip_size _ Hwf).
  - intros q Hq Hnone.
    pose proof (classify_attacks_brute_force features q Hnd) as Hb.
    pose proof (classify_attacks_port_scan features q Hnd) as Hp.
    rewrite Hnone in Hb, Hp. simpl in Hb, Hp. split; [done|]. split; [done|].
    assert (q ∉ (ip_frequency features).*1) as Hout.
    { intros Hin%Hlisted. rewrite Hnone in Hin. by destruct Hin. }
    assert (ip_frequency features ≠ []) as Hsome.
    { destruct (extract_features_tables self logs features Hf) as (Hips & _).
      rewrite Hips.
      assert (DataFrame.has_column (map src_ip logs) = true) as ->.
      { apply existsb_exists. exists (Some q).
        split; [by apply list_elem_of_In|by apply bool_decide_eq_true_2]. }
      assert ((q, events_of logs q) ∈ DataFrame.value_counts (map src_ip logs)) as Hin
        by (apply elem_of_value_counts; split; [by apply cells_of_column|done]).
      unfold DataFrame.head.
      destruct (DataFrame.value_counts (map src_ip logs)); [by apply elem_of_nil in Hin|done]. }
    destruct (ip_frequency features) as [|[ip0 n0] table] eqn:Htable; [done|].
    rewrite <- Htable in *.
    assert (ip0 ∈ (ip_frequency features).*1) as Hip0 by (rewrite Htable; left).
    split; [by destruct (unlisted_source self logs features ip0 q Hf Hip0 Hq Hout)|].
    intros ip Hip. by destruct (unlisted_source self logs features ip q Hf Hip Hq Hout).
Qed.


(** C9. For every batch, the attacks list of the classification step
    holds only brute_force and port_scan entries. For every source it
    holds at most one brute_force entry, present exactly when the summary
    of the source counts more than 10 events, with confidence
    min(0.9, frequency/100), and at most one port_scan entry, present
    exactly when the summary counts more than 5 distinct ports, with
    confidence min(0.95, ports_targeted/20). A summary holds the number
    of events of the source in the batch and the number of distinct
    ports they target. It is kept for the sources of the frequency table
    only, which are at most ten: a source of the batch without a summary
    has no entry, however many its events, and there is one only when
    the table holds ten sources, none of them with fewer events. On a
    batch whose features cannot be extracted the pass stops before the
    step, and the attacks list of its report is empty. *)
Theorem classify_attacks_spec (self : Analyzer.HoneypotAIAnalyzer) now logs :
  match Analyzer.extract_features self logs with
  | Ok features =>
      Forall (fun a => a_type a = "brute_force" ∨ a_type a = "port_scan")
        (Analyzer.classify_attacks features)
      ∧ (∀ ip,
          brute_force_entry (Analyzer.classify_attacks features) ip
            (DataFrame.lookup ip (patterns features))
          ∧ port_scan_entry (Analyzer.classify_attacks features) ip
              (DataFrame.lookup ip (patterns features))
          ∧ (length (entries_of "brute_force" ip (Analyzer.classify_attacks features)) ≤ 1)%nat
          ∧ (length (entries_of "port_scan" ip (Analyzer.classify_attacks features)) ≤ 1)%nat)
      ∧ (∀ ip data, DataFrame.lookup ip (patterns features) = Some data →
          frequency data = DataFrame.count ip (DataFrame.cells (map src_ip logs))
          ∧ ports_targeted data
            = DataFrame.nunique (map dst_port (Analyzer.rows_of ip logs)))
      ∧ (∀ ip, is_Some (DataFrame.lookup ip (patterns features))
               ↔ ip ∈ (ip_frequency features).*1)
      ∧ (length (ip_frequency features) ≤ 10)%nat
      ∧ (∀ q, Some q ∈ map src_ip logs → DataFrame.lookup q (patterns features) = None →
           entries_of "brute_force" q (Analyzer.classify_attacks features) = []
           ∧ entries_of "port_scan" q (Analyzer.classify_attacks features) = []
           ∧ length (ip_frequency features) = 10%nat
           ∧ ∀ ip, ip ∈ (ip_frequency features).*1 → events_of logs q ≤ events_of logs ip)
  | Fault why =>
      Analyzer.run_pass self now logs = Fault why
      ∧ Analyzer.attacks (Analyzer.analyze_logs self now logs).1 = []
  end.
Proof.
  destruct (Analyzer.extract_features self logs) as [features|why] eqn:Hf.
  - by apply (classify_attacks_of_features self).
  - assert (Analyzer.run_pass self now logs = Fault why) as Hrun.
    { unfold Analyzer.run_pass. destruct logs as [|e logs]; [done|]. by rewrite Hf. }
    split; [exact Hrun|]. unfold Analyzer.analyze_logs. by rewrite Hrun.
Qed.

Lemma classify_attacks_witness :
  ∃ features,
    Analyzer.extract_features Analyzer.new_analyzer Sample.sweep = Ok features
    ∧ map a_type (Analyzer.classify_attacks features) = ["brute_force"; "port_scan"]
    ∧ Forall (fun a => a_type a = "brute_force" ∨ a_type a = "port_scan")
        (Analyzer.classify_attacks features)
    ∧ (∀ ip,
        brute_force_entry (Analyzer.classify_attacks features) ip
          (DataFrame.lookup ip (patterns features))
        ∧ port_scan_entry (Analyzer.classify_attacks features) ip
            (DataFrame.lookup ip (patterns features))
        ∧ (length (entries_of "brute_force" ip (Analyzer.classify_attacks features)) ≤ 1)%nat
        ∧ (length (entries_of "port_scan" ip (Analyzer.classify_attacks features)) ≤ 1)%nat)
    ∧ (∀ ip data, DataFrame.lookup ip (patterns features) = Some data →
        frequency data = DataFrame.count ip (DataFrame.cells (map src_ip Sample.sweep))
        ∧ ports_targeted data
          = DataFrame.nunique (map dst_port (Analyzer.rows_of ip Sample.sweep))).
Proof.
  pose proof (classify_attacks_spec Analyzer.new_analyzer Sample.clock Sample.sweep) as Hspec.
  destruct (Analyzer.extract_features Analyzer.new_analyzer Sample.sweep)
    as [features|why] eqn:Hf; [|by vm_compute in Hf].
  exists features. split; [done|].
  destruct Hspec as (Hkinds & Hentries & Hsummary & _).
  split; [|exact (conj Hkinds (conj Hentries Hsummary))].
  vm_compute in Hf. injection Hf as <-. by vm_compute.
Defined.

(** Read over the sources of a batch, the rule fails on a batch of eleven
    sources: the eleventh sends eleven events and has no brute_force
    entry. *)
Lemma classify_attacks_refuted :
  10 < events_of Sample.crowd "10.1.0.11"
  ∧ (∃ features,
       Analyzer.extract_features Analyzer.new_analyzer Sample.crowd = Ok features
       ∧ entries_of "brute_force" "10.1.0.11" (Analyzer.classify_attacks features) = [])
  ∧ (brute_force_per_source Sample.crowd → False).
Proof.
  assert (10 < events_of Sample.crowd "10.1.0.11") as Heleven by by vm_compute.
  split; [exact Heleven|].
  split; [eexists; split; by vm_compute|].
  intros (features & Hf & Hrule).
  assert (entries_of "brute_force" "10.1.0.11" (Analyzer.classify_attacks features) = [])
    as Hnone.
  { vm_compute in Hf. injection Hf as <-. by vm_compute. }
  apply Hrule in Heleven. done.
Qed.
